(** * ics.py: events, todos, todo lists and calendars

    A shallow embedding of [ics/event.py], [ics/todo.py], [ics/todolist.py]
    and [ics/icalendar.py], and the properties of the temporal model and of
    the interval collections proved about it.

    Conventions of the embedding.
    - An Arrow instant is an integer number of microseconds since the epoch
      (UTC); a [datetime.timedelta] is an integer number of microseconds.
      The range limits of both Python types are not modelled.
    - A Python exception is a value of [exn]; a call that may raise returns
      a [result]; a method that mutates [self] and may raise returns an
      [outcome], which keeps the state of [self] at the moment of the raise.
    - An ordering comparison between an [Arrow] and [None], a number or a
      string is false, whichever side the [Arrow] is on, as is [==]
      between them; [Arrow - None] raises [NotImplementedError].
    - A text is the sequence of the bytes of its UTF-8 encoding.
    - Lists and containers that Python shares by reference live in a
      [store], and the objects hold their addresses. *)

From stdpp Require Import gmap strings list.
From Stdlib Require Import ZArith Lia Sorted.

#[local] Set Warnings "-clear-no-such-hyp".

Open Scope Z_scope.

(** ** Exceptions and results *)

Inductive exn :=
  | ValueError
  | TypeError
  | AttributeError
  | IndexError
  | NotImplementedError
  | UnboundLocalError
  | ParserError.

Global Instance exn_eq_dec : EqDecision exn.
Proof. solve_decision. Defined.

Inductive result (A : Type) :=
  | Ok (a : A)
  | Raise (e : exn).
Arguments Ok {A} a.
Arguments Raise {A} e.

Global Instance result_ret : MRet result := fun A a => Ok a.
Global Instance result_bind : MBind result := fun A B f m =>
  match m with
  | Ok a => f a
  | Raise e => Raise e
  end.

(** The state of [self] after a call of a mutating method: the call
    returned ([Done]) or raised ([Raised]); either way the mutations made
    so far stay. *)
Inductive outcome (S : Type) :=
  | Done (s : S)
  | Raised (e : exn) (s : S).
Arguments Done {S} s.
Arguments Raised {S} e s.

Definition state_of {S} (o : outcome S) : S :=
  match o with
  | Done s => s
  | Raised _ s => s
  end.

(** ** Instants and durations *)

Abbreviation instant := Z (only parsing).
Abbreviation timedelta := Z (only parsing).

Definition usec_per_second : Z := 1000000.
Definition usec_per_day : Z := 86400 * usec_per_second.

(** The two begin precisions the sources write: ['second'] and ['day']. *)
Inductive precision :=
  | second
  | day.

Global Instance precision_eq_dec : EqDecision precision.
Proof. solve_decision. Defined.

(** [arrow.replace( **{precision + 's': +1})] shifts by this much. *)
Definition unit_of (p : precision) : timedelta :=
  match p with
  | second => usec_per_second
  | day => usec_per_day
  end.

(** [Arrow.floor('day')] and [Arrow.span('day')], in UTC. *)
Definition floor_day (t : instant) : instant := t - t mod usec_per_day.
Definition span_day (t : instant) : instant * instant :=
  (floor_day t, floor_day t + usec_per_day - 1).

(** Days from 1970-01-01 to a date of the proleptic Gregorian calendar, and
    the instant of a UTC wall-clock time; only used to write the scenarios
    with readable dates. *)
Definition days_from_civil (y m d : Z) : Z :=
  let y' := if m <=? 2 then y - 1 else y in
  let era := y' / 400 in
  let yoe := y' - era * 400 in
  let mp := (m + 9) mod 12 in
  let doy := (153 * mp + 2) / 5 + d - 1 in
  let doe := yoe * 365 + yoe / 4 - yoe / 100 + doy in
  era * 146097 + doe - 719468.

Definition utc (y m d hh mm ss : Z) : instant :=
  (days_from_civil y m d * 86400 + hh * 3600 + mm * 60 + ss) * usec_per_second.

(** ** Python values handed to the setters *)

(** The values the models pass where the sources accept "anything
    Arrow-compatible": [None], an integer, a string, an [Arrow]. A string
    carries what arrow's parser makes of it ([None] when the parser rejects
    the text), as the parser is an external collaborator. *)
Inductive pyval :=
  | PNone
  | PInt (n : Z)
  | PStr (s : string) (parsed : option instant)
  | PArrow (t : instant).

Global Instance pyval_eq_dec : EqDecision pyval.
Proof. solve_decision. Defined.

(** Python truthiness: ["if value:"]. An [Arrow] is always true. *)
Definition truthy (v : pyval) : bool :=
  match v with
  | PNone => false
  | PInt n => negb (n =? 0)
  | PStr s _ => negb (String.eqb s "")
  | PArrow _ => true
  end.

(** Python [==] between two such values; an [Arrow] is equal to another
    [Arrow] only. *)
Definition py_eq (a b : pyval) : bool :=
  match a, b with
  | PNone, PNone => true
  | PInt n, PInt m => n =? m
  | PStr s _, PStr s' _ => String.eqb s s'
  | PArrow t, PArrow t' => t =? t'
  | _, _ => false
  end.

(** Modelled from the spec: [get_arrow] of [ics/utils.py], which is not
    among the sources: "coerce to instants (or are open-ended if absent)",
    by "a single explicit conversion function" that "fails with a parse
    error on anything else". [None] stays [None], an [Arrow] is kept, an
    integer is a POSIX timestamp, a string goes through the parser. *)
Definition get_arrow (v : pyval) : result (option instant) :=
  match v with
  | PNone => Ok None
  | PArrow t => Ok (Some t)
  | PInt n => Ok (Some (n * usec_per_second))
  | PStr _ (Some t) => Ok (Some t)
  | PStr _ None => Raise ParserError
  end.

(** The values given as a duration: [None], a [timedelta], a dict of
    keyword arguments for [timedelta( **value)], or a number of days for
    [timedelta(value)]. *)
Inductive durval :=
  | DNone
  | DDelta (d : timedelta)
  | DDict (kw : list (string * Z))
  | DNum (n : Z).

Definition dur_truthy (v : durval) : bool :=
  match v with
  | DNone => false
  | DDelta d => negb (d =? 0)
  | DDict kw => match kw with [] => false | _ => true end
  | DNum n => negb (n =? 0)
  end.

(** Truthiness of a stored duration: [timedelta(0)] is false. *)
Definition delta_truthy (d : option timedelta) : bool :=
  match d with
  | Some d => negb (d =? 0)
  | None => false
  end.

Definition timedelta_unit (k : string) : option Z :=
  if String.eqb k "microseconds" then Some 1
  else if String.eqb k "milliseconds" then Some 1000
  else if String.eqb k "seconds" then Some usec_per_second
  else if String.eqb k "minutes" then Some (60 * usec_per_second)
  else if String.eqb k "hours" then Some (3600 * usec_per_second)
  else if String.eqb k "days" then Some usec_per_day
  else if String.eqb k "weeks" then Some (7 * usec_per_day)
  else None.

(** [timedelta( **kw)]: the sum of the keyword arguments; an unknown keyword
    raises [TypeError]. *)
Fixpoint timedelta_kw (kw : list (string * Z)) : result timedelta :=
  match kw with
  | [] => Ok 0
  | (k, n) :: kw' =>
      match timedelta_unit k with
      | Some u => d ← timedelta_kw kw'; Ok (n * u + d)
      | None => Raise TypeError
      end
  end.

(** ** The store of shared mutable objects *)

Abbreviation addr := nat (only parsing).

(** A [Container] of [ics/parse.py] (its name and its lines) or a plain
    Python list of strings. *)
Inductive obj :=
  | OContainer (name : string) (children : list string)
  | OList (items : list string).

Global Instance obj_eq_dec : EqDecision obj.
Proof. solve_decision. Defined.

Abbreviation store := (gmap nat obj) (only parsing).

Definition alloc (σ : gmap nat obj) (o : obj) : nat * gmap nat obj :=
  let a := fresh (dom σ) in (a, <[a := o]> σ).

(** Modelled from the spec: [Container.clone] of [ics/parse.py], which is
    not among the sources: "a fully independent deep copy (including
    [_unused] containers)". A new object with the same content. *)
Definition container_clone (σ : gmap nat obj) (a : nat) : result (nat * gmap nat obj) :=
  match σ !! a with
  | Some o => Ok (alloc σ o)
  | None => Raise AttributeError
  end.

(** [l.append(s)] on the list object at an address, and the content of
    that object. *)
Definition list_append (σ : gmap nat obj) (a : nat) (s : string) : result (gmap nat obj) :=
  match σ !! a with
  | Some (OList l) => Ok (<[a := OList (l ++ [s])]> σ)
  | _ => Raise AttributeError
  end.

Definition list_content (σ : gmap nat obj) (a : nat) : option (list string) :=
  match σ !! a with
  | Some (OList l) => Some l
  | _ => None
  end.

(** [container.append(line)] on the container at an address, and the
    lines of that container. *)
Definition container_append (σ : gmap nat obj) (a : nat) (line : string)
    : result (gmap nat obj) :=
  match σ !! a with
  | Some (OContainer n ch) => Ok (<[a := OContainer n (ch ++ [line])]> σ)
  | _ => Raise AttributeError
  end.

Definition container_content (σ : gmap nat obj) (a : nat) : option (list string) :=
  match σ !! a with
  | Some (OContainer _ ch) => Some ch
  | _ => None
  end.

(** The ordering comparisons of Python 3 between two values that are
    strings or [None]: [None] on either side raises [TypeError]. Strings
    compare character by character. *)
Definition str_cmp (op : string -> string -> bool) (a b : option string) : result bool :=
  match a, b with
  | Some a, Some b => Ok (op a b)
  | _, _ => Raise TypeError
  end.

(** The ordering comparisons between two values that are instants or
    [None]. The four comparison methods of an [Arrow] answer [False] for
    anything that is not an instant, and with [None] on the left Python
    asks the instant on the right, which answers [False] as well; [None]
    against [None] raises [TypeError]. *)
Definition arrow_cmp (op : Z -> Z -> bool) (a b : option instant) : result bool :=
  match a, b with
  | Some a, Some b => Ok (op a b)
  | None, None => Raise TypeError
  | _, _ => Ok false
  end.

(** The ordering comparisons between two of the values that a due may
    hold: two instants, two integers or two strings compare; an instant
    against anything else, on either side, is [False]; any other pair
    raises [TypeError]. *)
Definition pyval_cmp (opz : Z -> Z -> bool) (ops : string -> string -> bool)
    (a b : pyval) : result bool :=
  match a, b with
  | PArrow x, PArrow y => Ok (opz x y)
  | PArrow _, _ | _, PArrow _ => Ok false
  | PInt x, PInt y => Ok (opz x y)
  | PStr x _, PStr y _ => Ok (ops x y)
  | _, _ => Raise TypeError
  end.

(** [list.sort()] on strings, as an insertion sort (the order of Python
    on strings is the order of their characters; a sort is stable, and
    any sort gives the same list). *)
Fixpoint insert_sorted (x : string) (l : list string) : list string :=
  match l with
  | [] => [x]
  | y :: l' => if String.leb x y then x :: l else y :: insert_sorted x l'
  end.

Definition sort_strings (l : list string) : list string :=
  foldr insert_sorted [] l.

(** What iterating over the object at an address yields: the items of a
    list, the lines of a container. *)
Definition iterate (σ : gmap nat obj) (a : nat) : result (list string) :=
  match σ !! a with
  | Some (OList l) => Ok l
  | Some (OContainer _ ch) => Ok ch
  | None => Raise AttributeError
  end.

(** A [ContentLine] as the emitters build it: a name and a value, which
    is a text, a Python value handed over as it is, or the list at an
    address. *)
Inductive line_value :=
  | LText (s : string)
  | LVal (v : pyval)
  | LRef (a : nat).

Record ContentLine := {
  line_name : string;
  line_value_of : line_value
}.

(** Truthiness of an optional string: [None] and [''] are false. *)
Definition str_truthy (s : option string) : bool :=
  match s with
  | Some s => negb (String.eqb s "")
  | None => false
  end.

(** A Python text is held as the bytes of its UTF-8 encoding, and
    [code_points] reads back its characters, which is what [ord] is
    applied to: one byte below 128, or a lead byte followed by one, two
    or three continuation bytes. A byte that starts no such sequence
    (there is none in a Python text) counts as a character of its own. *)
Definition byte_of (c : Ascii.ascii) : Z := Z.of_nat (Ascii.nat_of_ascii c).

Definition continuation (b : Z) : bool := (128 <=? b) && (b <? 192).

Fixpoint code_points (s : string) : list Z :=
  match s with
  | EmptyString => []
  | String c0 s1 =>
      let b0 := byte_of c0 in
      match s1 with
      | EmptyString => [b0]
      | String c1 s2 =>
          let b1 := byte_of c1 in
          if (192 <=? b0) && (b0 <? 224) && continuation b1 then
            ((b0 - 192) * 64 + (b1 - 128)) :: code_points s2
          else
            match s2 with
            | EmptyString => b0 :: code_points s1
            | String c2 s3 =>
                let b2 := byte_of c2 in
                if (224 <=? b0) && (b0 <? 240) && continuation b1
                   && continuation b2 then
                  ((b0 - 224) * 4096 + (b1 - 128) * 64 + (b2 - 128))
                  :: code_points s3
                else
                  match s3 with
                  | EmptyString => b0 :: code_points s1
                  | String c3 s4 =>
                      let b3 := byte_of c3 in
                      if (240 <=? b0) && (b0 <? 248) && continuation b1
                         && continuation b2 && continuation b3 then
                        ((b0 - 240) * 262144 + (b1 - 128) * 4096
                         + (b2 - 128) * 64 + (b3 - 128))
                        :: code_points s4
                      else b0 :: code_points s1
                  end
            end
      end
  end.

(** ['%.3d' % n]: the decimal digits of [n], at least three of them. Put
    after the digits read so far, they shift these by [ord3_shift n]. *)
Definition ord3_shift (n : Z) : Z :=
  if n <? 1000 then 1000
  else if n <? 10000 then 10000
  else if n <? 100000 then 100000
  else if n <? 1000000 then 1000000
  else 10000000.

(** [int(''.join(map(ord3, uid)))] of the two [__hash__] methods: the
    digits of the characters one after the other, read as one number;
    [int('')] raises [ValueError]. *)
Fixpoint ord3_join (l : list Z) (acc : Z) : Z :=
  match l with
  | [] => acc
  | n :: l' => ord3_join l' (acc * ord3_shift n + n)
  end.

Definition uid_hash (uid : string) : result Z :=
  if String.eqb uid "" then Raise ValueError
  else Ok (ord3_join (code_points uid) 0).

(** ** Events ([ics/event.py]) *)

Module Event.

Record t := {
  _duration : option timedelta;
  _end_time : option instant;
  _begin : option instant;
  _begin_precision : option precision;
  uid : string;
  description : option string;
  created : option instant;
  location : option string;
  _unused : nat;
  name : option string
}.

Definition with_begin (self : t) (b : option instant) (p : option precision) : t :=
  {| _duration := _duration self; _end_time := _end_time self;
     _begin := b; _begin_precision := p;
     uid := uid self; description := description self;
     created := created self; location := location self;
     _unused := _unused self; name := name self |}.

Definition with_end_time (self : t) (e : option instant) : t :=
  {| _duration := _duration self; _end_time := e;
     _begin := _begin self; _begin_precision := _begin_precision self;
     uid := uid self; description := description self;
     created := created self; location := location self;
     _unused := _unused self; name := name self |}.

Definition with_duration (self : t) (d : option timedelta) : t :=
  {| _duration := d; _end_time := _end_time self;
     _begin := _begin self; _begin_precision := _begin_precision self;
     uid := uid self; description := description self;
     created := created self; location := location self;
     _unused := _unused self; name := name self |}.

Definition with_unused (self : t) (a : nat) : t :=
  {| _duration := _duration self; _end_time := _end_time self;
     _begin := _begin self; _begin_precision := _begin_precision self;
     uid := uid self; description := description self;
     created := created self; location := location self;
     _unused := a; name := name self |}.

(** [has_end]: [bool(self._end_time or self._duration)]. *)
Definition has_end (self : t) : bool :=
  match _end_time self with
  | Some _ => true
  | None => delta_truthy (_duration self)
  end.

(** The [begin] property. *)
Definition begin (self : t) : option instant := _begin self.

(** The [begin] setter. *)
Definition set_begin (value : pyval) (self : t) : outcome t :=
  match get_arrow value with
  | Raise e => Raised e self
  | Ok value =>
      match value, _end_time self with
      | Some v, Some e =>
          if e <? v then Raised ValueError self
          else Done (with_begin self value (Some second))
      | _, _ => Done (with_begin self value (Some second))
      end
  end.

(** The [end] property. [None + timedelta] and [None + 's'] raise
    [TypeError]. *)
Definition get_end (self : t) : result (option instant) :=
  if delta_truthy (_duration self) then
    match begin self, _duration self with
    | Some b, Some d => Ok (Some (b + d))
    | _, _ => Raise TypeError
    end
  else
    match _end_time self with
    | Some e => Ok (Some e)
    | None =>
        match _begin self with
        | Some b =>
            match _begin_precision self with
            | Some p => Ok (Some (b + unit_of p))
            | None => Raise TypeError
            end
        | None => Ok None
        end
    end.

(** The [end] setter. When no begin is stored, [value < self._begin]
    compares an instant with [None], which is [False]: the end is
    stored. *)
Definition set_end (value : pyval) (self : t) : outcome t :=
  match get_arrow value with
  | Raise e => Raised e self
  | Ok None => Done (with_end_time self None)
  | Ok (Some v) =>
      match arrow_cmp Z.ltb (Some v) (_begin self) with
      | Raise e => Raised e self
      | Ok true => Raised ValueError self
      | Ok false => Done (with_duration (with_end_time self (Some v)) None)
      end
  end.

(** The [duration] property. [Arrow - None] raises
    [NotImplementedError] in arrow; [None - x] raises [TypeError]. *)
Definition get_duration (self : t) : result (option timedelta) :=
  if delta_truthy (_duration self) then Ok (_duration self)
  else
    e ← get_end self;
    match e with
    | Some e =>
        e' ← get_end self;
        match e', begin self with
        | Some e', Some b => Ok (Some (e' - b))
        | Some _, None => Raise NotImplementedError
        | None, _ => Raise TypeError
        end
    | None => Ok None
    end.

(** The conversion at the head of the [duration] setter. *)
Definition to_timedelta (value : durval) : result (option timedelta) :=
  match value with
  | DDict kw => d ← timedelta_kw kw; Ok (Some d)
  | DDelta d => Ok (Some d)
  | DNone => Ok None
  | DNum n => Ok (Some (n * usec_per_day))
  end.

(** The [duration] setter. *)
Definition set_duration (value : durval) (self : t) : outcome t :=
  match to_timedelta value with
  | Raise e => Raised e self
  | Ok value =>
      let self := if delta_truthy value then with_end_time self None else self in
      Done (with_duration self value)
  end.

(** The [all_day] property. *)
Definition all_day (self : t) : bool :=
  bool_decide (_begin_precision self = Some day) && negb (has_end self).

(** [make_all_day]: the precision is written before [self._begin.floor]
    is looked up, which raises [AttributeError] on [None]. *)
Definition make_all_day (self : t) : outcome t :=
  let self := with_begin self (_begin self) (Some day) in
  match _begin self with
  | None => Raised AttributeError self
  | Some b =>
      let self := with_begin self (Some (floor_day b)) (Some day) in
      let self := with_duration self None in
      Done (with_end_time self None)
  end.

(** [Event.__init__]. [uid_gen] is the string the uid generator returns
    at this call; the new [Container(name='VEVENT')] is allocated in the
    store. *)
Definition __init__ (uid_gen : string) (σ : gmap nat obj)
    (name : option string) (begin_ end_ : pyval) (duration : durval)
    (uid : option string) (description : option string) (created : pyval)
    (location : option string) : result (t * gmap nat obj) :=
  let uid := match uid with
             | Some u => if String.eqb u "" then uid_gen else u
             | None => uid_gen
             end in
  created ← get_arrow created;
  let '(a, σ) := alloc σ (OContainer "VEVENT" []) in
  let self := {| _duration := None; _end_time := None; _begin := None;
                 _begin_precision := None; uid := uid;
                 description := description; created := created;
                 location := location; _unused := a; name := name |} in
  match set_begin begin_ self with
  | Raised e _ => Raise e
  | Done self =>
      if dur_truthy duration && truthy end_ then Raise ValueError
      else if truthy end_ then
        match set_end end_ self with
        | Raised e _ => Raise e
        | Done self => Ok (self, σ)
        end
      else if dur_truthy duration then
        match set_duration duration self with
        | Raised e _ => Raise e
        | Done self => Ok (self, σ)
        end
      else Ok (self, σ)
  end.

(** [__eq__]: same uid. *)
Definition __eq__ (self other : t) : bool := String.eqb (uid self) (uid other).

(** [__hash__]. *)
Definition __hash__ (self : t) : result Z := uid_hash (uid self).

(** [clone]: [copy.copy(self)], then a clone of the [_unused] container. *)
Definition clone (σ : gmap nat obj) (self : t) : result (t * gmap nat obj) :=
  let clone := self in
  '(a, σ) ← container_clone σ (_unused clone);
  Ok (with_unused clone a, σ).

(** The extractors of [DTSTART], [DURATION] and [DTEND], given a line;
    their arguments are what [iso_to_arrow], [iso_precision] and
    [parse_duration] made of the line. *)
Definition start (value : instant) (p : precision) (event : t) : outcome t :=
  match set_begin (PArrow value) event with
  | Raised e event => Raised e event
  | Done event => Done (with_begin event (_begin event) (Some p))
  end.

Definition duration (value : timedelta) (event : t) : outcome t :=
  match _end_time event with
  | Some _ => Raised ValueError event
  | None => Done (with_duration event (Some value))
  end.

Definition end_ (value : instant) (event : t) : outcome t :=
  if delta_truthy (_duration event) then Raised ValueError event
  else Done (with_end_time event (Some value)).

(** The calls that change the temporal state of an event. *)
Inductive op :=
  | SetBegin (v : pyval)
  | SetEnd (v : pyval)
  | SetDuration (d : durval)
  | MakeAllDay
  | ExtractStart (v : instant) (p : precision)
  | ExtractDuration (d : timedelta)
  | ExtractEnd (v : instant).

Definition run (o : op) (self : t) : outcome t :=
  match o with
  | SetBegin v => set_begin v self
  | SetEnd v => set_end v self
  | SetDuration d => set_duration d self
  | MakeAllDay => make_all_day self
  | ExtractStart v p => start v p self
  | ExtractDuration d => duration d self
  | ExtractEnd v => end_ v self
  end.

(** The states an event goes through when it is built by the constructor
    and then changed by calls that satisfy [allowed]; the duration given to
    the constructor is handed to the duration setter and has to be allowed
    as such. A call that raises leaves the event in the state it had at the
    raise. *)
Inductive reachable (allowed : op -> bool) : t -> Prop :=
  | reach_init uid_gen σ name begin_ end_ duration uid description created
      location self σ' :
      allowed (SetDuration duration) = true ->
      __init__ uid_gen σ name begin_ end_ duration uid description created
        location = Ok (self, σ') ->
      reachable allowed self
  | reach_run o self :
      allowed o = true ->
      reachable allowed self ->
      reachable allowed (state_of (run o self)).

Definition any_op (o : op) : bool := true.

(** The property setters and [make_all_day]. *)
Definition setter_op (o : op) : bool :=
  match o with
  | SetBegin _ | SetEnd _ | SetDuration _ | MakeAllDay => true
  | _ => false
  end.

(** The same, where the duration setter is not given a negative
    duration. *)
Definition forward_op (o : op) : bool :=
  match o with
  | SetBegin _ | SetEnd _ | MakeAllDay => true
  | SetDuration d =>
      match to_timedelta d with
      | Ok (Some d) => 0 <=? d
      | _ => true
      end
  | _ => false
  end.

(** The four ordering methods: by name when neither event has a begin,
    by begin otherwise. (Compared with anything that is not an [Event]
    they raise [NotImplementedError]; here the other side is an event by
    its type.) *)
Definition __lt__ (self other : t) : result bool :=
  match begin self, begin other with
  | None, None => str_cmp String.ltb (name self) (name other)
  | _, _ => arrow_cmp Z.ltb (begin self) (begin other)
  end.

Definition __le__ (self other : t) : result bool :=
  match begin self, begin other with
  | None, None => str_cmp String.leb (name self) (name other)
  | _, _ => arrow_cmp Z.leb (begin self) (begin other)
  end.

Definition __gt__ (self other : t) : result bool :=
  match begin self, begin other with
  | None, None => str_cmp (fun a b => String.ltb b a) (name self) (name other)
  | _, _ => arrow_cmp Z.gtb (begin self) (begin other)
  end.

Definition __ge__ (self other : t) : result bool :=
  match begin self, begin other with
  | None, None => str_cmp (fun a b => String.leb b a) (name self) (name other)
  | _, _ => arrow_cmp Z.geb (begin self) (begin other)
  end.

(** [__or__]: the intersection of two events, as a pair; [(None, None)]
    when there is none. The end of [other] is read only when [self] has
    an end. *)
Definition __or__ (self other : t) : result (option instant * option instant) :=
  let begin_ :=
    match begin self, begin other with
    | Some a, Some b => Some (Z.max a b)
    | _, _ => None
    end in
  e1 ← get_end self;
  end_ ← match e1 with
         | Some a =>
             e2 ← get_end other;
             Ok (match e2 with Some b => Some (Z.min a b) | None => None end)
         | None => Ok None
         end;
  Ok (match begin_, end_ with
      | Some b, Some e => if b <? e then (Some b, Some e) else (None, None)
      | _, _ => (None, None)
      end).

Section Outputs.

(** The two formatting functions of [ics/utils.py], which are not among
    the sources, are parameters; [now] is the reading of the clock and
    [uid_gen] what the uid generator returns. An emitter appends to the
    container it is given. *)
Context (arrow_to_iso : instant -> string).
Context (timedelta_to_duration : timedelta -> string).
Context (now : instant) (uid_gen : string).

Definition o_created (event : t) (container : list ContentLine) : result (list ContentLine) :=
  let instant := match created event with Some c => c | None => now end in
  Ok (container ++ [{| line_name := "DTSTAMP"; line_value_of := LText (arrow_to_iso instant) |}]).

Definition o_start (event : t) (container : list ContentLine) : result (list ContentLine) :=
  match begin event with
  | Some b =>
      Ok (container ++ [{| line_name := "DTSTART"; line_value_of := LText (arrow_to_iso b) |}])
  | None => Ok container
  end.

Definition o_duration (event : t) (container : list ContentLine) : result (list ContentLine) :=
  match _duration event, begin event with
  | Some d, Some _ =>
      if delta_truthy (Some d) then
        Ok (container ++ [{| line_name := "DURATION";
                             line_value_of := LText (timedelta_to_duration d) |}])
      else Ok container
  | _, _ => Ok container
  end.

Definition o_end (event : t) (container : list ContentLine) : result (list ContentLine) :=
  match begin event, _end_time event with
  | Some _, Some _ =>
      e ← get_end event;
      match e with
      | Some e =>
          Ok (container ++ [{| line_name := "DTEND"; line_value_of := LText (arrow_to_iso e) |}])
      | None => Raise AttributeError
      end
  | _, _ => Ok container
  end.

Definition o_text (key : string) (value : option string) (container : list ContentLine)
    : result (list ContentLine) :=
  if str_truthy value then
    Ok (container ++ [{| line_name := key; line_value_of := LText (default "" value) |}])
  else Ok container.

Definition o_summary (event : t) := o_text "SUMMARY" (name event).
Definition o_description (event : t) := o_text "DESCRIPTION" (description event).
Definition o_location (event : t) := o_text "LOCATION" (location event).

Definition o_uid (event : t) (container : list ContentLine) : result (list ContentLine) :=
  let uid := if String.eqb (uid event) "" then uid_gen else uid event in
  Ok (container ++ [{| line_name := "UID"; line_value_of := LText uid |}]).

(** Modelled from the spec: the driver of the emitters belongs to
    [ics/component.py], which is not among the sources: "[serialize] runs
    every declared emitter in declaration order against the object, each
    appending zero or more ContentLines". The lines of the [_unused]
    container, which it appends at the end, are left out. *)
Definition emit (event : t) : result (list ContentLine) :=
  c ← o_created event [];
  c ← o_start event c;
  c ← o_duration event c;
  c ← o_end event c;
  c ← o_summary event c;
  c ← o_description event c;
  c ← o_location event c;
  o_uid event c.

End Outputs.

End Event.


(** ** Todos ([ics/todo.py]) *)

Module Todo.

(** The attributes of a [Todo] object. The last four are the ones the
    class reads but [__init__] never creates ([_begin], [_begin_precision],
    [_end_time]) or never declares at all ([end]); [None] there means that
    the object has no such attribute, and reading it raises
    [AttributeError]. [duration] is the instance attribute that [__init__]
    creates when it is given a duration and no due. *)
Record t := {
  _duration : option timedelta;
  _due : pyval;
  uid : string;
  description : option string;
  priority : pyval;
  categories : option nat;
  created : option instant;
  _percent : pyval;
  _completed : option instant;
  location : option string;
  _unused : nat;
  name : option string;
  duration : option durval;
  _begin : option (option instant);
  _begin_precision : option precision;
  _end_time : option (option instant);
  end_attr : option (option instant)
}.

Definition with_due (self : t) (v : pyval) : t :=
  {| _duration := _duration self; _due := v; uid := uid self;
     description := description self; priority := priority self;
     categories := categories self; created := created self;
     _percent := _percent self; _completed := _completed self;
     location := location self; _unused := _unused self; name := name self;
     duration := duration self; _begin := _begin self;
     _begin_precision := _begin_precision self;
     _end_time := _end_time self; end_attr := end_attr self |}.

Definition with_percent (self : t) (v : pyval) : t :=
  {| _duration := _duration self; _due := _due self; uid := uid self;
     description := description self; priority := priority self;
     categories := categories self; created := created self;
     _percent := v; _completed := _completed self;
     location := location self; _unused := _unused self; name := name self;
     duration := duration self; _begin := _begin self;
     _begin_precision := _begin_precision self;
     _end_time := _end_time self; end_attr := end_attr self |}.

Definition with_completed (self : t) (v : option instant) : t :=
  {| _duration := _duration self; _due := _due self; uid := uid self;
     description := description self; priority := priority self;
     categories := categories self; created := created self;
     _percent := _percent self; _completed := v;
     location := location self; _unused := _unused self; name := name self;
     duration := duration self; _begin := _begin self;
     _begin_precision := _begin_precision self;
     _end_time := _end_time self; end_attr := end_attr self |}.

Definition with_unused (self : t) (a : nat) : t :=
  {| _duration := _duration self; _due := _due self; uid := uid self;
     description := description self; priority := priority self;
     categories := categories self; created := created self;
     _percent := _percent self; _completed := _completed self;
     location := location self; _unused := a; name := name self;
     duration := duration self; _begin := _begin self;
     _begin_precision := _begin_precision self;
     _end_time := _end_time self; end_attr := end_attr self |}.

Definition with_duration_attr (self : t) (d : durval) : t :=
  {| _duration := _duration self; _due := _due self; uid := uid self;
     description := description self; priority := priority self;
     categories := categories self; created := created self;
     _percent := _percent self; _completed := _completed self;
     location := location self; _unused := _unused self; name := name self;
     duration := Some d; _begin := _begin self;
     _begin_precision := _begin_precision self;
     _end_time := _end_time self; end_attr := end_attr self |}.

Definition with_begin (self : t) (b : option instant) (p : precision) : t :=
  {| _duration := _duration self; _due := _due self; uid := uid self;
     description := description self; priority := priority self;
     categories := categories self; created := created self;
     _percent := _percent self; _completed := _completed self;
     location := location self; _unused := _unused self; name := name self;
     duration := duration self; _begin := Some b;
     _begin_precision := Some p;
     _end_time := _end_time self; end_attr := end_attr self |}.

(** [has_due]: [bool(self._due)]. *)
Definition has_due (self : t) : bool := truthy (_due self).

(** The [due] property and its setter. *)
Definition due (self : t) : pyval :=
  if truthy (_due self) then _due self else PNone.

Definition set_due (value : pyval) (self : t) : outcome t :=
  match get_arrow value with
  | Raise e => Raised e self
  | Ok None => Done (with_due self PNone)
  | Ok (Some v) => Done (with_due self (PArrow v))
  end.

(** The [percent] property. *)
Definition percent (self : t) : pyval :=
  if truthy (_percent self) then _percent self else PNone.

(** The [percent] setter: [arrow.now() if not value else get_arrow(value)];
    [now] is the reading of the clock at this call. *)
Definition percent_value (now : instant) (value : pyval) : result pyval :=
  if negb (truthy value) then Ok (PArrow now)
  else
    v ← get_arrow value;
    Ok (match v with Some t => PArrow t | None => PNone end).

Definition set_percent (now : instant) (value : pyval) (self : t) : outcome t :=
  match percent_value now value with
  | Raise e => Raised e self
  | Ok v => Done (with_percent self v)
  end.

(** The [begin] property: returns [self._begin]. *)
Definition begin (self : t) : result (option instant) :=
  match _begin self with
  | Some b => Ok b
  | None => Raise AttributeError
  end.

(** The [begin] setter; [self._end_time] is looked up only when the value
    is not [None]. *)
Definition set_begin (value : pyval) (self : t) : outcome t :=
  match get_arrow value with
  | Raise e => Raised e self
  | Ok None => Done (with_begin self None second)
  | Ok (Some v) =>
      match _end_time self with
      | None => Raised AttributeError self
      | Some None => Done (with_begin self (Some v) second)
      | Some (Some e) =>
          if e <? v then Raised ValueError self
          else Done (with_begin self (Some v) second)
      end
  end.

(** Reading [x.end] on a [Todo]: the class has no such property, so this
    is the instance attribute, if any. *)
Definition get_end (self : t) : result (option instant) :=
  match end_attr self with
  | Some e => Ok e
  | None => Raise AttributeError
  end.

(** The [completed] property and its setter. *)
Definition completed (self : t) : option instant := _completed self.

Definition set_completed (now : instant) (value : pyval) (self : t) : outcome t :=
  if negb (truthy value) then Done (with_completed self (Some now))
  else
    match get_arrow value with
    | Raise e => Raised e self
    | Ok v => Done (with_completed self v)
    end.

(** [__eq__]: same uid. (Compared with anything that is not a [Todo] it
    raises [NotImplementedError]; here the other side is a todo by its
    type.) *)
Definition __eq__ (self other : t) : bool := String.eqb (uid self) (uid other).

(** [is_complete]: [self.percent == 100]. *)
Definition is_complete (self : t) : bool := py_eq (percent self) (PInt 100).

(** [is_overdue]: [self._due < arrow.now()]. A due that is not an
    instant ([None], or a text or a number that the constructor stored as
    it was given) compares as [False] with the instant on the right. *)
Definition is_overdue (now : instant) (self : t) : result bool :=
  pyval_cmp Z.ltb String.ltb (_due self) (PArrow now).

(** [__hash__]. *)
Definition __hash__ (self : t) : result Z := uid_hash (uid self).

(** [clone]: [copy.copy(self)], then a clone of the [_unused] container.
    Every other attribute of the copy holds what the original holds, the
    address of the [categories] list included. *)
Definition clone (σ : gmap nat obj) (self : t) : result (t * gmap nat obj) :=
  let clone := self in
  '(a, σ) ← container_clone σ (_unused clone);
  Ok (with_unused clone a, σ).

(** [Todo.__init__]. [uid_gen] is what the uid generator returns at this
    call and [now] the reading of the clock. *)
Definition __init__ (uid_gen : string) (now : instant) (σ : gmap nat obj)
    (name : option string) (due : pyval) (duration : durval)
    (uid : option string) (description : option string) (priority : pyval)
    (categories : option nat) (created : pyval) (percent : pyval)
    (completed : pyval) (location : option string) : result (t * gmap nat obj) :=
  let uid := match uid with
             | Some u => if String.eqb u "" then uid_gen else u
             | None => uid_gen
             end in
  created ← get_arrow created;
  percent ← percent_value now percent;
  completed ← get_arrow completed;
  let '(a, σ) := alloc σ (OContainer "VTODO" []) in
  let self := {| _duration := None; _due := PNone; uid := uid;
                 description := description; priority := priority;
                 categories := categories; created := created;
                 _percent := percent; _completed := completed;
                 location := location; _unused := a; name := name;
                 duration := None; _begin := None; _begin_precision := None;
                 _end_time := None; end_attr := None |} in
  if dur_truthy duration && truthy due then Raise ValueError
  else if truthy due then Ok (with_due self due, σ)
  else if dur_truthy duration then Ok (with_duration_attr self duration, σ)
  else Ok (self, σ).

(** The four ordering methods: by name when [self._due] and [other.due]
    are both [None], by due otherwise. The left side is the stored
    [_due], the right side the [due] property. *)
Definition __lt__ (self other : t) : result bool :=
  match _due self, due other with
  | PNone, PNone => str_cmp String.ltb (name self) (name other)
  | a, b => pyval_cmp Z.ltb String.ltb a b
  end.

Definition __le__ (self other : t) : result bool :=
  match _due self, due other with
  | PNone, PNone => str_cmp String.leb (name self) (name other)
  | a, b => pyval_cmp Z.leb String.leb a b
  end.

Definition __gt__ (self other : t) : result bool :=
  match _due self, due other with
  | PNone, PNone => str_cmp (fun a b => String.ltb b a) (name self) (name other)
  | a, b => pyval_cmp Z.gtb (fun a b => String.ltb b a) a b
  end.

Definition __ge__ (self other : t) : result bool :=
  match _due self, due other with
  | PNone, PNone => str_cmp (fun a b => String.leb b a) (name self) (name other)
  | a, b => pyval_cmp Z.geb (fun a b => String.leb b a) a b
  end.

(** [bump]. [replace] is what [Arrow.replace( **delta)] makes of an
    instant for the given [delta] (it may raise on a [delta] that arrow
    refuses), and [now] the reading of [arrow.now(tz='local')]. The
    second component is what the call prints. A due that is a string has
    a [replace] method that takes no keywords ([TypeError]); one that is
    an integer has none ([AttributeError]). *)
Definition bump (replace : instant -> result instant) (now : instant)
    (force_empty_dues : bool) (self : t) : outcome t * list string :=
  if negb force_empty_dues && negb (truthy (_due self)) then
    (Done self, ["ics.todo: check 1"%string])
  else
    let self := if negb (truthy (_due self)) then with_due self (PArrow now)
                else self in
    match _due self with
    | PArrow d =>
        match replace d with
        | Ok d' => (Done (with_due self (PArrow d')), [])
        | Raise e => (Raised e self, [])
        end
    | PStr _ _ => (Raised TypeError self, [])
    | _ => (Raised AttributeError self, [])
    end.

Section Outputs.

(** The emitters of a todo, with the parameters of the emitters of an
    event. *)
Context (arrow_to_iso : instant -> string).
Context (timedelta_to_duration : timedelta -> string).
Context (now : instant) (uid_gen : string).

Definition o_created (todo : t) (container : list ContentLine) : result (list ContentLine) :=
  let instant := match created todo with Some c => c | None => now end in
  Ok (container ++ [{| line_name := "DTSTAMP"; line_value_of := LText (arrow_to_iso instant) |}]).

Definition o_percent (todo : t) (container : list ContentLine) : result (list ContentLine) :=
  if truthy (percent todo) then
    Ok (container ++ [{| line_name := "PERCENT_COMPLETE"; line_value_of := LVal (percent todo) |}])
  else Ok container.

Definition o_completed (todo : t) (container : list ContentLine) : result (list ContentLine) :=
  let instant := match _completed todo with Some c => c | None => now end in
  Ok (container ++ [{| line_name := "COMPLETED"; line_value_of := LText (arrow_to_iso instant) |}]).

Definition o_duration (todo : t) (container : list ContentLine) : result (list ContentLine) :=
  match _duration todo with
  | Some d =>
      if delta_truthy (Some d) then
        Ok (container ++ [{| line_name := "DURATION";
                             line_value_of := LText (timedelta_to_duration d) |}])
      else Ok container
  | None => Ok container
  end.

(** [arrow_to_iso] is given the [due] property; it formats an instant, and
    a due that is a number or a string has none of the methods it
    calls. *)
Definition o_due (todo : t) (container : list ContentLine) : result (list ContentLine) :=
  if truthy (_due todo) then
    match due todo with
    | PArrow d =>
        Ok (container ++ [{| line_name := "DUE"; line_value_of := LText (arrow_to_iso d) |}])
    | _ => Raise AttributeError
    end
  else Ok container.

Definition o_text (key : string) (value : option string) (container : list ContentLine)
    : result (list ContentLine) :=
  if str_truthy value then
    Ok (container ++ [{| line_name := key; line_value_of := LText (default "" value) |}])
  else Ok container.

Definition o_summary (todo : t) := o_text "SUMMARY" (name todo).
Definition o_description (todo : t) := o_text "DESCRIPTION" (description todo).

Definition o_priority (todo : t) (container : list ContentLine) : result (list ContentLine) :=
  if truthy (priority todo) then
    Ok (container ++ [{| line_name := "PRIORITY"; line_value_of := LVal (priority todo) |}])
  else Ok container.

(** [if todo.categories:] is the truthiness of the list the attribute
    refers to. *)
Definition o_categories (σ : gmap nat obj) (todo : t) (container : list ContentLine)
    : result (list ContentLine) :=
  match categories todo with
  | Some a =>
      cats ← iterate σ a;
      match cats with
      | [] => Ok container
      | _ => Ok (container ++ [{| line_name := "CATEGORIES"; line_value_of := LRef a |}])
      end
  | None => Ok container
  end.

Definition o_location (todo : t) := o_text "LOCATION" (location todo).

Definition o_uid (todo : t) (container : list ContentLine) : result (list ContentLine) :=
  let uid := if String.eqb (uid todo) "" then uid_gen else uid todo in
  Ok (container ++ [{| line_name := "UID"; line_value_of := LText uid |}]).

(** Modelled from the spec: the driver of the emitters, as for an event:
    "runs every declared emitter in declaration order". *)
Definition emit (σ : gmap nat obj) (todo : t) : result (list ContentLine) :=
  c ← o_created todo [];
  c ← o_percent todo c;
  c ← o_completed todo c;
  c ← o_duration todo c;
  c ← o_due todo c;
  c ← o_summary todo c;
  c ← o_description todo c;
  c ← o_priority todo c;
  c ← o_categories σ todo c;
  c ← o_location todo c;
  o_uid todo c.

End Outputs.

End Todo.

(** ** Python list primitives *)

(** [list.__getitem__(i)] for an integer: a negative index counts from the
    end, and an index out of range raises [IndexError]. *)
Definition list_index {A} (l : list A) (i : Z) : result A :=
  let i := if i <? 0 then i + Z.of_nat (length l) else i in
  if i <? 0 then Raise IndexError
  else match l !! Z.to_nat i with
       | Some x => Ok x
       | None => Raise IndexError
       end.

(** [slice.indices(len)]: the start, the stop and the step of a classical
    slice, clamped as CPython does; a zero step raises [ValueError]. *)
Definition slice_indices (len : Z) (start stop step : option Z) : result (Z * Z * Z) :=
  let step := default 1 step in
  if step =? 0 then Raise ValueError
  else
    let lower := if 0 <? step then 0 else -1 in
    let upper := if 0 <? step then len else len - 1 in
    let clamp v := if v <? 0 then Z.max (v + len) lower else Z.min v upper in
    let start := match start with
                 | Some v => clamp v
                 | None => if 0 <? step then lower else upper
                 end in
    let stop := match stop with
                | Some v => clamp v
                | None => if 0 <? step then upper else lower
                end in
    Ok (start, stop, step).

(** [list.__getitem__(slice)] with integer or absent bounds. *)
Definition list_slice {A} (l : list A) (start stop step : option Z) : result (list A) :=
  '(start, stop, step) ← slice_indices (Z.of_nat (length l)) start stop step;
  let count :=
    if 0 <? step then (if start <? stop then (stop - start - 1) / step + 1 else 0)
    else (if stop <? start then (start - stop - 1) / (- step) + 1 else 0) in
  Ok (omap (fun k : nat => l !! Z.to_nat (start + Z.of_nat k * step))
           (seq 0 (Z.to_nat count))).

(** ** Removal of duplicates, shared by the two list classes *)

Section Dedup.

Context {A : Type} (uid : A -> string).

(** The loop of [_remove_duplicates] over the indices still to visit.
    [seen] is the Python set of the items kept so far; the items hash and
    compare by uid, so the set is the set of their uids. Hashing raises on
    an empty uid. *)
Fixpoint remove_duplicates_loop (idx : list nat) (self : list A)
    (seen : gset string) : result (list A) :=
  match idx with
  | [] => Ok self
  | i :: idx' =>
      x ← list_index self (Z.of_nat i);
      _ ← uid_hash (uid x);
      if decide (uid x ∈ seen) then
        remove_duplicates_loop idx' (delete i self) seen
      else
        remove_duplicates_loop idx' self ({[uid x]} ∪ seen)
  end.

(** The uids of the items of a list, as a set. *)
Definition uids (l : list A) : gset string := list_to_set (uid <$> l).

(** [for i in reversed(range(len(self)))]. *)
Definition remove_duplicates (self : list A) : result (list A) :=
  remove_duplicates_loop (reverse (seq 0 (length self))) self ∅.

(** What the claims say of a concatenation, as list functions: the list
    without the items that have a later duplicate, and the list without
    the items that have an earlier one. *)
Fixpoint keep_last (l : list A) : list A :=
  match l with
  | [] => []
  | x :: l' =>
      if existsb (fun y => String.eqb (uid x) (uid y)) l' then keep_last l'
      else x :: keep_last l'
  end.

Fixpoint keep_first_from (seen : list string) (l : list A) : list A :=
  match l with
  | [] => []
  | x :: l' =>
      if existsb (String.eqb (uid x)) seen then keep_first_from seen l'
      else x :: keep_first_from (uid x :: seen) l'
  end.

Definition keep_first (l : list A) : list A := keep_first_from [] l.

(** A Python [set] built from a list, as the list of its elements in
    insertion order (the order in which Python iterates over a set is not
    specified). *)
Fixpoint py_set_from (seen : list string) (l : list A) : result (list A) :=
  match l with
  | [] => Ok []
  | x :: l' =>
      _ ← uid_hash (uid x);
      if existsb (String.eqb (uid x)) seen then py_set_from seen l'
      else r ← py_set_from (uid x :: seen) l'; Ok (x :: r)
  end.

Definition py_set (l : list A) : result (list A) := py_set_from [] l.

Definition mem_uid (x : A) (s : list A) : bool :=
  existsb (fun y => String.eqb (uid x) (uid y)) s.

Definition set_inter (a b : list A) : list A :=
  List.filter (fun x => mem_uid x b) a.

Definition set_union (a b : list A) : list A :=
  a ++ List.filter (fun y => negb (mem_uid y a)) b.

End Dedup.

(** ** Todo lists ([ics/todolist.py]) *)

Module TodoList.

Abbreviation t := (list Todo.t) (only parsing).

(** What [__getitem__] is given: a value that is not a slice, or a slice
    with its three fields. *)
Inductive key :=
  | KVal (v : pyval)
  | KSlice (start stop step : pyval).

(** What it returns: one item (integer index) or a list. *)
Inductive selection :=
  | One (x : Todo.t)
  | Many (l : list Todo.t).

(** Python's [and] and [or] between two calls: the second one is made only
    when the first does not decide. *)
Definition pand (a b : result bool) : result bool :=
  match a with
  | Ok true => b
  | Ok false => Ok false
  | Raise e => Raise e
  end.

Definition por (a b : result bool) : result bool :=
  match a with
  | Ok true => Ok true
  | Ok false => b
  | Raise e => Raise e
  end.

(** [v > bound], [v < bound], [v <= bound] and [v >= bound] for an
    attribute value [v] and an Arrow [bound]; with [None] on the left the
    instant on the right is asked, and answers [False]. *)
Definition gt_arrow (v : option instant) (bound : instant) : result bool :=
  arrow_cmp (fun a b => b <? a) v (Some bound).

Definition lt_arrow (v : option instant) (bound : instant) : result bool :=
  arrow_cmp Z.ltb v (Some bound).

Definition le_arrow (v : option instant) (bound : instant) : result bool :=
  arrow_cmp Z.leb v (Some bound).

Definition ge_arrow (v : option instant) (bound : instant) : result bool :=
  arrow_cmp (fun a b => b <=? a) v (Some bound).

Definition condition0 : Todo.t -> result bool := fun _ => Ok true.

(** The [if step == ... elif ...] chains that bind [condition1] and
    [condition2]: no branch is taken for ['inc'], and the name stays
    unbound ([None]). *)
Definition by_step (step : string) (c_begin c_end : Todo.t -> result bool)
    : option (Todo.t -> result bool) :=
  if String.eqb step "begin" then Some c_begin
  else if String.eqb step "end" then Some c_end
  else if String.eqb step "any" then Some (fun x => por (c_begin x) (c_end x))
  else if String.eqb step "both" then Some (fun x => pand (c_begin x) (c_end x))
  else None.

(** A call of a lambda that may still be unbound. *)
Definition call (c : option (Todo.t -> result bool)) (x : Todo.t) : result bool :=
  match c with
  | Some c => c x
  | None => Raise UnboundLocalError
  end.

(** [list(filter(condition, self))]. *)
Fixpoint filter_cond (c : Todo.t -> result bool) (l : list Todo.t)
    : result (list Todo.t) :=
  match l with
  | [] => Ok []
  | x :: l' =>
      b ← c x;
      r ← filter_cond c l';
      Ok (if b : bool then x :: r else r)
  end.

Definition valid_step (s : string) : bool :=
  String.eqb s "begin" || String.eqb s "end" || String.eqb s "both"
  || String.eqb s "any" || String.eqb s "inc".

(** The part of [__getitem__] below "now we have a slice and it's a
    special one". *)
Definition special_slice (self : list Todo.t) (start stop step : pyval)
    : result (list Todo.t) :=
  step ← match step with
         | PNone => Ok "both"%string
         | PStr s _ => if valid_step s then Ok s else Raise ValueError
         | _ => Raise ValueError
         end;
  begin ← get_arrow start;
  end_ ← get_arrow stop;
  let condition1 :=
    match begin with
    | Some begin =>
        let condition_begin1 := fun x : Todo.t =>
          pand (condition0 x) (b ← Todo.begin x; gt_arrow b begin) in
        let condition_end1 := fun x : Todo.t =>
          pand (condition0 x) (e ← Todo.get_end x; gt_arrow e begin) in
        by_step step condition_begin1 condition_end1
    | None => Some condition0
    end in
  condition2 ←
    match end_ with
    | Some end_ =>
        let condition_begin2 := fun x : Todo.t =>
          pand (call condition1 x) (b ← Todo.begin x; lt_arrow b end_) in
        let condition_end2 := fun x : Todo.t =>
          pand (call condition1 x) (e ← Todo.get_end x; lt_arrow e end_) in
        Ok (by_step step condition_begin2 condition_end2)
    | None =>
        match condition1 with
        | Some c => Ok (Some c)
        | None => Raise UnboundLocalError
        end
    end;
  if String.eqb step "inc" then
    match begin, end_ with
    | Some begin, Some end_ =>
        filter_cond (fun x : Todo.t =>
          pand (b ← Todo.begin x; lt_arrow b begin)
               (e ← Todo.get_end x; gt_arrow e end_)) self
    | _, _ => Ok []
    end
  else filter_cond (call condition2) self.

(** [self[begin:end:'both']] for the day of an instant. *)
Definition day_slice (self : list Todo.t) (t : instant) : result (list Todo.t) :=
  let '(begin, end_) := span_day (floor_day t) in
  special_slice self (PArrow begin) (PArrow end_) (PStr "both" None).

Definition int_or_none (v : pyval) : option (option Z) :=
  match v with
  | PNone => Some None
  | PInt n => Some (Some n)
  | _ => None
  end.

(** [__getitem__]. *)
Definition __getitem__ (self : list Todo.t) (sl : key) : result selection :=
  match sl with
  | KVal (PInt i) => x ← list_index self i; Ok (One x)
  | KVal (PArrow t) => l ← day_slice self t; Ok (Many l)
  | KVal v =>
      t ← get_arrow v;
      match t with
      | Some t => l ← day_slice self t; Ok (Many l)
      | None => Raise AttributeError
      end
  | KSlice start stop step =>
      match int_or_none start, int_or_none stop, int_or_none step with
      | Some start, Some stop, Some step =>
          l ← list_slice self start stop step; Ok (Many l)
      | _, _, _ => l ← special_slice self start stop step; Ok (Many l)
      end
  end.

(** [today]: [self[arrow.now()]]. *)
Definition today (now : instant) (self : list Todo.t) : result selection :=
  __getitem__ self (KVal (PArrow now)).

(** The loop of [now] and [at]: [todo.begin <= instant <= todo.end], where
    [clock k] is the instant compared with the item at position [k]. *)
Fixpoint during (clock : nat -> instant) (k : nat) (self : list Todo.t)
    : result (list Todo.t) :=
  match self with
  | [] => Ok []
  | todo :: self' =>
      b ← Todo.begin todo;
      keep ← pand (le_arrow b (clock k))
                  (e ← Todo.get_end todo; ge_arrow e (clock k));
      r ← during clock (S k) self';
      Ok (if keep : bool then todo :: r else r)
  end.

(** [now]: [clock k] is the reading of [arrow.now()] at the item of
    position [k]. *)
Definition now (clock : nat -> instant) (self : list Todo.t) : result (list Todo.t) :=
  during clock 0 self.

(** [at]. *)
Definition at_ (self : list Todo.t) (instant : instant) : result (list Todo.t) :=
  during (fun _ => instant) 0 self.

Definition of_option (v : option instant) : pyval :=
  match v with
  | Some t => PArrow t
  | None => PNone
  end.

(** [concurrent]. *)
Definition concurrent (self : list Todo.t) (todo : Todo.t) : result (list Todo.t) :=
  b0 ← Todo.begin todo;
  e0 ← Todo.get_end todo;
  a ← special_slice self (of_option b0) (of_option e0) (PStr "any" None);
  b ← special_slice self PNone (of_option b0) (PStr "begin" None);
  c ← special_slice self (of_option e0) PNone (PStr "end" None);
  sa ← py_set Todo.uid a;
  sb ← py_set Todo.uid b;
  sc ← py_set Todo.uid c;
  Ok (set_union Todo.uid sa (set_inter Todo.uid sb sc)).

(** [_remove_duplicates]. *)
Definition _remove_duplicates (self : list Todo.t) : result (list Todo.t) :=
  remove_duplicates Todo.uid self.

(** [__add__]: the concatenation of the two lists, as a new [TodoList],
    without its duplicates. *)
Definition __add__ (self other : list Todo.t) : result (list Todo.t) :=
  let ret := self ++ other in
  _remove_duplicates ret.

(** [clone]: [TodoList(map(lambda x: x.clone(), self))]. *)
Fixpoint clone (σ : gmap nat obj) (self : list Todo.t)
    : result (list Todo.t * gmap nat obj) :=
  match self with
  | [] => Ok ([], σ)
  | x :: self' =>
      '(x', σ) ← Todo.clone σ x;
      '(r, σ) ← clone σ self';
      Ok (x' :: r, σ)
  end.

(** [bump]: the todos are bumped in turn; a raise leaves the ones after
    it as they were. [clock k] is the reading of the clock in the call on
    the item of position [k]. The second component is what the calls
    print. *)
Fixpoint bump (replace : instant -> result instant) (clock : nat -> instant)
    (k : nat) (force_empty_dues : bool) (self : list Todo.t)
    : outcome (list Todo.t) * list string :=
  match self with
  | [] => (Done [], [])
  | todo :: self' =>
      match Todo.bump replace (clock k) force_empty_dues todo with
      | (Done todo', out) =>
          match bump replace clock (S k) force_empty_dues self' with
          | (Done r, out') => (Done (todo' :: r), out ++ out')
          | (Raised e r, out') => (Raised e (todo' :: r), out ++ out')
          end
      | (Raised e todo', out) => (Raised e (todo' :: self'), out)
      end
  end.

(** The loops of [categories]: the categories of one todo are added to
    [catlist] when they are not in it yet; a todo whose [categories] is
    [None] or empty is skipped. *)
Fixpoint add_categories (cats : list string) (catlist : list string) : list string :=
  match cats with
  | [] => catlist
  | cat :: cats' =>
      add_categories cats'
        (if existsb (String.eqb cat) catlist then catlist else catlist ++ [cat])
  end.

Fixpoint collect_categories (σ : gmap nat obj) (self : list Todo.t)
    (catlist : list string) : result (list string) :=
  match self with
  | [] => Ok catlist
  | todo :: self' =>
      match Todo.categories todo with
      | None => collect_categories σ self' catlist
      | Some a =>
          cats ← iterate σ a;
          collect_categories σ self' (add_categories cats catlist)
      end
  end.

(** [categories]. *)
Definition categories (σ : gmap nat obj) (self : list Todo.t) : result (list string) :=
  catlist ← collect_categories σ self [];
  Ok (sort_strings catlist).

End TodoList.

(** ** Calendars ([ics/icalendar.py]) *)

Module Calendar.

(** Python lists are not typed: an element is an event, a todo or a line of
    text, and a list is an [EventList], a [TodoList] or a plain [list]. *)
Inductive elem :=
  | EEvent (e : Event.t)
  | ETodo (x : Todo.t)
  | ELine (s : string).

Inductive list_class :=
  | CEventList
  | CTodoList
  | CList.

Record pylist := {
  class_of : list_class;
  items : list elem
}.

(** [EventList()] and [TodoList()]. *)
Definition EventList_empty : pylist := {| class_of := CEventList; items := [] |}.
Definition TodoList_empty : pylist := {| class_of := CTodoList; items := [] |}.

(** [TodoList.__init__]: [ValueError] on an element that is not a [Todo]. *)
Fixpoint as_todos (l : list elem) : result (list Todo.t) :=
  match l with
  | [] => Ok []
  | ETodo x :: l' => r ← as_todos l'; Ok (x :: r)
  | _ :: _ => Raise ValueError
  end.

(** Modelled from the spec: [EventList] of [ics/eventlist.py], which is not
    among the sources: "EventList / TodoList: ordered sequence of their
    item type", whose "concatenation deduplicates by identity (uid)" and
    whose clone holds clones of the items. It is taken to do what
    [TodoList] does, with events. *)
Fixpoint as_events (l : list elem) : result (list Event.t) :=
  match l with
  | [] => Ok []
  | EEvent e :: l' => r ← as_events l'; Ok (e :: r)
  | _ :: _ => Raise ValueError
  end.

Fixpoint EventList_clone (σ : gmap nat obj) (self : list Event.t)
    : result (list Event.t * gmap nat obj) :=
  match self with
  | [] => Ok ([], σ)
  | x :: self' =>
      '(x', σ) ← Event.clone σ x;
      '(r, σ) ← EventList_clone σ self';
      Ok (x' :: r, σ)
  end.

(** [a + b] on two lists: [__add__] of the class of [a]. *)
Definition list_add (a b : pylist) : result pylist :=
  let ret := items a ++ items b in
  match class_of a with
  | CEventList =>
      l ← as_events ret;
      l ← remove_duplicates Event.uid l;
      Ok {| class_of := CEventList; items := EEvent <$> l |}
  | CTodoList =>
      l ← as_todos ret;
      l ← TodoList._remove_duplicates l;
      Ok {| class_of := CTodoList; items := ETodo <$> l |}
  | CList => Ok {| class_of := CList; items := ret |}
  end.

(** [l.clone()]; a plain list has no such method. *)
Definition list_clone (σ : gmap nat obj) (l : pylist) : result (pylist * gmap nat obj) :=
  match class_of l with
  | CEventList =>
      es ← as_events (items l);
      '(es, σ) ← EventList_clone σ es;
      Ok ({| class_of := CEventList; items := EEvent <$> es |}, σ)
  | CTodoList =>
      ts ← as_todos (items l);
      '(ts, σ) ← TodoList.clone σ ts;
      Ok ({| class_of := CTodoList; items := ETodo <$> ts |}, σ)
  | CList => Raise AttributeError
  end.

(** The attributes of a [Calendar]; [_creator] is created by the
    constructor only when nothing is imported. *)
Record t := {
  _timezones : gmap string string;
  _events : pylist;
  _todos : pylist;
  _unused : nat;
  scale : option string;
  method : option string;
  _creator : option (option string)
}.

(** What [imports] may be: a string, a sequence, anything else. *)
Inductive import :=
  | IText (s : string)
  | ISeq (l : pylist)
  | IOther.

(** The [events] and [todos] setters. *)
Definition set_events (value : pylist) (self : t) : outcome t :=
  let store l := {| _timezones := _timezones self; _events := l;
                    _todos := _todos self; _unused := _unused self;
                    scale := scale self; method := method self;
                    _creator := _creator self |} in
  match class_of value with
  | CEventList => Done (store value)
  | _ =>
      match as_events (items value) with
      | Ok es => Done (store {| class_of := CEventList; items := EEvent <$> es |})
      | Raise e => Raised e self
      end
  end.

Definition set_todos (value : pylist) (self : t) : outcome t :=
  let store l := {| _timezones := _timezones self; _events := _events self;
                    _todos := l; _unused := _unused self;
                    scale := scale self; method := method self;
                    _creator := _creator self |} in
  match class_of value with
  | CTodoList => Done (store value)
  | _ =>
      match as_todos (items value) with
      | Ok ts => Done (store {| class_of := CTodoList; items := ETodo <$> ts |})
      | Raise e => Raised e self
      end
  end.

Section WithParser.

(** The parser and the population of a component from a parse tree belong
    to [ics/parse.py] and [ics/component.py], which are not among the
    sources: they are parameters here. *)
Context {tree : Type}.
Context (string_to_container : string -> result (list tree)).
Context (lines_to_container : list elem -> result (list tree)).
Context (_populate : t -> tree -> gmap nat obj -> result (t * gmap nat obj)).

(** [Calendar.__init__(self, imports=None, events=None, todos=None,
    creator=None)]. *)
Definition __init__ (σ : gmap nat obj) (imports : option import)
    (events todos : option pylist) (creator : option string)
    : result (t * gmap nat obj) :=
  let '(a, σ) := alloc σ (OContainer "VCALENDAR" []) in
  let self := {| _timezones := ∅; _events := EventList_empty;
                 _todos := TodoList_empty; _unused := a;
                 scale := None; method := None; _creator := None |} in
  let events := default EventList_empty events in
  let todos := default TodoList_empty todos in
  match imports with
  | Some imports =>
      container ←
        match imports with
        | IText s => string_to_container s
        | ISeq l => lines_to_container (items l)
        | IOther => Raise TypeError
        end;
      match container with
      | [c] => _populate self c σ
      | _ => Raise NotImplementedError
      end
  | None =>
      Ok ({| _timezones := _timezones self; _events := events;
             _todos := todos; _unused := _unused self;
             scale := scale self; method := method self;
             _creator := Some creator |}, σ)
  end.

(** [__add__]: [Calendar(events, todos)], the two lists given by
    position. *)
Definition __add__ (σ : gmap nat obj) (self other : t) : result (t * gmap nat obj) :=
  events ← list_add (_events self) (_events other);
  todos ← list_add (_todos self) (_todos other);
  __init__ σ (Some (ISeq events)) (Some todos) None None.

End WithParser.

(** [clone]. *)
Definition clone (σ : gmap nat obj) (self : t) : result (t * gmap nat obj) :=
  let clone := self in
  '(a, σ) ← container_clone σ (_unused clone);
  let clone := {| _timezones := _timezones clone; _events := _events clone;
                  _todos := _todos clone; _unused := a;
                  scale := scale clone; method := method clone;
                  _creator := _creator clone |} in
  '(es, σ) ← list_clone σ (_events self);
  match set_events es clone with
  | Raised e _ => Raise e
  | Done clone =>
      '(ts, σ) ← list_clone σ (_todos self);
      match set_todos ts clone with
      | Raised e _ => Raise e
      | Done clone => Ok (clone, σ)
      end
  end.

(** [==] between two elements of a list: the [__eq__] of the left one; an
    event reads the [uid] of the other side, which a string does not
    have; a todo refuses anything that is not a todo. *)
Definition elem_eq (a b : elem) : result bool :=
  match a, b with
  | EEvent e, EEvent e' => Ok (Event.__eq__ e e')
  | EEvent e, ETodo x => Ok (String.eqb (Event.uid e) (Todo.uid x))
  | EEvent _, ELine _ => Raise AttributeError
  | ETodo x, ETodo y => Ok (Todo.__eq__ x y)
  | ETodo _, _ => Raise NotImplementedError
  | ELine s, ELine s' => Ok (String.eqb s s')
  | ELine _, EEvent _ => Raise AttributeError
  | ELine _, ETodo _ => Raise NotImplementedError
  end.

(** The loop [for i in range(len(self.events))] of [__eq__], on two lists
    of the same length. *)
Fixpoint items_eq (l1 l2 : list elem) : result bool :=
  match l1, l2 with
  | [], _ => Ok true
  | a :: l1', b :: l2' =>
      r ← elem_eq a b;
      if r : bool then items_eq l1' l2' else Ok false
  | _ :: _, [] => Raise IndexError
  end.

(** [__eq__]. The comparison of the two [_unused] containers is modelled
    from the spec, as [ics/parse.py] is not among the sources: a
    container is "a name plus an ordered sequence" of lines, compared as
    such. The [creator] property reads [_creator]. *)
Definition __eq__ (σ : gmap nat obj) (self other : t) : result bool :=
  if negb (length (items (_events self)) =? length (items (_events other)))%nat
  then Ok false
  else if negb (length (items (_todos self)) =? length (items (_todos other)))%nat
  then Ok false
  else
    r ← items_eq (items (_events self)) (items (_events other));
    if negb r then Ok false
    else
      r ← items_eq (items (_todos self)) (items (_todos other));
      if negb r then Ok false
      else if negb (bool_decide (σ !! _unused self = σ !! _unused other)) then Ok false
      else if negb (bool_decide (scale self = scale other)) then Ok false
      else if negb (bool_decide (method self = method other)) then Ok false
      else
        match _creator self, _creator other with
        | Some c, Some c' => Ok (bool_decide (c = c'))
        | _, _ => Raise AttributeError
        end.

(** [__ne__]. *)
Definition __ne__ (σ : gmap nat obj) (self other : t) : result bool :=
  r ← __eq__ σ self other; Ok (negb r).

End Calendar.

(** ** Invariants of the temporal state of an event *)

(** No end time is stored next to a stored duration that is not zero. *)
Definition exclusive (e : Event.t) : Prop :=
  ~ (is_Some (Event._end_time e) /\ delta_truthy (Event._duration e) = true).

(** An event that has a begin has a begin precision. *)
Definition precision_recorded (e : Event.t) : Prop :=
  is_Some (Event._begin e) -> is_Some (Event._begin_precision e).

(** The stored begin is not after the stored end time, and the stored
    duration is not negative. *)
Definition ordered (e : Event.t) : Prop :=
  (forall b en, Event._begin e = Some b -> Event._end_time e = Some en -> b <= en)
  /\ (forall d, Event._duration e = Some d -> 0 <= d).

(** ** The events of the scenarios *)

(** [Event(begin=2024-01-01T10:00:00, uid='minimal')], as the constructor
    leaves it in an empty store. *)
Definition minimal_event : Event.t :=
  {| Event._duration := None; Event._end_time := None;
     Event._begin := Some (utc 2024 1 1 10 0 0);
     Event._begin_precision := Some second;
     Event.uid := "minimal"; Event.description := None;
     Event.created := None; Event.location := None;
     Event._unused := 0%nat; Event.name := None |}.

(** ** The todos of the scenarios *)

(** [Todo(name=name, uid=uid)], as the constructor leaves it in an empty
    store when the clock reads 0: no due, and the clock reading as
    [percent]. *)
Definition plain_todo (uid : string) (name : option string) : Todo.t :=
  {| Todo._duration := None; Todo._due := PNone; Todo.uid := uid;
     Todo.description := None; Todo.priority := PNone;
     Todo.categories := None; Todo.created := None;
     Todo._percent := PArrow 0; Todo._completed := None;
     Todo.location := None; Todo._unused := 0%nat; Todo.name := name;
     Todo.duration := None; Todo._begin := None;
     Todo._begin_precision := None; Todo._end_time := None;
     Todo.end_attr := None |}.

(** The same todo after [x._begin = b] and [x.end = e], for two instants
    given in seconds: a todo can come to an interval only by such
    assignments from outside the class. *)
Definition timed_todo (uid : string) (b e : Z) : Todo.t :=
  {| Todo._duration := None; Todo._due := PNone; Todo.uid := uid;
     Todo.description := None; Todo.priority := PNone;
     Todo.categories := None; Todo.created := None;
     Todo._percent := PArrow 0; Todo._completed := None;
     Todo.location := None; Todo._unused := 0%nat; Todo.name := None;
     Todo.duration := None;
     Todo._begin := Some (Some (b * usec_per_second));
     Todo._begin_precision := None; Todo._end_time := None;
     Todo.end_attr := Some (Some (e * usec_per_second)) |}.

(** An item that has both a begin and an end, each an instant. *)
Definition timed (x : Todo.t) : Prop :=
  (exists b, Todo._begin x = Some (Some b))
  /\ (exists e, Todo.end_attr x = Some (Some e)).

(** The begin of an item lies in the window from [s] (included) to [e]
    (excluded). *)
Definition begins_within (s e : Z) (x : Todo.t) : bool :=
  match Todo._begin x with
  | Some (Some b) => (s <=? b) && (b <? e)
  | _ => false
  end.

(** The bound of a window at a number of seconds, and the three items of
    the scenario of the range queries: they begin and end at 1 and 3, at 2
    and 5, and at 6 and 8 seconds. *)
Definition at_second (n : Z) : pyval := PArrow (n * usec_per_second).

Definition three_items : list Todo.t :=
  [timed_todo "a" 1 3; timed_todo "b" 2 5; timed_todo "c" 6 8].

(** What [x.categories] shows in a store: the content of the list that
    the attribute refers to. *)
Definition categories_of (σ : gmap nat obj) (x : Todo.t) : option (list string) :=
  a ← Todo.categories x; list_content σ a.

(** [Todo(uid='tagged', categories=['work'])] in a store that holds the
    list at address 0; the constructor puts the [_unused] container at
    address 1. *)
Definition tagged_store : gmap nat obj :=
  <[ 1%nat := OContainer "VTODO" [] ]> {[ 0%nat := OList ["work"%string] ]}.

Definition tagged_todo : Todo.t :=
  {| Todo._duration := None; Todo._due := PNone; Todo.uid := "tagged";
     Todo.description := None; Todo.priority := PNone;
     Todo.categories := Some 0%nat; Todo.created := None;
     Todo._percent := PArrow 0; Todo._completed := None;
     Todo.location := None; Todo._unused := 1%nat; Todo.name := None;
     Todo.duration := None; Todo._begin := None;
     Todo._begin_precision := None; Todo._end_time := None;
     Todo.end_attr := None |}.

(** [Calendar(todos=[tagged_todo])], built in [tagged_store]: its
    [_unused] container goes to address 2. *)
Definition tagged_calendar : Calendar.t :=
  {| Calendar._timezones := ∅;
     Calendar._events := Calendar.EventList_empty;
     Calendar._todos := {| Calendar.class_of := Calendar.CTodoList;
                           Calendar.items := [Calendar.ETodo tagged_todo] |};
     Calendar._unused := 2%nat;
     Calendar.scale := None; Calendar.method := None;
     Calendar._creator := Some None |}.

(** The categories of the todos of a calendar, as a store shows them. *)
Definition calendar_categories (σ : gmap nat obj) (c : Calendar.t)
    : list (option (list string)) :=
  omap (fun el => match el with
                  | Calendar.ETodo x => Some (categories_of σ x)
                  | _ => None
                  end) (Calendar.items (Calendar._todos c)).

(** A name, when a condition holds: the names of the lines that the
    emitters append are written with it. *)
Definition when (b : bool) (name : string) : list string :=
  if b then [name] else [].

(** The [categories] of a todo is a list that is not empty. *)
Definition has_categories (σ : gmap nat obj) (x : Todo.t) : bool :=
  match Todo.categories x with
  | Some a => match iterate σ a with Ok (_ :: _) => true | _ => false end
  | None => false
  end.

(** A due that the emitters and [bump] can work with: none, or an
    instant. *)
Definition due_is_instant_or_none (x : Todo.t) : Prop :=
  Todo._due x = PNone \/ exists d, Todo._due x = PArrow d.

(** An item that has a begin and an end, the begin not after the end. *)
Definition spans (x : Todo.t) : Prop :=
  exists b e, Todo._begin x = Some (Some b) /\ Todo.end_attr x = Some (Some e)
              /\ b <= e.

(** Tests on the begin [b] and the end [e] of an item, false on an item
    that lacks one of them. *)
Definition on_interval (f : Z -> Z -> bool) (x : Todo.t) : bool :=
  match Todo._begin x, Todo.end_attr x with
  | Some (Some b), Some (Some e) => f b e
  | _, _ => false
  end.

(** The item overlaps the window between [s] and [t]; it lies inside it;
    its end lies inside it; it is going on at [i]. *)
Definition overlaps (s t : Z) : Todo.t -> bool :=
  on_interval (fun b e => (s <? e) && (b <? t)).

Definition inside (s t : Z) : Todo.t -> bool :=
  on_interval (fun b e => (s <? b) && (e <? t)).

Definition ends_inside (s t : Z) : Todo.t -> bool :=
  on_interval (fun b e => (s <? e) && (e <? t)).

Definition going_on (i : Z) : Todo.t -> bool :=
  on_interval (fun b e => (b <=? i) && (i <=? e)).

(** The todo [x] has the category [c]: its [categories] is an object
    that yields [c] when iterated over. *)
Definition has_category (σ : gmap nat obj) (x : Todo.t) (c : string) : Prop :=
  exists a cats,
    Todo.categories x = Some a /\ iterate σ a = Ok cats /\ c ∈ cats.

(** The [categories] of a todo, when it has one, is an object of the
    store. *)
Definition categories_resolve (σ : gmap nat obj) (x : Todo.t) : Prop :=
  forall a, Todo.categories x = Some a -> is_Some (σ !! a).

(** The order of [list.sort()] on strings. *)
Definition str_le (a b : string) : Prop := String.leb a b = true.

(** A todo with its due moved by [f], when the due is an instant; and the
    same with [f now] for the due of a todo that has none. *)
Definition shift_due (f : Z -> Z) (x : Todo.t) : Todo.t :=
  match Todo._due x with
  | PArrow d => Todo.with_due x (PArrow (f d))
  | _ => x
  end.

Definition shift_due_or (f : Z -> Z) (now : Z) (x : Todo.t) : Todo.t :=
  if Todo.has_due x then shift_due f x else Todo.with_due x (PArrow (f now)).

(** The line that [Todo.bump] prints for a todo it leaves alone. *)
Definition check_line (x : Todo.t) : string := "ics.todo: check 1".

(** [x'] is a copy of the todo [x] made between the stores [σ] and [σ']:
    it has a new [_unused] container with the content of the one of [x],
    and every other attribute as [x] has it. *)
Definition copy_of (σ σ' : gmap nat obj) (x x' : Todo.t) : Prop :=
  x' = Todo.with_unused x (Todo._unused x')
  /\ σ !! Todo._unused x' = None
  /\ σ' !! Todo._unused x' = σ !! Todo._unused x.

(** The calendar that the constructor starts from, with its [_unused]
    container at address [a]: empty lists, and no [_creator] attribute
    yet. *)
Definition blank_calendar (a : nat) : Calendar.t :=
  {| Calendar._timezones := ∅; Calendar._events := Calendar.EventList_empty;
     Calendar._todos := Calendar.TodoList_empty; Calendar._unused := a;
     Calendar.scale := None; Calendar.method := None;
     Calendar._creator := None |}.

(** A calendar with another list of todos. *)
Definition calendar_with_todos (c : Calendar.t) (l : Calendar.pylist) : Calendar.t :=
  {| Calendar._timezones := Calendar._timezones c;
     Calendar._events := Calendar._events c; Calendar._todos := l;
     Calendar._unused := Calendar._unused c; Calendar.scale := Calendar.scale c;
     Calendar.method := Calendar.method c;
     Calendar._creator := Calendar._creator c |}.

(** An element of a list that is not a todo. *)
Definition not_a_todo (el : Calendar.elem) : Prop :=
  forall x, el <> Calendar.ETodo x.

(** A calendar as the class keeps it, with the events [es] and the todos
    [ts]: an [EventList] and a [TodoList], a [_creator] attribute, and in
    the store the [_unused] containers of the calendar and of its
    items. *)
Definition kept_calendar (σ : gmap nat obj) (c : Calendar.t)
    (es : list Event.t) (ts : list Todo.t) : Prop :=
  Calendar._events c = {| Calendar.class_of := Calendar.CEventList;
                          Calendar.items := Calendar.EEvent <$> es |}
  /\ Calendar._todos c = {| Calendar.class_of := Calendar.CTodoList;
                            Calendar.items := Calendar.ETodo <$> ts |}
  /\ is_Some (Calendar._creator c)
  /\ is_Some (σ !! Calendar._unused c)
  /\ Forall (fun e => is_Some (σ !! Event._unused e)) es
  /\ Forall (fun x => is_Some (σ !! Todo._unused x)) ts.

(** Two lists of events, and of todos, with the same uids position by
    position. *)
Definition same_event_uids (es es' : list Event.t) : Prop :=
  Event.uid <$> es = Event.uid <$> es'.

Definition same_todo_uids (ts ts' : list Todo.t) : Prop :=
  Todo.uid <$> ts = Todo.uid <$> ts'.

(** A calendar that has no [_creator] attribute. *)
Definition without_creator (c : Calendar.t) : Calendar.t :=
  {| Calendar._timezones := Calendar._timezones c;
     Calendar._events := Calendar._events c; Calendar._todos := Calendar._todos c;
     Calendar._unused := Calendar._unused c; Calendar.scale := Calendar.scale c;
     Calendar.method := Calendar.method c; Calendar._creator := None |}.

(** A text whose characters are all below 128. *)
Fixpoint ascii_text (s : string) : bool :=
  match s with
  | EmptyString => true
  | String c s' => (byte_of c <? 128) && ascii_text s'
  end.

(** Two texts of two characters each: U+03E9 followed by U+007B, and
    U+0064 followed by U+0463. *)
Definition uid_1001_123 : string :=
  String (Ascii.ascii_of_nat 207) (String (Ascii.ascii_of_nat 169) "{").

Definition uid_100_1123 : string :=
  String (Ascii.ascii_of_nat 100)
    (String (Ascii.ascii_of_nat 209) (String (Ascii.ascii_of_nat 163) EmptyString)).

(** * Properties *)

(** ** Events *)

Section EventFacts.

Implicit Types (e self : Event.t) (v : pyval) (d : durval) (o : Event.op).

Lemma unit_of_pos (p : precision) : 0 < unit_of p.
Proof. destruct p; reflexivity. Qed.

Lemma floor_day_le (t : Z) : floor_day t <= t.
Proof.
  unfold floor_day.
  assert (0 <= t mod usec_per_day) by (apply Z.mod_pos_bound; reflexivity).
  lia.
Qed.

Lemma delta_truthy_iff (d : option Z) :
  delta_truthy d = true <-> exists x, d = Some x /\ x <> 0.
Proof.
  destruct d as [x|]; simpl.
  - rewrite negb_true_iff, Z.eqb_neq. split; [eauto|].
    intros (y & [= ->] & ?). done.
  - split; [done|]. intros (? & ? & ?). done.
Qed.

(** What a call that returns has done, setter by setter. *)
Lemma set_begin_done v self self' :
  Event.set_begin v self = Done self' ->
  exists b, get_arrow v = Ok b
    /\ self' = Event.with_begin self b (Some second)
    /\ (forall x en, b = Some x -> Event._end_time self = Some en -> x <= en).
Proof.
  unfold Event.set_begin. destruct (get_arrow v) as [b|]; [|done].
  destruct b as [x|]; [destruct (Event._end_time self) as [en|] eqn:Hen|].
  - destruct (Z.ltb_spec en x); [done|]. intros [= <-].
    exists (Some x). repeat split. intros ? ? [= <-] [= <-]. done.
  - intros [= <-]. exists (Some x). repeat split. done.
  - intros [= <-]. exists None. repeat split. done.
Qed.

Lemma set_begin_raised v self x self' :
  Event.set_begin v self = Raised x self' -> self' = self.
Proof.
  unfold Event.set_begin. destruct (get_arrow v) as [[b|]|]; [| |congruence].
  - destruct (Event._end_time self); [|done]. by destruct (_ <? _); [intros [= ]|].
  - done.
Qed.

Lemma set_end_done v self self' :
  Event.set_end v self = Done self' ->
  (get_arrow v = Ok None /\ self' = Event.with_end_time self None)
  \/ (exists t, get_arrow v = Ok (Some t)
        /\ (forall b, Event._begin self = Some b -> b <= t)
        /\ self' = Event.with_duration (Event.with_end_time self (Some t)) None).
Proof.
  unfold Event.set_end. destruct (get_arrow v) as [[t|]|]; [| |done].
  - destruct (Event._begin self) as [b|]; simpl.
    + destruct (Z.ltb_spec t b); [done|]. intros [= <-]. right.
      exists t. split_and!; [done| |done]. by intros ? [= <-].
    + intros [= <-]. right. exists t. by split_and!.
  - intros [= <-]. by left.
Qed.

Lemma set_end_raised v self x self' :
  Event.set_end v self = Raised x self' -> self' = self.
Proof.
  unfold Event.set_end. destruct (get_arrow v) as [[t|]|]; [| |congruence].
  - destruct (Event._begin self); simpl; [|done].
    destruct (_ <? _); [congruence|done].
  - done.
Qed.

Lemma set_duration_done d self self' :
  Event.set_duration d self = Done self' ->
  exists td, Event.to_timedelta d = Ok td
    /\ self' = Event.with_duration
                 (if delta_truthy td then Event.with_end_time self None else self) td.
Proof.
  unfold Event.set_duration. destruct (Event.to_timedelta d) as [td|]; [|done].
  intros [= <-]. eauto.
Qed.

Lemma set_duration_raised d self x self' :
  Event.set_duration d self = Raised x self' -> self' = self.
Proof.
  unfold Event.set_duration. destruct (Event.to_timedelta d); [done|congruence].
Qed.

Lemma make_all_day_state self :
  Event.make_all_day self
  = match Event._begin self with
    | Some b =>
        Done (Event.with_end_time
                (Event.with_duration
                   (Event.with_begin self (Some (floor_day b)) (Some day)) None) None)
    | None => Raised AttributeError (Event.with_begin self None (Some day))
    end.
Proof. unfold Event.make_all_day. simpl. by destruct (Event._begin self). Qed.

Ltac unfold_run :=
  unfold Event.run, Event.start, Event.duration, Event.end_,
    Event.set_begin, Event.set_end, Event.set_duration, Event.make_all_day.

Lemma run_exclusive o self : exclusive self -> exclusive (state_of (Event.run o self)).
Proof.
  unfold exclusive. intros Hx. destruct o; unfold_run; simpl;
    repeat case_match; simplify_eq/=;
    try (intros [[? ?] ?]; simplify_eq/=; done);
    try (intros [? ?]; apply Hx; split; eauto; congruence).
Qed.

Lemma run_precision_recorded o self :
  precision_recorded self -> precision_recorded (state_of (Event.run o self)).
Proof.
  unfold precision_recorded. intros Hx. destruct o; unfold_run; simpl;
    repeat case_match; simplify_eq/=; eauto;
    intros [? ?]; congruence.
Qed.

Lemma run_ordered o self :
  Event.forward_op o = true -> ordered self -> ordered (state_of (Event.run o self)).
Proof.
  unfold ordered. intros Ho [Hbe Hd]. destruct o; try done.
  - (* begin setter *)
    simpl. destruct (Event.set_begin v self) as [self'|x self'] eqn:E; simpl.
    + apply set_begin_done in E as (b & _ & -> & Hle). simpl. split; [|done].
      intros x en -> Hen. by eapply Hle.
    + apply set_begin_raised in E as ->. done.
  - (* end setter *)
    simpl. destruct (Event.set_end v self) as [self'|x self'] eqn:E; simpl.
    + apply set_end_done in E as [[_ ->]|(t & _ & Hle & ->)]; simpl.
      * split; [done|]. done.
      * split; [|done]. intros b' en Hb' [= <-]. by apply Hle.
    + apply set_end_raised in E as ->. done.
  - (* duration setter *)
    simpl in *. destruct (Event.set_duration d self) as [self'|x self'] eqn:E; simpl.
    + apply set_duration_done in E as (td & Htd & ->). rewrite Htd in Ho.
      destruct td as [td|]; simpl.
      * apply Z.leb_le in Ho. split.
        -- destruct (negb (td =? 0)); simpl; [done|]. done.
        -- intros ? [= <-]. done.
      * split; [done|done].
    + apply set_duration_raised in E as ->. done.
  - (* make_all_day *)
    simpl. rewrite make_all_day_state. destruct (Event._begin self); simpl.
    + split; [done|done].
    + split; [done|done].
Qed.

Lemma init_invariants uid_gen σ name begin_ end_ duration uid description created
    location self σ' :
  Event.__init__ uid_gen σ name begin_ end_ duration uid description created
    location = Ok (self, σ') ->
  exclusive self /\ precision_recorded self
  /\ (Event.forward_op (Event.SetDuration duration) = true -> ordered self).
Proof.
  unfold Event.__init__. destruct (get_arrow created) as [c|]; [|done]. simpl.
  set (self0 := {| Event._duration := None |}).
  assert (H0 : exclusive self0 /\ precision_recorded self0 /\ ordered self0).
  { unfold exclusive, precision_recorded, ordered. simpl.
    split_and!; try done; by intros [[? ?] ?]. }
  destruct H0 as (Hx & Hp & Ho).
  pose proof (run_exclusive (Event.SetBegin begin_) self0 Hx) as Hx1.
  pose proof (run_precision_recorded (Event.SetBegin begin_) self0 Hp) as Hp1.
  pose proof (run_ordered (Event.SetBegin begin_) self0 eq_refl Ho) as Ho1.
  simpl in Hx1, Hp1, Ho1.
  destruct (Event.set_begin begin_ self0) as [self1|]; [|done]. simpl in *.
  destruct (dur_truthy duration && truthy end_); [done|].
  destruct (truthy end_).
  - pose proof (run_exclusive (Event.SetEnd end_) self1 Hx1) as Hx2.
    pose proof (run_precision_recorded (Event.SetEnd end_) self1 Hp1) as Hp2.
    pose proof (run_ordered (Event.SetEnd end_) self1 eq_refl Ho1) as Ho2.
    simpl in *. destruct (Event.set_end end_ self1); [|done].
    intros [= <- <-]. done.
  - destruct (dur_truthy duration).
    + pose proof (run_exclusive (Event.SetDuration duration) self1 Hx1) as Hx2.
      pose proof (run_precision_recorded (Event.SetDuration duration) self1 Hp1) as Hp2.
      pose proof (fun H => run_ordered (Event.SetDuration duration) self1 H Ho1) as Ho2.
      simpl in *. destruct (Event.set_duration duration self1); [|done].
      intros [= <- <-]. done.
    + intros [= <- <-]. done.
Qed.

Lemma reachable_exclusive allowed self :
  Event.reachable allowed self -> exclusive self /\ precision_recorded self.
Proof.
  induction 1 as [? ? ? ? ? ? ? ? ? ? ? ? _ Hinit|o self _ _ [IHx IHp]].
  - apply init_invariants in Hinit. tauto.
  - split; [by apply run_exclusive|by apply run_precision_recorded].
Qed.

Lemma reachable_ordered self :
  Event.reachable Event.forward_op self -> ordered self.
Proof.
  induction 1 as [? ? ? ? ? ? ? ? ? ? ? ? Hd Hinit|o self Ho _ IH].
  - apply init_invariants in Hinit as (_ & _ & Hord). by apply Hord.
  - by apply run_ordered.
Qed.

Lemma effective_end_after_begin self b :
  ordered self -> precision_recorded self ->
  Event._begin self = Some b ->
  exists x, Event.get_end self = Ok (Some x) /\ b <= x.
Proof.
  intros [Hbe Hd] Hp Hb. unfold Event.get_end, Event.begin. rewrite Hb.
  destruct (delta_truthy (Event._duration self)) eqn:Ht.
  - apply delta_truthy_iff in Ht as (d & Hdur & _). rewrite Hdur.
    exists (b + d). split; [done|]. specialize (Hd d Hdur). lia.
  - destruct (Event._end_time self) as [en|] eqn:Hen.
    + exists en. split; [done|]. by apply Hbe.
    + destruct Hp as [p Hprec]; [by rewrite Hb|]. rewrite Hprec.
      exists (b + unit_of p). split; [done|]. pose proof (unit_of_pos p). lia.
Qed.

Lemma minimal_event_init :
  Event.__init__ "fresh" ∅ None (PArrow (utc 2024 1 1 10 0 0)) PNone DNone
    (Some "minimal"%string) None PNone None
  = Ok (minimal_event, {[ 0%nat := OContainer "VEVENT" [] ]}).
Proof. vm_compute. reflexivity. Qed.

Lemma minimal_event_reachable allowed :
  allowed (Event.SetDuration DNone) = true ->
  Event.reachable allowed minimal_event.
Proof. intros H. eapply Event.reach_init; [exact H|]. apply minimal_event_init. Qed.

(** C8. An event that has a begin and stores neither an end time nor a
    duration reads as its end the begin moved forward by one unit of the
    recorded precision; every state reached through the constructor, the
    setters, [make_all_day] and the extractors has a recorded precision
    when it has a begin. An event built with begin 2024-01-01T10:00:00
    and nothing else has precision second, end 2024-01-01T10:00:01, and is
    not an all-day event. *)
Theorem end_is_begin_plus_one_unit :
  (forall self b p,
     Event._begin self = Some b ->
     Event._begin_precision self = Some p ->
     Event._end_time self = None ->
     Event._duration self = None ->
     Event.get_end self = Ok (Some (b + unit_of p)))
  /\ (forall self b,
       Event.reachable Event.any_op self ->
       Event._begin self = Some b ->
       Event._end_time self = None ->
       Event._duration self = None ->
       exists p, Event._begin_precision self = Some p
         /\ Event.get_end self = Ok (Some (b + unit_of p)))
  /\ (forall uid_gen σ name uid description location,
       exists self σ',
         Event.__init__ uid_gen σ name (PArrow (utc 2024 1 1 10 0 0)) PNone DNone
           uid description PNone location = Ok (self, σ')
         /\ Event.begin self = Some (utc 2024 1 1 10 0 0)
         /\ Event._begin_precision self = Some second
         /\ Event.get_end self = Ok (Some (utc 2024 1 1 10 0 1))
         /\ Event.all_day self = false).
Proof.
  assert (Hgen : forall self b p,
     Event._begin self = Some b -> Event._begin_precision self = Some p ->
     Event._end_time self = None -> Event._duration self = None ->
     Event.get_end self = Ok (Some (b + unit_of p))).
  { intros self b p Hb Hp He Hd. unfold Event.get_end.
    by rewrite Hd, He, Hb, Hp. }
  split_and!.
  - exact Hgen.
  - intros self b Hr Hb He Hd.
    apply reachable_exclusive in Hr as [_ Hp].
    destruct Hp as [p Hp]; [by rewrite Hb|]. eauto.
  - intros. unfold Event.__init__. simpl. eexists _, _. split; [reflexivity|].
    simpl. split_and!; reflexivity.
Qed.

Lemma end_is_begin_plus_one_unit_witness :
  Event.get_end minimal_event = Ok (Some (utc 2024 1 1 10 0 0 + unit_of second)).
Proof.
  apply (proj1 end_is_begin_plus_one_unit minimal_event (utc 2024 1 1 10 0 0) second);
    reflexivity.
Defined.

(** C1, as amended. After the end setter has stored an end that is not
    [None], no duration is stored, and the duration property does not
    read as absent: it reads the end minus the begin when the event has a
    begin, and raises [NotImplementedError] when it has none (the setter
    stores an end on an event without a begin). After the duration setter
    has stored a duration that is not zero, no end time is stored (the
    end property then reads the begin plus the duration); and no state
    reached through the constructor, the setters, [make_all_day] and the
    extractors stores an end time together with a duration that is not
    zero. *)
Theorem stored_end_excludes_stored_duration :
  (forall self v self',
     v <> PNone ->
     Event.set_end v self = Done self' ->
     exists t,
       Event._end_time self' = Some t
       /\ Event._begin self' = Event._begin self
       /\ Event._duration self' = None
       /\ Event.get_duration self'
          = match Event._begin self with
            | Some b => Ok (Some (t - b))
            | None => Raise NotImplementedError
            end
       /\ Event.get_duration self' <> Ok None)
  /\ (forall self d td self',
       Event.to_timedelta d = Ok (Some td) ->
       td <> 0 ->
       Event.set_duration d self = Done self' ->
       Event._end_time self' = None /\ Event._duration self' = Some td
       /\ Event.get_end self'
          = match Event._begin self' with
            | Some b => Ok (Some (b + td))
            | None => Raise TypeError
            end)
  /\ (forall self, Event.reachable Event.any_op self -> exclusive self).
Proof.
  split_and!.
  - intros self v self' Hv Hset.
    apply set_end_done in Hset as [[Hnone _]|(t & _ & _ & ->)].
    + by destruct v as [| |? []|].
    + exists t. simpl.
      assert (Hget : Event.get_duration
                       (Event.with_duration (Event.with_end_time self (Some t)) None)
                     = match Event._begin self with
                       | Some b => Ok (Some (t - b))
                       | None => Raise NotImplementedError
                       end).
      { unfold Event.get_duration, Event.get_end, Event.begin. simpl.
        by destruct (Event._begin self). }
      split_and!; try done. rewrite Hget. by destruct (Event._begin self).
  - intros self d td self' Htd Hnz Hset.
    apply set_duration_done in Hset as (td' & Htd' & ->).
    rewrite Htd in Htd'. injection Htd' as <-.
    assert (Ht : delta_truthy (Some td) = true).
    { apply delta_truthy_iff. eauto. }
    rewrite Ht. simpl. split_and!; try done.
    unfold Event.get_end, Event.begin. simpl. simpl in Ht. rewrite Ht.
    by destruct (Event._begin self).
  - intros self Hr. by apply reachable_exclusive in Hr as [? _].
Qed.

Lemma stored_end_excludes_stored_duration_witness :
  exists t,
    Event._end_time (state_of (Event.set_end (PArrow (utc 2024 1 1 11 0 0)) minimal_event))
      = Some t
    /\ Event._begin (state_of (Event.set_end (PArrow (utc 2024 1 1 11 0 0)) minimal_event))
      = Event._begin minimal_event
    /\ Event._duration (state_of (Event.set_end (PArrow (utc 2024 1 1 11 0 0)) minimal_event))
      = None
    /\ Event.get_duration (state_of (Event.set_end (PArrow (utc 2024 1 1 11 0 0)) minimal_event))
      = match Event._begin minimal_event with
        | Some b => Ok (Some (t - b))
        | None => Raise NotImplementedError
        end
    /\ Event.get_duration (state_of (Event.set_end (PArrow (utc 2024 1 1 11 0 0)) minimal_event))
       <> Ok None.
Proof.
  apply (proj1 stored_end_excludes_stored_duration minimal_event
           (PArrow (utc 2024 1 1 11 0 0))); [discriminate|reflexivity].
Defined.

(** The claim C1 as it is written fails: the end setter accepts
    11:00 on an event that begins at 10:00, and the duration property then
    reads one hour, not [None]. *)
Lemma duration_reads_after_set_end :
  Event.__init__ "fresh" ∅ None (PArrow (utc 2024 1 1 10 0 0)) PNone DNone
    (Some "minimal"%string) None PNone None
  = Ok (minimal_event, {[ 0%nat := OContainer "VEVENT" [] ]})
  /\ Event.set_end (PArrow (utc 2024 1 1 11 0 0)) minimal_event
     = Done (Event.with_duration
               (Event.with_end_time minimal_event (Some (utc 2024 1 1 11 0 0))) None)
  /\ Event.get_duration
       (Event.with_duration
          (Event.with_end_time minimal_event (Some (utc 2024 1 1 11 0 0))) None)
     = Ok (Some (3600 * usec_per_second))
  /\ Event.get_duration
       (Event.with_duration
          (Event.with_end_time minimal_event (Some (utc 2024 1 1 11 0 0))) None)
     <> Ok None.
Proof. split_and!; [apply minimal_event_init|reflexivity|reflexivity|discriminate]. Qed.

(** C4, as amended. In every state reached through the constructor, the
    begin and end setters, [make_all_day], and the duration setter given
    durations that are not negative, an event that has a begin has an end
    that is not before it; the begin setter given an instant after the
    stored end time, and the end setter given an instant before the stored
    begin, raise [ValueError] and leave the event as it was. *)
Theorem begin_not_after_end :
  (forall self b,
     Event.reachable Event.forward_op self ->
     Event._begin self = Some b ->
     exists x, Event.get_end self = Ok (Some x) /\ b <= x)
  /\ (forall self v t en,
       get_arrow v = Ok (Some t) ->
       Event._end_time self = Some en ->
       en < t ->
       Event.set_begin v self = Raised ValueError self)
  /\ (forall self v t b,
       get_arrow v = Ok (Some t) ->
       Event._begin self = Some b ->
       t < b ->
       Event.set_end v self = Raised ValueError self).
Proof.
  split_and!.
  - intros self b Hr Hb.
    pose proof (reachable_ordered _ Hr) as Hord.
    apply reachable_exclusive in Hr as [_ Hp].
    by apply effective_end_after_begin.
  - intros self v t en Hv Hen Hlt. unfold Event.set_begin. rewrite Hv, Hen.
    by destruct (Z.ltb_spec en t); [|lia].
  - intros self v t b Hv Hb Hlt. unfold Event.set_end. rewrite Hv, Hb. simpl.
    by destruct (Z.ltb_spec t b); [|lia].
Qed.

Lemma begin_not_after_end_witness :
  exists x, Event.get_end minimal_event = Ok (Some x) /\ utc 2024 1 1 10 0 0 <= x.
Proof.
  apply (proj1 begin_not_after_end minimal_event (utc 2024 1 1 10 0 0)).
  - apply minimal_event_reachable. reflexivity.
  - reflexivity.
Defined.

(** The claim C4 as it is written fails: the duration setter takes a
    negative duration, and the end of the event is then before its
    begin. *)
Lemma negative_duration_puts_end_before_begin :
  Event.reachable Event.setter_op
    (state_of (Event.run (Event.SetDuration (DDelta (- 5 * usec_per_second))) minimal_event))
  /\ Event.set_duration (DDelta (- 5 * usec_per_second)) minimal_event
     = Done (Event.with_duration minimal_event (Some (- 5 * usec_per_second)))
  /\ Event.begin (Event.with_duration minimal_event (Some (- 5 * usec_per_second)))
     = Some (utc 2024 1 1 10 0 0)
  /\ Event.get_end (Event.with_duration minimal_event (Some (- 5 * usec_per_second)))
     = Ok (Some (utc 2024 1 1 9 59 55))
  /\ utc 2024 1 1 9 59 55 < utc 2024 1 1 10 0 0.
Proof.
  split_and!; try reflexivity.
  apply Event.reach_run; [reflexivity|]. apply minimal_event_reachable. reflexivity.
Qed.

End EventFacts.

(** ** Removal of duplicates *)

Section DedupFacts.

Context {A : Type} (uid : A -> string).

Implicit Types (l pre suf : list A) (x : A).

Lemma existsb_uid_elem x l :
  existsb (fun y => String.eqb (uid x) (uid y)) l = true <-> uid x ∈ uids uid l.
Proof.
  unfold uids. induction l as [|y l IH]; simpl.
  - split; [done|]. set_solver.
  - rewrite orb_true_iff, IH, String.eqb_eq. set_solver.
Qed.

Lemma uid_hash_ok (u : string) : u <> ""%string -> exists h, uid_hash u = Ok h.
Proof.
  intros Hu. unfold uid_hash.
  destruct (String.eqb_spec u ""); [done|]. eauto.
Qed.

Lemma list_index_middle pre x l :
  list_index (pre ++ x :: l) (Z.of_nat (length pre)) = Ok x.
Proof.
  unfold list_index.
  assert (Hlt : (Z.of_nat (length pre) <? 0) = false) by (apply Z.ltb_ge; lia).
  rewrite !Hlt, Nat2Z.id, lookup_app_r by lia.
  by rewrite Nat.sub_diag.
Qed.

Lemma delete_middle pre x l : delete (length pre) (pre ++ x :: l) = pre ++ l.
Proof. induction pre as [|y pre IH]; simpl; [done|]. by rewrite IH. Qed.

(** The loop, started on a list whose tail from position [length pre] on
    has been visited: the tail holds what [keep_last] keeps of it, and
    [seen] the uids met there. *)
Lemma remove_duplicates_loop_keep_last pre suf :
  Forall (fun x => uid x <> ""%string) pre ->
  remove_duplicates_loop uid (reverse (seq 0 (length pre)))
    (pre ++ keep_last uid suf) (uids uid suf)
  = Ok (keep_last uid (pre ++ suf)).
Proof.
  revert suf. induction pre as [|x pre IH] using rev_ind; intros suf Hne.
  - reflexivity.
  - apply Forall_app in Hne as [Hpre Hx]. rewrite Forall_singleton in Hx.
    rewrite length_app. simpl. rewrite seq_app, reverse_app. simpl.
    rewrite <- !app_assoc. simpl.
    rewrite list_index_middle. simpl.
    destruct (uid_hash_ok _ Hx) as [h ->]. simpl.
    specialize (IH (x :: suf) Hpre). simpl in IH.
    destruct (decide (uid x ∈ uids uid suf)) as [Hin|Hin].
    + rewrite delete_middle.
      assert (Hex : existsb (fun y => String.eqb (uid x) (uid y)) suf = true)
        by by apply existsb_uid_elem.
      rewrite Hex in IH. rewrite <- IH. f_equal.
      unfold uids in *. simpl. set_solver.
    + assert (Hex : existsb (fun y => String.eqb (uid x) (uid y)) suf = false).
      { apply not_true_is_false. by rewrite existsb_uid_elem. }
      rewrite Hex in IH. rewrite <- IH. done.
Qed.

Lemma remove_duplicates_keep_last l :
  Forall (fun x => uid x <> ""%string) l ->
  remove_duplicates uid l = Ok (keep_last uid l).
Proof.
  intros Hne. unfold remove_duplicates.
  pose proof (remove_duplicates_loop_keep_last l [] Hne) as H.
  simpl in H. by rewrite !app_nil_r in H.
Qed.

Lemma keep_last_sublist l : keep_last uid l `sublist_of` l.
Proof.
  induction l as [|x l IH]; simpl; [done|].
  destruct (existsb _ l); by constructor.
Qed.

Lemma keep_last_uids l : uids uid (keep_last uid l) = uids uid l.
Proof.
  induction l as [|x l IH]; simpl; [done|].
  destruct (existsb _ l) eqn:Hex.
  - apply existsb_uid_elem in Hex. rewrite IH. unfold uids in *. simpl. set_solver.
  - unfold uids in *. simpl. by f_equal.
Qed.

Lemma keep_last_NoDup l : NoDup (uid <$> keep_last uid l).
Proof.
  induction l as [|x l IH]; simpl; [constructor|].
  destruct (existsb _ l) eqn:Hex; [done|].
  simpl. constructor; [|done].
  intros Hin. apply not_true_iff_false in Hex. apply Hex.
  apply existsb_uid_elem. rewrite <- keep_last_uids.
  unfold uids. by apply elem_of_list_to_set.
Qed.

Lemma keep_last_id l : NoDup (uid <$> l) -> keep_last uid l = l.
Proof.
  induction l as [|x l IH]; simpl; [done|].
  intros [Hx Hl]%NoDup_cons.
  destruct (existsb _ l) eqn:Hex.
  - apply existsb_uid_elem in Hex. unfold uids in Hex.
    by apply elem_of_list_to_set in Hex.
  - by rewrite IH.
Qed.

Lemma keep_last_app_covered l suf :
  uids uid l ⊆ uids uid suf -> keep_last uid (l ++ suf) = keep_last uid suf.
Proof.
  induction l as [|x l IH]; simpl; [done|].
  intros Hsub.
  assert (Hex : existsb (fun y => String.eqb (uid x) (uid y)) (l ++ suf) = true).
  { apply existsb_uid_elem. unfold uids in *. rewrite fmap_app, list_to_set_app_L.
    simpl in Hsub. set_solver. }
  rewrite Hex. apply IH. unfold uids in *. simpl in Hsub. set_solver.
Qed.

End DedupFacts.

(** ** Todo lists *)

Section TodoListFacts.

Implicit Types (self pre post : list Todo.t) (x todo : Todo.t).

(** C9, as amended. When no uid is empty, [A + B] is the list of the items
    of [A] followed by the items of [B] without the items that have a
    later duplicate (an item of the same uid): of each uid it keeps the
    last occurrence, with its field values, in the original order, and
    each uid once. [A + A] is [A], and so has its length, when no two
    items of [A] have the same uid. *)
Theorem concatenation_keeps_last_occurrence (A B : list Todo.t) :
  Forall (fun x => Todo.uid x <> ""%string) (A ++ B) ->
  TodoList.__add__ A B = Ok (keep_last Todo.uid (A ++ B))
  /\ keep_last Todo.uid (A ++ B) `sublist_of` A ++ B
  /\ NoDup (Todo.uid <$> keep_last Todo.uid (A ++ B))
  /\ uids Todo.uid (keep_last Todo.uid (A ++ B)) = uids Todo.uid (A ++ B)
  /\ (NoDup (Todo.uid <$> A) -> TodoList.__add__ A A = Ok A).
Proof.
  intros Hne. split_and!.
  - by apply remove_duplicates_keep_last.
  - apply keep_last_sublist.
  - apply keep_last_NoDup.
  - apply keep_last_uids.
  - intros Hnd. unfold TodoList.__add__, TodoList._remove_duplicates.
    apply Forall_app in Hne as [HA _].
    rewrite remove_duplicates_keep_last by by apply Forall_app.
    by rewrite keep_last_app_covered, keep_last_id.
Qed.

Lemma concatenation_keeps_last_occurrence_witness :
  TodoList.__add__ [plain_todo "a" None] [plain_todo "b" None]
  = Ok (keep_last Todo.uid ([plain_todo "a" None] ++ [plain_todo "b" None])).
Proof.
  apply (concatenation_keeps_last_occurrence
           [plain_todo "a" None] [plain_todo "b" None]).
  repeat constructor; discriminate.
Defined.

(** The claim C9 as it is written fails: of two todos of the same uid the
    sum keeps the second one, where the first occurrence was to stay; and
    the sum of a list with itself is shorter than the list when two of
    its items have the same uid. *)
Lemma concatenation_drops_first_occurrence :
  TodoList.__add__ [plain_todo "u" (Some "first"%string)]
                   [plain_todo "u" (Some "second"%string)]
  = Ok [plain_todo "u" (Some "second"%string)]
  /\ keep_first Todo.uid ([plain_todo "u" (Some "first"%string)]
                          ++ [plain_todo "u" (Some "second"%string)])
     = [plain_todo "u" (Some "first"%string)]
  /\ Todo.name (plain_todo "u" (Some "second"%string))
     <> Todo.name (plain_todo "u" (Some "first"%string))
  /\ TodoList.__add__
       [plain_todo "u" (Some "first"%string); plain_todo "u" (Some "second"%string)]
       [plain_todo "u" (Some "first"%string); plain_todo "u" (Some "second"%string)]
     = Ok [plain_todo "u" (Some "second"%string)].
Proof. split_and!; [by vm_compute|by vm_compute|discriminate|by vm_compute]. Qed.

Lemma plain_todo_init name :
  Todo.__init__ "fresh" 0 ∅ name PNone DNone (Some "u"%string) None PNone None
    PNone PNone PNone None
  = Ok (plain_todo "u" name, {[ 0%nat := OContainer "VTODO" [] ]}).
Proof. reflexivity. Qed.

(** *** Range queries *)

Lemma getitem_step_string self start stop s p :
  TodoList.__getitem__ self (TodoList.KSlice start stop (PStr s p))
  = l ← TodoList.special_slice self start stop (PStr s p); Ok (TodoList.Many l).
Proof. simpl. by destruct (TodoList.int_or_none start), (TodoList.int_or_none stop). Qed.

Lemma filter_cond_total (c : Todo.t -> result bool) (f : Todo.t -> bool) self :
  Forall (fun x => c x = Ok (f x)) self ->
  TodoList.filter_cond c self = Ok (List.filter f self).
Proof.
  induction 1 as [|x self Hx _ IH]; [done|].
  cbn [TodoList.filter_cond List.filter]. rewrite Hx, IH. simpl.
  by destruct (f x).
Qed.

(** *** Todos that have no begin *)

Lemma init_leaves_begin_unset uid_gen now σ name due duration uid description
    priority categories created percent completed location x σ' :
  Todo.__init__ uid_gen now σ name due duration uid description priority
    categories created percent completed location = Ok (x, σ') ->
  Todo._begin x = None.
Proof.
  unfold Todo.__init__.
  destruct (get_arrow created); [|done]. simpl.
  destruct (Todo.percent_value now percent); [|done]. simpl.
  destruct (get_arrow completed); [|done]. simpl.
  repeat case_match; intros [= <- <-]; reflexivity.
Qed.

(** A condition that returns or raises [AttributeError], on any item. *)
Lemma filter_cond_raise (c : Todo.t -> result bool) pre x post :
  (forall y, (exists b, c y = Ok b) \/ c y = Raise AttributeError) ->
  c x = Raise AttributeError ->
  TodoList.filter_cond c (pre ++ x :: post) = Raise AttributeError.
Proof.
  intros Hc Hx. induction pre as [|y pre IH]; simpl.
  - by rewrite Hx.
  - destruct (Hc y) as [[b ->]| ->]; [|done]. simpl. by rewrite IH.
Qed.

Lemma during_raise clock k pre x post :
  Todo._begin x = None ->
  TodoList.during clock k (pre ++ x :: post) = Raise AttributeError.
Proof.
  intros Hx. revert k. induction pre as [|y pre IH]; intros k; simpl.
  - unfold Todo.begin. by rewrite Hx.
  - rewrite IH. unfold Todo.begin, Todo.get_end.
    destruct (Todo._begin y) as [[b|]|]; simpl; try done;
      destruct (Todo.end_attr y) as [[e|]|]; simpl;
      unfold TodoList.pand; simpl; by repeat case_match.
Qed.

Ltac any_item :=
  let y := fresh "y" in
  intros y; simpl;
  unfold TodoList.call, TodoList.condition0, Todo.begin, Todo.get_end,
    TodoList.gt_arrow, TodoList.lt_arrow, arrow_cmp;
  destruct (Todo._begin y) as [[?|]|], (Todo.end_attr y) as [[?|]|]; simpl;
  unfold TodoList.pand, TodoList.por; simpl;
  repeat (case_match; simplify_eq/=);
  first [by left; eexists | by right].

Lemma special_slice_unset_begin pre x post start stop bs es mode p :
  Todo._begin x = None ->
  get_arrow start = Ok bs ->
  get_arrow stop = Ok es ->
  is_Some bs \/ is_Some es ->
  mode ∈ ["begin"; "any"; "both"]%string ->
  TodoList.special_slice (pre ++ x :: post) start stop (PStr mode p)
  = Raise AttributeError.
Proof.
  intros Hx Hbs Hes Hbound Hmode.
  assert (Hbegin : Todo.begin x = Raise AttributeError)
    by (unfold Todo.begin; by rewrite Hx).
  unfold TodoList.special_slice.
  set_unfold in Hmode. destruct Hmode as [-> | [-> | [-> | []]]]; simpl;
    rewrite Hbs, Hes; simpl;
    destruct bs as [s|], es as [e|]; simpl;
    try (by destruct Hbound as [[? ?]|[? ?]]);
    (apply filter_cond_raise;
     [any_item
     |unfold TodoList.call, TodoList.condition0; simpl; by rewrite Hbegin]).
Qed.

Lemma inc_slice_unset_begin pre x post start stop s e p :
  Todo._begin x = None ->
  get_arrow start = Ok (Some s) ->
  get_arrow stop = Ok (Some e) ->
  TodoList.special_slice (pre ++ x :: post) start stop (PStr "inc" p)
  = Raise AttributeError.
Proof.
  intros Hx Hs He.
  assert (Hbegin : Todo.begin x = Raise AttributeError)
    by (unfold Todo.begin; by rewrite Hx).
  unfold TodoList.special_slice. simpl. rewrite Hs, He. simpl.
  apply filter_cond_raise.
  - any_item.
  - by rewrite Hbegin.
Qed.

(** C2, as amended. A range query of mode ['begin'] between two instants
    raises [AttributeError] when an item of the list has no [_begin]
    attribute, as every todo that the constructor builds. On items that
    have one, none of them beginning at the very start of the window, it
    returns exactly the items whose begin is in the window, start
    included and stop excluded; an item whose begin is [None] is not
    among them. An absent mode behaves as ['both']; a mode that is not
    one of the five raises [ValueError]; and of the items that span
    1 to 3, 2 to 5 and 6 to 8, the window 0 to 4 returns the first two in
    mode ['any'] and the first one in mode ['both'], and the window 2 to 3
    returns none in mode ['inc']. *)
Theorem range_query_modes :
  (forall self start stop s e p,
     get_arrow start = Ok (Some s) ->
     get_arrow stop = Ok (Some e) ->
     Forall (fun x => exists b, Todo._begin x = Some b /\ b <> Some s) self ->
     TodoList.__getitem__ self (TodoList.KSlice start stop (PStr "begin" p))
     = Ok (TodoList.Many (List.filter (begins_within s e) self)))
  /\ (forall pre x post start stop s e p,
       get_arrow start = Ok (Some s) ->
       get_arrow stop = Ok (Some e) ->
       Todo._begin x = None ->
       TodoList.__getitem__ (pre ++ x :: post)
         (TodoList.KSlice start stop (PStr "begin" p))
       = Raise AttributeError)
  /\ (forall self start stop p,
       TodoList.int_or_none start = None \/ TodoList.int_or_none stop = None ->
       TodoList.__getitem__ self (TodoList.KSlice start stop PNone)
       = TodoList.__getitem__ self (TodoList.KSlice start stop (PStr "both" p)))
  /\ (forall self start stop s p,
       TodoList.valid_step s = false ->
       TodoList.__getitem__ self (TodoList.KSlice start stop (PStr s p))
       = Raise ValueError)
  /\ TodoList.__getitem__ three_items
       (TodoList.KSlice (at_second 0) (at_second 4) (PStr "any" None))
     = Ok (TodoList.Many [timed_todo "a" 1 3; timed_todo "b" 2 5])
  /\ TodoList.__getitem__ three_items
       (TodoList.KSlice (at_second 0) (at_second 4) (PStr "both" None))
     = Ok (TodoList.Many [timed_todo "a" 1 3])
  /\ TodoList.__getitem__ three_items
       (TodoList.KSlice (at_second 2) (at_second 3) (PStr "inc" None))
     = Ok (TodoList.Many []).
Proof.
  split_and!; try reflexivity.
  - intros self start stop s e p Hs He Hall.
    rewrite getitem_step_string. unfold TodoList.special_slice. simpl.
    rewrite Hs, He. simpl.
    rewrite (filter_cond_total _ (begins_within s e)); [done|].
    eapply Forall_impl; [exact Hall|]. intros x (b & Hb & Hne).
    unfold begins_within, Todo.begin. simpl. rewrite !Hb. simpl.
    destruct b as [b|]; simpl; [|done].
    assert (b <> s) by congruence.
    destruct (Z.ltb_spec s b), (Z.leb_spec s b), (Z.ltb_spec b e);
      simpl; try done; lia.
  - intros pre x post start stop s e p Hs He Hx.
    rewrite getitem_step_string.
    rewrite (special_slice_unset_begin pre x post start stop (Some s) (Some e));
      try done; [by left|set_solver].
  - intros self start stop p Hnot. simpl.
    destruct (TodoList.int_or_none start) eqn:Hstart,
      (TodoList.int_or_none stop) eqn:Hstop; try reflexivity.
    by destruct Hnot.
  - intros self start stop s p Hs. rewrite getitem_step_string.
    unfold TodoList.special_slice. simpl. by rewrite Hs.
Qed.

Lemma range_query_modes_witness :
  TodoList.__getitem__ three_items
    (TodoList.KSlice (at_second 0) (at_second 4) (PStr "begin" None))
  = Ok (TodoList.Many (List.filter (begins_within 0 (4 * usec_per_second)) three_items)).
Proof.
  apply (proj1 range_query_modes three_items (at_second 0) (at_second 4)
           0 (4 * usec_per_second) None); [reflexivity|reflexivity|].
  repeat constructor; eexists; (split; [reflexivity|discriminate]).
Defined.

(** The claim C2 as it is written fails: in mode ['inc'] the window 2 to 3
    returns no item, not the second one, which begins at 2 and not before;
    in mode ['begin'] an item that begins at the very start of the
    window is not returned; and on a todo as the constructor builds it
    a query of mode ['begin'] returns nothing at all: it raises
    [AttributeError]. *)
Lemma inc_query_returns_nothing :
  TodoList.__getitem__ three_items
    (TodoList.KSlice (at_second 2) (at_second 3) (PStr "inc" None))
  = Ok (TodoList.Many [])
  /\ TodoList.__getitem__ three_items
       (TodoList.KSlice (at_second 2) (at_second 3) (PStr "inc" None))
     <> Ok (TodoList.Many [timed_todo "b" 2 5])
  /\ TodoList.__getitem__ [timed_todo "b" 2 5]
       (TodoList.KSlice (at_second 2) (at_second 5) (PStr "begin" None))
     = Ok (TodoList.Many [])
  /\ begins_within (2 * usec_per_second) (5 * usec_per_second) (timed_todo "b" 2 5)
     = true
  /\ Todo.__init__ "fresh" 0 ∅ None PNone DNone (Some "u"%string) None PNone None
       PNone PNone PNone None
     = Ok (plain_todo "u" None, {[ 0%nat := OContainer "VTODO" [] ]})
  /\ TodoList.__getitem__ [plain_todo "u" None]
       (TodoList.KSlice (at_second 0) (at_second 4) (PStr "begin" None))
     = Raise AttributeError.
Proof.
  split_and!;
    [reflexivity|discriminate|reflexivity|reflexivity|reflexivity|reflexivity].
Qed.

(** C3, as amended. A todo built by [Todo.__init__] has no [_begin], and
    reading its begin raises [AttributeError]. In any list that holds
    it, these calls raise [AttributeError]: a range query of mode
    ['begin'], ['any'] or ['both'] with at least one bound; a range query
    of mode ['inc'] with both bounds; [at], [now] and [today]; and
    [concurrent], whatever its argument, unless the begin and the end of
    the argument are both [None]. *)
Theorem unset_begin_raises uid_gen now σ name due duration uid description
    priority categories created percent completed location x σ' pre post :
  Todo.__init__ uid_gen now σ name due duration uid description priority
    categories created percent completed location = Ok (x, σ') ->
  Todo.begin x = Raise AttributeError
  /\ (forall start stop bs es mode p,
       get_arrow start = Ok bs ->
       get_arrow stop = Ok es ->
       is_Some bs \/ is_Some es ->
       mode ∈ ["begin"; "any"; "both"]%string ->
       TodoList.__getitem__ (pre ++ x :: post)
         (TodoList.KSlice start stop (PStr mode p)) = Raise AttributeError)
  /\ (forall start stop s e p,
       get_arrow start = Ok (Some s) ->
       get_arrow stop = Ok (Some e) ->
       TodoList.__getitem__ (pre ++ x :: post)
         (TodoList.KSlice start stop (PStr "inc" p)) = Raise AttributeError)
  /\ (forall instant, TodoList.at_ (pre ++ x :: post) instant = Raise AttributeError)
  /\ (forall clock, TodoList.now clock (pre ++ x :: post) = Raise AttributeError)
  /\ (forall t, TodoList.today t (pre ++ x :: post) = Raise AttributeError)
  /\ (forall todo,
       ~ (Todo._begin todo = Some None /\ Todo.end_attr todo = Some None) ->
       TodoList.concurrent (pre ++ x :: post) todo = Raise AttributeError).
Proof.
  intros Hinit. apply init_leaves_begin_unset in Hinit as Hx.
  split_and!.
  - unfold Todo.begin. by rewrite Hx.
  - intros start stop bs es mode p Hbs Hes Hbound Hmode.
    rewrite getitem_step_string.
    by rewrite (special_slice_unset_begin pre x post start stop bs es mode p).
  - intros start stop s e p Hs He. rewrite getitem_step_string.
    by rewrite (inc_slice_unset_begin pre x post start stop s e p).
  - intros instant. by apply during_raise.
  - intros clock. by apply during_raise.
  - intros t. unfold TodoList.today, TodoList.__getitem__, TodoList.day_slice.
    simpl.
    rewrite (special_slice_unset_begin pre x post _ _
               (Some (floor_day (floor_day t)))
               (Some (floor_day (floor_day t) + usec_per_day - 1)) "both" None);
      try done; [by left|set_solver].
  - intros todo Hnot. unfold TodoList.concurrent, Todo.begin, Todo.get_end.
    destruct (Todo._begin todo) as [b0|]; [|done]. simpl.
    destruct (Todo.end_attr todo) as [e0|]; [|done]. simpl.
    rewrite (special_slice_unset_begin pre x post _ _ b0 e0 "any" None);
      try done; try by destruct b0, e0.
    + destruct b0 as [?|], e0 as [?|]; eauto. by destruct Hnot.
    + set_solver.
Qed.

Lemma unset_begin_raises_witness :
  TodoList.at_ ([Todo.with_begin (plain_todo "v" None) None second]
                ++ plain_todo "u" None :: []) 0
  = Raise AttributeError.
Proof.
  refine (proj1 (proj2 (proj2 (proj2
    (unset_begin_raises "fresh" 0 ∅ None PNone DNone (Some "u"%string) None PNone
       None PNone PNone PNone None (plain_todo "u" None)
       {[ 0%nat := OContainer "VTODO" [] ]}
       [Todo.with_begin (plain_todo "v" None) None second] [] _)))) 0).
  reflexivity.
Defined.

(** The claim C3 as it is written fails: a range query of mode ['inc']
    that has only its upper bound returns the empty list, also on a list
    of todos that have no begin. *)
Lemma inc_query_with_one_bound_returns :
  Todo.__init__ "fresh" 0 ∅ None PNone DNone (Some "u"%string) None PNone None
    PNone PNone PNone None
  = Ok (plain_todo "u" None, {[ 0%nat := OContainer "VTODO" [] ]})
  /\ TodoList.__getitem__ [plain_todo "u" None]
       (TodoList.KSlice PNone (at_second 4) (PStr "inc" None))
     = Ok (TodoList.Many [])
  /\ TodoList.__getitem__ [plain_todo "u" None]
       (TodoList.KSlice PNone (at_second 4) (PStr "inc" None))
     <> Raise AttributeError.
Proof. split_and!; [reflexivity|reflexivity|discriminate]. Qed.

(** An item whose begin was set to [None] through the begin setter is
    passed over: its begin compares as [False] with the instant, and its
    end is not read. *)
Lemma begin_set_to_none_is_passed_over :
  Todo.set_begin PNone (plain_todo "v" None)
  = Done (Todo.with_begin (plain_todo "v" None) None second)
  /\ TodoList.at_ [Todo.with_begin (plain_todo "v" None) None second] 0 = Ok [].
Proof. split; reflexivity. Qed.

(** A uid that is the empty string cannot be hashed, and a sum that holds
    such an item raises [ValueError]. *)
Lemma empty_uid_cannot_be_hashed self other x :
  Todo.uid x = ""%string ->
  TodoList.__add__ (self ++ [x]) [] = Raise ValueError
  /\ TodoList.__add__ [] (other ++ [x]) = Raise ValueError.
Proof.
  intros Hx.
  assert (H : forall l, remove_duplicates Todo.uid (l ++ [x]) = Raise ValueError).
  { intros l. unfold remove_duplicates.
    rewrite length_app. simpl. rewrite seq_app, reverse_app. simpl.
    replace (l ++ [x]) with (l ++ x :: []) by done.
    rewrite list_index_middle. simpl. by rewrite Hx. }
  unfold TodoList.__add__, TodoList._remove_duplicates.
  rewrite app_nil_r. simpl. by rewrite !H.
Qed.

End TodoListFacts.

(** ** Todos *)

Section TodoFacts.

Implicit Types (self x : Todo.t) (σ : gmap nat obj).

(** C7, the behaviour of the sources. [is_overdue] returns true exactly
    when the stored due is an instant before the reading of the clock,
    and a todo whose due is unset has no due and is not overdue. But the
    constructor stores the due as it is given, without the conversion
    that the due setter makes: after [Todo(due=v)], for a [v] that is
    not an instant and that denotes the instant [d] before the reading of
    the clock, the todo has a due and [is_overdue] returns false, where
    it returns true once the same [v] has gone through the setter. *)
Theorem unconverted_due_is_not_overdue (now : Z) :
  (forall self,
     Todo.is_overdue now self = Ok true
     <-> exists d, Todo._due self = PArrow d /\ d < now)
  /\ (forall self,
       Todo._due self = PNone ->
       Todo.has_due self = false /\ Todo.due self = PNone
       /\ Todo.is_overdue now self = Ok false)
  /\ (forall uid_gen clock σ name v d uid description priority categories
        created percent completed location x σ',
       truthy v = true ->
       (forall t, v <> PArrow t) ->
       get_arrow v = Ok (Some d) ->
       d < now ->
       Todo.__init__ uid_gen clock σ name v DNone uid description priority
         categories created percent completed location = Ok (x, σ') ->
       Todo.has_due x = true
       /\ Todo.due x = v
       /\ Todo.is_overdue now x = Ok false
       /\ Todo.is_overdue now (state_of (Todo.set_due v x)) = Ok true).
Proof.
  split_and!.
  - intros self. unfold Todo.is_overdue.
    destruct (Todo._due self) as [| | |d]; simpl;
      try (split; [done|by intros (? & ? & ?)]).
    split.
    + intros [= H]. apply Z.ltb_lt in H. eauto.
    + intros (d' & [= <-] & H). apply Z.ltb_lt in H. by rewrite H.
  - intros self. unfold Todo.is_overdue, Todo.has_due, Todo.due. by intros ->.
  - intros uid_gen clock σ name v d uid description priority categories
      created percent completed location x σ' Hv Hna Hd Hlt.
    unfold Todo.__init__.
    destruct (get_arrow created); [|done]. simpl.
    destruct (Todo.percent_value clock percent); [|done]. simpl.
    destruct (get_arrow completed); [|done]. simpl.
    rewrite Hv. intros [= <- <-].
    unfold Todo.has_due, Todo.due, Todo.is_overdue, Todo.set_due. simpl.
    rewrite Hv, Hd. simpl.
    apply Z.ltb_lt in Hlt. rewrite Hlt. split_and!; try done.
    destruct v; try done. by destruct (Hna t).
Qed.

Lemma unconverted_due_is_not_overdue_witness :
  exists x σ',
    Todo.__init__ "fresh" 0 ∅ None
      (PStr "2020-01-01" (Some (utc 2020 1 1 0 0 0))) DNone (Some "u"%string)
      None PNone None PNone PNone PNone None = Ok (x, σ')
    /\ Todo.has_due x = true
    /\ Todo.due x = PStr "2020-01-01" (Some (utc 2020 1 1 0 0 0))
    /\ Todo.is_overdue (utc 2024 1 1 0 0 0) x = Ok false
    /\ Todo.is_overdue (utc 2024 1 1 0 0 0)
         (state_of (Todo.set_due (PStr "2020-01-01" (Some (utc 2020 1 1 0 0 0))) x))
       = Ok true.
Proof.
  eexists _, _. split; [reflexivity|].
  eapply (proj2 (proj2 (unconverted_due_is_not_overdue (utc 2024 1 1 0 0 0)))
            "fresh" 0 ∅ None (PStr "2020-01-01" (Some (utc 2020 1 1 0 0 0)))
            (utc 2020 1 1 0 0 0) (Some "u"%string) None PNone None PNone PNone
            PNone None);
    [reflexivity|discriminate|reflexivity|reflexivity|reflexivity].
Defined.

Lemma percent_value_instant (now : Z) value p :
  Todo.percent_value now value = Ok p -> exists t, p = PArrow t.
Proof.
  unfold Todo.percent_value. destruct value as [|n|s [t|]|t]; simpl.
  - intros [= <-]. eauto.
  - destruct (n =? 0); simpl; intros [= <-]; eauto.
  - destruct (String.eqb s ""); simpl; intros [= <-]; eauto.
  - destruct (String.eqb s ""); simpl; [intros [= <-]; eauto|done].
  - intros [= <-]. eauto.
Qed.

(** C6, the behaviour of the sources. The percent setter stores an
    instant, whatever it is given, and [is_complete] is false after it;
    so it is for every todo that the constructor returns, and for
    [Todo(percent=100)]. *)
Theorem percent_is_stored_as_instant :
  (forall now value self self',
     Todo.set_percent now value self = Done self' ->
     (exists t, Todo.percent self' = PArrow t)
     /\ Todo.is_complete self' = false)
  /\ (forall uid_gen now σ name due duration uid description priority
        categories created percent completed location x σ',
       Todo.__init__ uid_gen now σ name due duration uid description priority
         categories created percent completed location = Ok (x, σ') ->
       Todo.is_complete x = false)
  /\ (exists x σ',
       Todo.__init__ "fresh" 0 ∅ None PNone DNone (Some "u"%string) None PNone
         None PNone (PInt 100) PNone None = Ok (x, σ')
       /\ Todo.percent x = PArrow (100 * usec_per_second)
       /\ Todo.is_complete x = false).
Proof.
  split_and!.
  - intros now value self self'. unfold Todo.set_percent.
    destruct (Todo.percent_value now value) as [p|] eqn:Hp; [|done].
    intros [= <-]. apply percent_value_instant in Hp as [t ->].
    unfold Todo.is_complete, Todo.percent. simpl. eauto.
  - intros uid_gen now σ name due duration uid description priority
      categories created percent completed location x σ'.
    unfold Todo.__init__.
    destruct (get_arrow created); [|done]. simpl.
    destruct (Todo.percent_value now percent) as [p|] eqn:Hp; [|done]. simpl.
    apply percent_value_instant in Hp as [t ->].
    destruct (get_arrow completed); [|done]. simpl.
    repeat case_match; intros [= <- <-]; reflexivity.
  - eexists _, _. split_and!; reflexivity.
Qed.

Lemma percent_is_stored_as_instant_witness :
  (exists t, Todo.percent (state_of (Todo.set_percent 0 (PInt 100) (plain_todo "u" None)))
             = PArrow t)
  /\ Todo.is_complete (state_of (Todo.set_percent 0 (PInt 100) (plain_todo "u" None)))
     = false.
Proof.
  apply (proj1 percent_is_stored_as_instant 0 (PInt 100) (plain_todo "u" None)).
  reflexivity.
Defined.

(** The setters of a todo other than the begin setter leave [_begin] as
    it is: a todo that the constructor built stays without a begin. *)
Lemma setters_keep_begin_unset (now : Z) value self :
  Todo._begin (state_of (Todo.set_due value self)) = Todo._begin self
  /\ Todo._begin (state_of (Todo.set_percent now value self)) = Todo._begin self
  /\ Todo._begin (state_of (Todo.set_completed now value self)) = Todo._begin self.
Proof.
  unfold Todo.set_due, Todo.set_percent, Todo.set_completed.
  split_and!; repeat case_match; reflexivity.
Qed.

End TodoFacts.

(** ** Clones *)

Section CloneFacts.

Implicit Types (self x : Todo.t) (σ : gmap nat obj).

Lemma tagged_todo_init :
  Todo.__init__ "fresh" 0 {[ 0%nat := OList ["work"%string] ]} None PNone DNone
    (Some "tagged"%string) None PNone (Some 0%nat) PNone PNone PNone None
  = Ok (tagged_todo, tagged_store).
Proof. by vm_compute. Qed.

(** C10, the behaviour of the sources. The clone of a todo is equal to the
    todo (it has its uid) and has a new [_unused] container, but its
    [categories] is the list of the original: after
    [clone.categories.append(s)] the original shows the categories with
    [s] added. *)
Theorem clone_shares_the_categories_list σ x a cats s clone σ' :
  Todo.categories x = Some a ->
  σ !! a = Some (OList cats) ->
  Todo.clone σ x = Ok (clone, σ') ->
  Todo.__eq__ clone x = true
  /\ σ !! Todo._unused clone = None
  /\ Todo.categories clone = Some a
  /\ categories_of σ' x = Some cats
  /\ exists σ'',
       list_append σ' a s = Ok σ''
       /\ categories_of σ'' x = Some (cats ++ [s]).
Proof.
  intros Hcat Ha. unfold Todo.clone, container_clone, alloc.
  destruct (σ !! Todo._unused x) as [o|] eqn:Hu; [|done]. simpl.
  intros [= <- <-].
  assert (Hfresh : σ !! fresh (dom σ) = None)
    by (apply not_elem_of_dom, is_fresh).
  set (a' := fresh (dom σ)) in *.
  assert (Hne : a' <> a) by congruence.
  assert (Hlook : <[a' := o]> σ !! a = Some (OList cats))
    by by rewrite lookup_insert_ne.
  split_and!.
  - unfold Todo.__eq__. simpl. apply String.eqb_refl.
  - exact Hfresh.
  - exact Hcat.
  - unfold categories_of, list_content. rewrite Hcat. simpl. by rewrite Hlook.
  - unfold list_append. rewrite Hlook. eexists. split; [done|].
    unfold categories_of, list_content. rewrite Hcat. simpl.
    by rewrite lookup_insert_eq.
Qed.

Lemma clone_shares_the_categories_list_witness :
  exists clone σ',
    Todo.clone tagged_store tagged_todo = Ok (clone, σ')
    /\ categories_of σ' tagged_todo = Some ["work"%string]
    /\ exists σ'',
         list_append σ' 0%nat "urgent" = Ok σ''
         /\ categories_of σ'' tagged_todo = Some (["work"%string] ++ ["urgent"%string]).
Proof.
  eexists _, _. split; [by vm_compute|].
  eapply (proj2 (proj2 (proj2
    (clone_shares_the_categories_list tagged_store tagged_todo 0%nat
       ["work"%string] "urgent" _ _ eq_refl eq_refl eq_refl)))).
Defined.

(** The same one level up: the todos of the clone of a calendar refer to
    the categories lists of the todos of the original. *)
Lemma calendar_clone_shares_categories :
  exists c σ' σ'',
    Calendar.clone (<[ 2%nat := OContainer "VCALENDAR" [] ]> tagged_store)
      tagged_calendar = Ok (c, σ')
    /\ calendar_categories σ' tagged_calendar = [Some ["work"%string]]
    /\ (exists x, Calendar.items (Calendar._todos c) = [Calendar.ETodo x]
          /\ Todo.categories x = Some 0%nat)
    /\ list_append σ' 0%nat "urgent" = Ok σ''
    /\ calendar_categories σ'' tagged_calendar
       = [Some ["work"%string; "urgent"%string]].
Proof.
  eexists _, _, _. split_and!.
  - by vm_compute.
  - by vm_compute.
  - eexists. split; reflexivity.
  - by vm_compute.
  - by vm_compute.
Qed.

End CloneFacts.

(** ** Calendars *)

Section CalendarFacts.

Context {tree : Type}.
Context (string_to_container : string -> result (list tree)).
Context (lines_to_container : list Calendar.elem -> result (list tree)).
Context (_populate : Calendar.t -> tree -> gmap nat obj
                     -> result (Calendar.t * gmap nat obj)).

(** C5, the behaviour of the sources. The sum of two calendars hands the
    sum of the event lists to the constructor as [imports]: a calendar is
    returned only when the parser makes exactly one calendar block of the
    events, and it is then what the population makes of that block; when
    the two calendars have no events and the parser finds no block in no
    lines, the sum raises [NotImplementedError]. *)
Theorem sum_of_calendars_imports_the_events :
  (forall σ self other r σ',
     Calendar.__add__ string_to_container lines_to_container _populate
       σ self other = Ok (r, σ') ->
     exists events c self0 σ0,
       Calendar.list_add (Calendar._events self) (Calendar._events other) = Ok events
       /\ lines_to_container (Calendar.items events) = Ok [c]
       /\ Calendar.items (Calendar._events self0) = []
       /\ Calendar.items (Calendar._todos self0) = []
       /\ _populate self0 c σ0 = Ok (r, σ'))
  /\ (lines_to_container [] = Ok [] ->
      forall σ self other todos,
        Calendar._events self = Calendar.EventList_empty ->
        Calendar._events other = Calendar.EventList_empty ->
        Calendar.list_add (Calendar._todos self) (Calendar._todos other) = Ok todos ->
        Calendar.__add__ string_to_container lines_to_container _populate
          σ self other = Raise NotImplementedError).
Proof.
  split.
  - intros σ self other r σ'. unfold Calendar.__add__.
    destruct (Calendar.list_add (Calendar._events self) _) as [events|]; [|done].
    simpl.
    destruct (Calendar.list_add (Calendar._todos self) _) as [todos|]; [|done].
    simpl. unfold Calendar.__init__. simpl.
    destruct (lines_to_container (Calendar.items events)) as [[|c [|]]|] eqn:Hl;
      simpl; try done.
    intros Hpop. eexists events, c, _, _. split_and!; [done|done| | |exact Hpop]; done.
  - intros Hnil σ self other todos Hs Ho Htodos. unfold Calendar.__add__.
    rewrite Hs, Ho, Htodos. simpl. unfold Calendar.__init__. simpl.
    by rewrite Hnil.
Qed.

End CalendarFacts.

Lemma sum_of_calendars_imports_the_events_witness :
  Calendar.__add__ (tree := unit)
    (fun _ => Ok [])
    (fun l => match l with [] => Ok [] | _ => Raise AttributeError end)
    (fun c _ σ => Ok (c, σ))
    ∅
    {| Calendar._timezones := ∅; Calendar._events := Calendar.EventList_empty;
       Calendar._todos := Calendar.TodoList_empty; Calendar._unused := 0%nat;
       Calendar.scale := None; Calendar.method := None;
       Calendar._creator := Some None |}
    {| Calendar._timezones := ∅; Calendar._events := Calendar.EventList_empty;
       Calendar._todos := Calendar.TodoList_empty; Calendar._unused := 1%nat;
       Calendar.scale := None; Calendar.method := None;
       Calendar._creator := Some None |}
  = Raise NotImplementedError.
Proof.
  eapply (proj2 (sum_of_calendars_imports_the_events (tree := unit) _ _ _));
    reflexivity.
Defined.

(** ** More on events *)

Section EventMore.

Implicit Types (self other : Event.t) (v : pyval) (σ : gmap nat obj).

Lemma floor_day_idem (t : Z) : floor_day (floor_day t) = floor_day t.
Proof.
  unfold floor_day.
  assert (H : (t - t mod usec_per_day) mod usec_per_day = 0).
  { rewrite Zminus_mod, Z.mod_mod, Z.sub_diag by done. reflexivity. }
  rewrite H. lia.
Qed.

Lemma floor_day_bounds (t : Z) : floor_day t <= t < floor_day t + usec_per_day.
Proof.
  unfold floor_day.
  assert (0 <= t mod usec_per_day < usec_per_day)
    by (apply Z.mod_pos_bound; reflexivity).
  lia.
Qed.

(** X1. [make_all_day] on an event that has a begin: the begin becomes the
    midnight at or before it, no end time and no duration is stored, the
    event is an all-day event that ends one day after its begin, and a
    second call changes nothing. *)
Theorem make_all_day_on_begin self b :
  Event._begin self = Some b ->
  exists self',
    Event.make_all_day self = Done self'
    /\ Event.begin self' = Some (floor_day b)
    /\ floor_day b <= b < floor_day b + usec_per_day
    /\ Event.has_end self' = false
    /\ Event.all_day self' = true
    /\ Event.get_end self' = Ok (Some (floor_day b + usec_per_day))
    /\ Event.make_all_day self' = Done self'.
Proof.
  intros Hb. rewrite make_all_day_state, Hb. eexists. split; [reflexivity|].
  split_and!; try reflexivity; try apply floor_day_bounds.
  rewrite make_all_day_state. simpl. by rewrite floor_day_idem.
Qed.

Lemma make_all_day_on_begin_witness :
  exists self',
    Event.make_all_day minimal_event = Done self'
    /\ Event.begin self' = Some (floor_day (utc 2024 1 1 10 0 0))
    /\ floor_day (utc 2024 1 1 10 0 0) <= utc 2024 1 1 10 0 0
       < floor_day (utc 2024 1 1 10 0 0) + usec_per_day
    /\ Event.has_end self' = false
    /\ Event.all_day self' = true
    /\ Event.get_end self' = Ok (Some (floor_day (utc 2024 1 1 10 0 0) + usec_per_day))
    /\ Event.make_all_day self' = Done self'.
Proof. apply (make_all_day_on_begin minimal_event (utc 2024 1 1 10 0 0)). reflexivity. Defined.

(** X2. [make_all_day] on an event that has no begin raises
    [AttributeError], but only after it has written the precision: the
    stored end time and duration stay, and an event that has neither
    reads as an all-day event from then on. *)
Theorem make_all_day_without_begin self :
  Event._begin self = None ->
  Event.make_all_day self
  = Raised AttributeError (Event.with_begin self None (Some day))
  /\ Event._end_time (state_of (Event.make_all_day self)) = Event._end_time self
  /\ Event._duration (state_of (Event.make_all_day self)) = Event._duration self
  /\ Event.all_day (state_of (Event.make_all_day self)) = negb (Event.has_end self).
Proof.
  intros Hb. rewrite make_all_day_state, Hb. simpl. split_and!; reflexivity.
Qed.

Lemma make_all_day_without_begin_witness :
  Event.all_day
    (state_of (Event.make_all_day (Event.with_begin minimal_event None None)))
  = negb (Event.has_end (Event.with_begin minimal_event None None)).
Proof.
  apply (make_all_day_without_begin (Event.with_begin minimal_event None None)).
  reflexivity.
Defined.

(** X3. The constructor of an event. Given an end and a duration that are
    both true, it raises [ValueError]; given an end before the begin, it
    raises [ValueError]; given a begin and an end that is not before it,
    it returns an event that has this begin and this end, and whose
    duration reads as their difference. (The conversions of [created] and
    [begin] are assumed to succeed: they come first.) *)
Theorem event_constructor uid_gen σ name begin_ end_ duration uid description
    created location c b :
  get_arrow created = Ok c ->
  get_arrow begin_ = Ok b ->
  truthy end_ = true ->
  (dur_truthy duration = true ->
   Event.__init__ uid_gen σ name begin_ end_ duration uid description created
     location = Raise ValueError)
  /\ (forall x e,
       dur_truthy duration = false -> b = Some x -> get_arrow end_ = Ok (Some e) ->
       e < x ->
       Event.__init__ uid_gen σ name begin_ end_ duration uid description created
         location = Raise ValueError)
  /\ (forall x e,
       dur_truthy duration = false -> b = Some x -> get_arrow end_ = Ok (Some e) ->
       x <= e ->
       exists self σ',
         Event.__init__ uid_gen σ name begin_ end_ duration uid description
           created location = Ok (self, σ')
         /\ Event.begin self = Some x
         /\ Event.get_end self = Ok (Some e)
         /\ Event.get_duration self = Ok (Some (e - x))
         /\ Event.has_end self = true).
Proof.
  intros Hc Hb Hend. unfold Event.__init__. rewrite Hc. simpl.
  unfold Event.set_begin. rewrite Hb. simpl.
  split_and!.
  - intros ->. destruct b; simpl; by rewrite Hend.
  - intros x e -> -> He Hlt. simpl. rewrite Hend. unfold Event.set_end.
    rewrite He. simpl. by destruct (Z.ltb_spec e x); [|lia].
  - intros x e -> -> He Hle. simpl. rewrite Hend. unfold Event.set_end.
    rewrite He. simpl.
    destruct (Z.ltb_spec e x); [lia|]. eexists _, _. split; [reflexivity|].
    split_and!; reflexivity.
Qed.

Lemma event_constructor_witness :
  Event.__init__ "fresh" ∅ None (PArrow (utc 2024 1 1 10 0 0))
    (PArrow (utc 2024 1 1 11 0 0)) (DNum 1) None None PNone None
  = Raise ValueError.
Proof.
  apply (proj1 (event_constructor "fresh" ∅ None (PArrow (utc 2024 1 1 10 0 0))
                  (PArrow (utc 2024 1 1 11 0 0)) (DNum 1) None None PNone None
                  None (Some (utc 2024 1 1 10 0 0)) eq_refl eq_refl eq_refl)).
  reflexivity.
Defined.

(** X4. What the duration setter stores reads back. After it is given a
    duration that is not zero, on an event that has a begin, the duration
    property reads that duration and the end property the begin plus it.
    After it is given a zero duration on an event that has a begin, a
    precision and no end time, the event has no end, and the duration
    property does not read zero: it reads one unit of the precision. *)
Theorem duration_reads_back self d td b :
  Event.to_timedelta d = Ok (Some td) ->
  Event._begin self = Some b ->
  (td <> 0 ->
   exists self',
     Event.set_duration d self = Done self'
     /\ Event.get_duration self' = Ok (Some td)
     /\ Event.get_end self' = Ok (Some (b + td))
     /\ Event.has_end self' = true)
  /\ (forall p,
       td = 0 -> Event._end_time self = None ->
       Event._begin_precision self = Some p ->
       exists self',
         Event.set_duration d self = Done self'
         /\ Event._duration self' = Some 0
         /\ Event.has_end self' = false
         /\ Event.get_duration self' = Ok (Some (unit_of p))).
Proof.
  intros Htd Hb. unfold Event.set_duration. rewrite Htd. split.
  - intros Hnz. assert (Ht : negb (td =? 0) = true).
    { apply negb_true_iff. by apply Z.eqb_neq. }
    simpl. rewrite Ht. eexists. split; [reflexivity|].
    unfold Event.get_duration, Event.get_end, Event.has_end, Event.begin.
    simpl. rewrite Ht, Hb. done.
  - intros p -> He Hp. simpl. eexists. split; [reflexivity|].
    unfold Event.get_duration, Event.get_end, Event.has_end, Event.begin.
    simpl. rewrite He, Hb, Hp. simpl. split_and!; try done.
    do 2 f_equal. lia.
Qed.

Lemma duration_reads_back_witness :
  exists self',
    Event.set_duration (DDict [("hours"%string, 2)]) minimal_event = Done self'
    /\ Event.get_duration self' = Ok (Some (7200 * usec_per_second))
    /\ Event.get_end self' = Ok (Some (utc 2024 1 1 10 0 0 + 7200 * usec_per_second))
    /\ Event.has_end self' = true.
Proof.
  apply (proj1 (duration_reads_back minimal_event (DDict [("hours"%string, 2)])
                  (7200 * usec_per_second) (utc 2024 1 1 10 0 0) eq_refl eq_refl)).
  discriminate.
Defined.

(** X5. Moving the begin. On an event that stores a duration and no end
    time, the begin setter accepts every instant, and the end follows:
    the duration is kept. On an event that stores an end time and no
    duration, it accepts an instant that is not after the end, and the
    end is kept: the duration changes. *)
Theorem begin_setter_moves_or_stretches self v t :
  get_arrow v = Ok (Some t) ->
  (forall d,
     Event._duration self = Some d -> d <> 0 -> Event._end_time self = None ->
     exists self',
       Event.set_begin v self = Done self'
       /\ Event.begin self' = Some t
       /\ Event.get_duration self' = Ok (Some d)
       /\ Event.get_end self' = Ok (Some (t + d)))
  /\ (forall e,
       Event._end_time self = Some e -> Event._duration self = None -> t <= e ->
       exists self',
         Event.set_begin v self = Done self'
         /\ Event.begin self' = Some t
         /\ Event.get_end self' = Ok (Some e)
         /\ Event.get_duration self' = Ok (Some (e - t))).
Proof.
  intros Hv. unfold Event.set_begin. rewrite Hv. split.
  - intros d Hd Hnz He. rewrite He. eexists. split; [reflexivity|].
    assert (Ht : negb (d =? 0) = true).
    { apply negb_true_iff. by apply Z.eqb_neq. }
    unfold Event.get_duration, Event.get_end, Event.begin. simpl.
    rewrite Hd. simpl. rewrite Ht. done.
  - intros e He Hd Hle. rewrite He. destruct (Z.ltb_spec e t); [lia|].
    eexists. split; [reflexivity|].
    unfold Event.get_duration, Event.get_end, Event.begin. simpl.
    rewrite Hd, He. simpl. done.
Qed.

Lemma begin_setter_moves_or_stretches_witness :
  exists self',
    Event.set_begin (PArrow 0) (Event.with_duration minimal_event (Some 5)) = Done self'
    /\ Event.begin self' = Some 0
    /\ Event.get_duration self' = Ok (Some 5)
    /\ Event.get_end self' = Ok (Some (0 + 5)).
Proof.
  apply (proj1 (begin_setter_moves_or_stretches
                  (Event.with_duration minimal_event (Some 5)) (PArrow 0) 0 eq_refl) 5);
    [reflexivity|discriminate|reflexivity].
Defined.

Lemma string_ltb_leb (a b : string) : String.ltb a b = negb (String.leb b a).
Proof.
  unfold String.ltb, String.leb. rewrite (String.compare_antisym a b).
  by destruct (String.compare b a).
Qed.

(** X6. The order of events. [a > b] is [b < a] and [a >= b] is [b <= a],
    errors included. Two events that have a begin compare by it, and
    [a >= b] is then the opposite of [a < b]. An event that has a begin
    and one that has none are in no order: each of the four comparisons
    returns false, in either direction, so [a < b] and [a >= b] are both
    false. Two events without a begin compare by name, and [a >= b] is
    the opposite of [a < b] whenever that returns (it raises [TypeError]
    when a name is [None]). *)
Theorem event_order self other :
  Event.__gt__ self other = Event.__lt__ other self
  /\ Event.__ge__ self other = Event.__le__ other self
  /\ (forall x y, Event.begin self = Some x -> Event.begin other = Some y ->
       Event.__lt__ self other = Ok (x <? y)
       /\ Event.__le__ self other = Ok (x <=? y)
       /\ Event.__ge__ self other = Ok (negb (x <? y)))
  /\ (forall x, Event.begin self = Some x -> Event.begin other = None ->
       Event.__lt__ self other = Ok false
       /\ Event.__le__ self other = Ok false
       /\ Event.__gt__ self other = Ok false
       /\ Event.__ge__ self other = Ok false
       /\ Event.__lt__ other self = Ok false
       /\ Event.__ge__ other self = Ok false)
  /\ (Event.begin self = None -> Event.begin other = None ->
       Event.__lt__ self other
       = str_cmp String.ltb (Event.name self) (Event.name other)
       /\ forall r, Event.__lt__ self other = Ok r ->
                    Event.__ge__ self other = Ok (negb r)).
Proof.
  unfold Event.__gt__, Event.__lt__, Event.__ge__, Event.__le__.
  destruct (Event.begin self) as [x|], (Event.begin other) as [y|]; simpl;
    split_and!; try done.
  - by rewrite Z.gtb_ltb.
  - by rewrite Z.geb_leb.
  - intros ? ? [= <-] [= <-].
    by rewrite Z.geb_leb, Z.ltb_antisym, negb_involutive.
  - by destruct (Event.name self), (Event.name other).
  - by destruct (Event.name self), (Event.name other).
  - intros _ _. split; [done|].
    destruct (Event.name self), (Event.name other); simpl; try done.
    intros r [= <-]. by rewrite string_ltb_leb, negb_involutive.
Qed.

Lemma event_order_witness :
  Event.__lt__ minimal_event
    (Event.with_begin minimal_event (Some (utc 2024 1 2 0 0 0)) (Some second))
  = Ok (utc 2024 1 1 10 0 0 <? utc 2024 1 2 0 0 0).
Proof.
  apply (proj1 (proj1 (proj2 (proj2
    (event_order minimal_event
       (Event.with_begin minimal_event (Some (utc 2024 1 2 0 0 0)) (Some second)))))
    (utc 2024 1 1 10 0 0) (utc 2024 1 2 0 0 0) eq_refl eq_refl)).
Defined.

(** X7. The intersection of two events. The result is a pair of two
    instants or the pair [(None, None)]; when it is a pair of instants,
    the first one is the later of the two begins, the second one the
    earlier of the two ends, and the first is before the second; and the
    operator is symmetric when the end of both events can be read. *)
Theorem event_intersection self other :
  (forall r, Event.__or__ self other = Ok r ->
     r = (None, None)
     \/ exists x y a b e f,
          r = (Some x, Some y) /\ x < y
          /\ Event.begin self = Some a /\ Event.begin other = Some b
          /\ Event.get_end self = Ok (Some e) /\ Event.get_end other = Ok (Some f)
          /\ x = Z.max a b /\ y = Z.min e f)
  /\ (forall e f, Event.get_end self = Ok e -> Event.get_end other = Ok f ->
       Event.__or__ self other = Event.__or__ other self).
Proof.
  unfold Event.__or__. split.
  - intros r.
    destruct (Event.get_end self) as [[e|]|]; simpl; [| |done].
    + destruct (Event.get_end other) as [[f|]|]; simpl; [| |done].
      * destruct (Event.begin self) as [a|], (Event.begin other) as [b|];
          try (intros [= <-]; by left).
        destruct (Z.ltb_spec (Z.max a b) (Z.min e f)); intros [= <-]; [|by left].
        right. eauto 20.
      * intros [= <-]. left. by repeat case_match.
    + intros [= <-]. left. by repeat case_match.
  - intros e f -> ->. simpl.
    destruct e as [e|], f as [f|]; simpl;
      destruct (Event.begin self) as [a|], (Event.begin other) as [b|];
      try reflexivity.
    by rewrite (Z.max_comm b a), (Z.min_comm f e).
Qed.

Lemma event_intersection_witness :
  Event.__or__ minimal_event
    (Event.with_end_time minimal_event (Some (utc 2024 1 1 12 0 0)))
  = Event.__or__ (Event.with_end_time minimal_event (Some (utc 2024 1 1 12 0 0)))
      minimal_event.
Proof.
  apply (proj2 (event_intersection minimal_event
                  (Event.with_end_time minimal_event (Some (utc 2024 1 1 12 0 0))))
           (Some (utc 2024 1 1 10 0 1)) (Some (utc 2024 1 1 12 0 0)));
    reflexivity.
Defined.

(** X8. The clone of an event is equal to the event, holds what the event
    holds in every attribute but [_unused], and has a new [_unused]
    container with the lines of the original; a line appended to the
    container of the clone does not reach the container of the
    original. *)
Theorem event_clone_is_independent σ self clone σ' :
  Event.clone σ self = Ok (clone, σ') ->
  Event.__eq__ clone self = true
  /\ clone = Event.with_unused self (Event._unused clone)
  /\ σ !! Event._unused clone = None
  /\ σ' !! Event._unused clone = σ !! Event._unused self
  /\ σ' !! Event._unused self = σ !! Event._unused self
  /\ (forall line σ'',
       container_append σ' (Event._unused clone) line = Ok σ'' ->
       σ'' !! Event._unused self = σ !! Event._unused self).
Proof.
  unfold Event.clone, container_clone, alloc.
  destruct (σ !! Event._unused self) as [o|] eqn:Hu; [|done]. simpl.
  intros [= <- <-]. simpl.
  assert (Hfresh : σ !! fresh (dom σ) = None)
    by (apply not_elem_of_dom, is_fresh).
  set (a := fresh (dom σ)) in *.
  assert (Hne : a <> Event._unused self) by congruence.
  split_and!.
  - unfold Event.__eq__. simpl. apply String.eqb_refl.
  - reflexivity.
  - exact Hfresh.
  - by rewrite lookup_insert_eq.
  - by rewrite lookup_insert_ne.
  - intros line σ''. unfold container_append. rewrite lookup_insert_eq.
    destruct o; [|done]. intros [= <-].
    by rewrite !lookup_insert_ne.
Qed.

Lemma event_clone_is_independent_witness :
  Event.__eq__ (Event.with_unused minimal_event 1%nat) minimal_event = true.
Proof.
  refine (proj1 (event_clone_is_independent {[ 0%nat := OContainer "VEVENT" [] ]}
                   minimal_event (Event.with_unused minimal_event 1%nat)
                   (<[ 1%nat := OContainer "VEVENT" [] ]>
                      {[ 0%nat := OContainer "VEVENT" [] ]}) _)).
  vm_compute. reflexivity.
Defined.

Lemma byte_of_bounds (c : Ascii.ascii) : 0 <= byte_of c < 256.
Proof. unfold byte_of. pose proof (Ascii.nat_ascii_bounded c). lia. Qed.

Lemma byte_of_inj (c1 c2 : Ascii.ascii) : byte_of c1 = byte_of c2 -> c1 = c2.
Proof.
  unfold byte_of. intros H.
  rewrite <- (Ascii.ascii_nat_embedding c1), <- (Ascii.ascii_nat_embedding c2).
  f_equal. lia.
Qed.

Lemma code_points_low (c : Ascii.ascii) (s : string) :
  byte_of c < 192 -> code_points (String c s) = byte_of c :: code_points s.
Proof.
  intros Hc.
  assert (H1 : (192 <=? byte_of c) = false) by (apply Z.leb_gt; lia).
  assert (H2 : (224 <=? byte_of c) = false) by (apply Z.leb_gt; lia).
  assert (H3 : (240 <=? byte_of c) = false) by (apply Z.leb_gt; lia).
  destruct s as [|c1 [|c2 [|c3 s4]]];
    cbn [code_points]; rewrite ?H1, ?H2, ?H3; reflexivity.
Qed.

Lemma ord3_join_inj (s1 s2 : string) (acc1 acc2 : Z) :
  ascii_text s1 = true -> ascii_text s2 = true ->
  String.length s1 = String.length s2 ->
  ord3_join (code_points s1) acc1 = ord3_join (code_points s2) acc2 ->
  acc1 = acc2 /\ s1 = s2.
Proof.
  revert s2 acc1 acc2. induction s1 as [|c1 s1 IH]; intros [|c2 s2] acc1 acc2;
    [by simpl|by simpl|by simpl|].
  cbn [ascii_text String.length].
  intros [Hc1 Hs1]%andb_true_iff [Hc2 Hs2]%andb_true_iff [= Hlen].
  apply Z.ltb_lt in Hc1, Hc2.
  rewrite !code_points_low by lia. cbn [ord3_join]. intros Heq.
  destruct (IH _ _ _ Hs1 Hs2 Hlen Heq) as [Hacc ->].
  pose proof (byte_of_bounds c1). pose proof (byte_of_bounds c2).
  unfold ord3_shift in Hacc.
  assert (Hlt1 : (byte_of c1 <? 1000) = true) by (apply Z.ltb_lt; lia).
  assert (Hlt2 : (byte_of c2 <? 1000) = true) by (apply Z.ltb_lt; lia).
  rewrite Hlt1, Hlt2 in Hacc.
  assert (Hc : byte_of c1 = byte_of c2) by lia.
  split; [lia|]. f_equal. by apply byte_of_inj.
Qed.

(** X9. The hash of an event. Two events that are equal have the same
    hash; the hash of an event whose uid is empty raises [ValueError];
    two events of the same hash are equal when their uids have the same
    length and only characters below 128, which take three digits each.
    Beyond that the hash does not separate uids of the same length: a
    character from U+03E8 on takes four digits or more, and the uids
    U+03E9 U+007B and U+0064 U+0463 both hash to 1001123. *)
Theorem event_hash self other :
  (Event.__eq__ self other = true -> Event.__hash__ self = Event.__hash__ other)
  /\ (forall h,
       Event.__hash__ self = Ok h -> Event.__hash__ other = Ok h ->
       ascii_text (Event.uid self) = true ->
       ascii_text (Event.uid other) = true ->
       String.length (Event.uid self) = String.length (Event.uid other) ->
       Event.__eq__ self other = true)
  /\ (Event.uid self = ""%string -> Event.__hash__ self = Raise ValueError)
  /\ (Event.uid self = uid_1001_123 -> Event.uid other = uid_100_1123 ->
      code_points (Event.uid self) = [1001; 123]
      /\ code_points (Event.uid other) = [100; 1123]
      /\ Event.__hash__ self = Ok 1001123
      /\ Event.__hash__ other = Ok 1001123
      /\ Event.__eq__ self other = false).
Proof.
  unfold Event.__eq__, Event.__hash__, uid_hash. split_and!.
  - intros Heq. apply String.eqb_eq in Heq. by rewrite Heq.
  - intros h. destruct (String.eqb (Event.uid self) ""); [done|].
    destruct (String.eqb (Event.uid other) ""); [done|].
    intros [= H1] [= H2] Ha1 Ha2 Hlen. apply String.eqb_eq.
    eapply ord3_join_inj; [exact Ha1|exact Ha2|exact Hlen|]. by rewrite H1, H2.
  - by intros ->.
  - intros -> ->. split_and!; by vm_compute.
Qed.

Lemma event_hash_witness :
  Event.__hash__ minimal_event
  = Event.__hash__ (Event.with_begin minimal_event None None).
Proof.
  apply (proj1 (event_hash minimal_event (Event.with_begin minimal_event None None))).
  reflexivity.
Defined.

(** X10. The extractors of [DURATION] and [DTEND] on an event that stores
    neither: with a duration that is not zero, the second of the two
    raises [ValueError] and leaves what the first has stored, in either
    order; with a zero duration, both are stored. *)
Theorem duration_and_end_lines self (d v : Z) :
  Event._end_time self = None ->
  delta_truthy (Event._duration self) = false ->
  (d <> 0 ->
   Event.end_ v (state_of (Event.duration d self))
   = Raised ValueError (Event.with_duration self (Some d))
   /\ Event.duration d (state_of (Event.end_ v self))
      = Raised ValueError (Event.with_end_time self (Some v)))
  /\ (d = 0 ->
      Event.end_ v (state_of (Event.duration d self))
      = Done (Event.with_end_time (Event.with_duration self (Some 0)) (Some v))).
Proof.
  intros He Hd. unfold Event.duration, Event.end_. rewrite He, Hd. simpl. split.
  - intros Hnz. assert (Ht : negb (d =? 0) = true).
    { apply negb_true_iff. by apply Z.eqb_neq. }
    by rewrite Ht.
  - by intros ->.
Qed.

Lemma duration_and_end_lines_witness :
  Event.end_ 7 (state_of (Event.duration 5 minimal_event))
  = Raised ValueError (Event.with_duration minimal_event (Some 5)).
Proof.
  apply (proj1 (duration_and_end_lines minimal_event 5 7 eq_refl eq_refl)).
  discriminate.
Defined.

(** X11. The extractor of [DTSTART] on an event that stores no end time
    and no duration that is not zero: it stores the instant and the
    precision of the line; with the precision of a date, the event is an
    all-day event that ends one day later, and with the precision of a
    second it is not one and ends one second later. On an event whose
    stored end time is before the instant, it raises [ValueError] and
    changes nothing. *)
Theorem start_line self (v : Z) :
  (Event._end_time self = None ->
   delta_truthy (Event._duration self) = false ->
   forall p,
     exists self',
       Event.start v p self = Done self'
       /\ Event.begin self' = Some v
       /\ Event.get_end self' = Ok (Some (v + unit_of p))
       /\ Event.all_day self' = bool_decide (p = day))
  /\ (forall e p,
       Event._end_time self = Some e -> e < v ->
       Event.start v p self = Raised ValueError self).
Proof.
  unfold Event.start, Event.set_begin. simpl. split.
  - intros He Hd p. rewrite He. eexists. split; [reflexivity|].
    unfold Event.get_end, Event.all_day, Event.has_end. simpl.
    rewrite He, Hd. simpl. split_and!; try done.
    rewrite andb_true_r. by destruct p.
  - intros e p He Hlt. rewrite He. by destruct (Z.ltb_spec e v); [|lia].
Qed.

Lemma start_line_witness :
  exists self',
    Event.start 0 day minimal_event = Done self'
    /\ Event.begin self' = Some 0
    /\ Event.get_end self' = Ok (Some (0 + unit_of day))
    /\ Event.all_day self' = bool_decide (day = day).
Proof.
  apply (proj1 (start_line minimal_event 0)); reflexivity.
Defined.

Ltac decide_it := apply (bool_decide_unpack _); vm_compute; exact I.

Lemma event_emit_names arrow_to_iso timedelta_to_duration (now : Z) uid_gen self :
  exists lines,
    Event.emit arrow_to_iso timedelta_to_duration now uid_gen self = Ok lines
    /\ line_name <$> lines
       = ["DTSTAMP"%string]
         ++ when (bool_decide (is_Some (Event.begin self))) "DTSTART"
         ++ when (delta_truthy (Event._duration self)
                  && bool_decide (is_Some (Event.begin self))) "DURATION"
         ++ when (bool_decide (is_Some (Event.begin self))
                  && bool_decide (is_Some (Event._end_time self))) "DTEND"
         ++ when (str_truthy (Event.name self)) "SUMMARY"
         ++ when (str_truthy (Event.description self)) "DESCRIPTION"
         ++ when (str_truthy (Event.location self)) "LOCATION"
         ++ ["UID"%string].
Proof.
  destruct self as [du en be pr ui de cr lo un na].
  unfold Event.emit, Event.o_created, Event.o_start, Event.o_duration,
    Event.o_end, Event.o_summary, Event.o_description, Event.o_location,
    Event.o_text, Event.o_uid, Event.get_end, Event.begin. simpl.
  destruct be as [b|], du as [d|], en as [e|]; simpl;
    try destruct (negb (d =? 0)); simpl;
    destruct (str_truthy na), (str_truthy de), (str_truthy lo); simpl;
    eexists; (split; [reflexivity|]); reflexivity.
Qed.

(** X12. The lines that an event emits. There is always a result; its
    first line is [DTSTAMP] and its last line [UID]; an event that has no
    begin emits none of [DTSTART], [DURATION] and [DTEND], whatever it
    stores; and an event that does not store an end time together with a
    duration that is not zero does not emit both [DURATION] and
    [DTEND]. *)
Theorem event_emitted_lines arrow_to_iso timedelta_to_duration (now : Z) uid_gen self :
  exists lines,
    Event.emit arrow_to_iso timedelta_to_duration now uid_gen self = Ok lines
    /\ head (line_name <$> lines) = Some "DTSTAMP"%string
    /\ last (line_name <$> lines) = Some "UID"%string
    /\ (Event.begin self = None ->
        (("DTSTART" : string) ∉ (line_name <$> lines))
        /\ (("DURATION" : string) ∉ (line_name <$> lines))
        /\ (("DTEND" : string) ∉ (line_name <$> lines)))
    /\ (exclusive self ->
        ~ ((("DURATION" : string) ∈ (line_name <$> lines))
           /\ (("DTEND" : string) ∈ (line_name <$> lines)))).
Proof.
  destruct (event_emit_names arrow_to_iso timedelta_to_duration now uid_gen self)
    as (lines & Hemit & Hnames).
  exists lines. split; [exact Hemit|]. rewrite Hnames. clear Hemit Hnames.
  unfold exclusive.
  destruct (Event.begin self) as [b|]; simpl;
    destruct (delta_truthy (Event._duration self));
    destruct (Event._end_time self) as [e|]; simpl;
    destruct (str_truthy (Event.name self)),
      (str_truthy (Event.description self)),
      (str_truthy (Event.location self)); simpl;
    (split_and!;
     [reflexivity
     |reflexivity
     |try done; intros _; split_and!; decide_it
     |intros Hx; try (exfalso; apply Hx; split; [by eexists|done]);
      intros [H1 H2];
      first [by apply (bool_decide_pack _) in H1; vm_compute in H1
            |by apply (bool_decide_pack _) in H2; vm_compute in H2]]).
Qed.

End EventMore.

(** ** More on todos *)

Section TodoMore.

Implicit Types (self other x : Todo.t) (σ : gmap nat obj).

Lemma init_shape uid_gen now σ name due duration uid description
    priority categories created percent completed location x σ' :
  Todo.__init__ uid_gen now σ name due duration uid description priority
    categories created percent completed location = Ok (x, σ') ->
  Todo._duration x = None
  /\ Todo._end_time x = None
  /\ Todo._begin x = None
  /\ Todo._due x = (if truthy due then due else PNone)
  /\ Todo.duration x
     = (if truthy due then None
        else if dur_truthy duration then Some duration else None)
  /\ dur_truthy duration && truthy due = false.
Proof.
  unfold Todo.__init__.
  destruct (get_arrow created); [|done]. simpl.
  destruct (Todo.percent_value now percent); [|done]. simpl.
  destruct (get_arrow completed); [|done]. simpl.
  destruct (dur_truthy duration), (truthy due); simpl; try done;
    intros [= <- <-]; done.
Qed.

(** X13. What the constructor of a todo stores. Given a due and a duration
    that are both true it raises [ValueError] (when the conversions
    before it succeed). A todo that it returns stores the due as it was
    given, without conversion; it has no [_duration], whatever duration
    it was given: the duration goes to another attribute, and only when
    no due is given. *)
Theorem todo_constructor uid_gen (now : Z) σ name due duration uid description
    priority categories created percent completed location :
  (forall c p k,
     get_arrow created = Ok c -> Todo.percent_value now percent = Ok p ->
     get_arrow completed = Ok k ->
     dur_truthy duration = true -> truthy due = true ->
     Todo.__init__ uid_gen now σ name due duration uid description priority
       categories created percent completed location = Raise ValueError)
  /\ (forall x σ',
       Todo.__init__ uid_gen now σ name due duration uid description priority
         categories created percent completed location = Ok (x, σ') ->
       Todo._duration x = None
       /\ Todo.has_due x = truthy due
       /\ Todo.due x = (if truthy due then due else PNone)
       /\ Todo.duration x
          = (if truthy due then None
             else if dur_truthy duration then Some duration else None)).
Proof.
  split.
  - intros c p k Hc Hp Hk Hd Hdue. unfold Todo.__init__.
    rewrite Hc. simpl. rewrite Hp. simpl. rewrite Hk. simpl.
    by rewrite Hd, Hdue.
  - intros x σ' Hinit. apply init_shape in Hinit as (Hd & _ & _ & Hdue & Hattr & _).
    unfold Todo.has_due, Todo.due. rewrite Hdue. split_and!; try done.
    + by destruct (truthy due) eqn:E.
    + by destruct (truthy due) eqn:E; rewrite ?E.
Qed.

Lemma todo_constructor_witness :
  Todo.__init__ "fresh" 0 ∅ None (PArrow 5) (DNum 1) None None PNone None PNone
    PNone PNone None
  = Raise ValueError.
Proof.
  apply (proj1 (todo_constructor "fresh" 0 ∅ None (PArrow 5) (DNum 1) None None
                  PNone None PNone PNone PNone None) None (PArrow 0) None);
    reflexivity.
Defined.

(** X14. The due setter. An instant that it is given reads back through
    the due property, the todo then has a due, and it is overdue exactly
    when that instant is before the clock; given [None], the todo has no
    due afterwards; in both cases the stored duration is left as it is.
    When the value does not convert, the setter raises and changes
    nothing. *)
Theorem due_reads_back self v :
  (forall t,
     get_arrow v = Ok (Some t) ->
     exists self',
       Todo.set_due v self = Done self'
       /\ Todo.due self' = PArrow t
       /\ Todo.has_due self' = true
       /\ (forall now : Z, Todo.is_overdue now self' = Ok (t <? now))
       /\ Todo._duration self' = Todo._duration self)
  /\ (get_arrow v = Ok None ->
      exists self',
        Todo.set_due v self = Done self'
        /\ Todo.due self' = PNone
        /\ Todo.has_due self' = false
        /\ Todo._duration self' = Todo._duration self)
  /\ (forall e, get_arrow v = Raise e -> Todo.set_due v self = Raised e self).
Proof.
  unfold Todo.set_due. split_and!.
  - intros t ->. eexists. split; [reflexivity|]. done.
  - intros ->. eexists. split; [reflexivity|]. done.
  - by intros e ->.
Qed.

Lemma due_reads_back_witness :
  exists self',
    Todo.set_due (PInt 60) (plain_todo "u" None) = Done self'
    /\ Todo.due self' = PArrow (60 * usec_per_second)
    /\ Todo.has_due self' = true
    /\ (forall now : Z, Todo.is_overdue now self' = Ok (60 * usec_per_second <? now))
    /\ Todo._duration self' = Todo._duration (plain_todo "u" None).
Proof.
  apply (proj1 (due_reads_back (plain_todo "u" None) (PInt 60))). reflexivity.
Defined.

(** X15. The begin setter of a todo that the constructor has built: given
    an instant it raises [AttributeError] and changes nothing, as it
    reads an attribute that the todo does not have; given [None] it
    returns, and the begin then reads [None]. So it never stores an
    instant. *)
Theorem todo_begin_setter uid_gen (now : Z) σ name due duration uid description
    priority categories created percent completed location x σ' v :
  Todo.__init__ uid_gen now σ name due duration uid description priority
    categories created percent completed location = Ok (x, σ') ->
  (forall t, get_arrow v = Ok (Some t) ->
     Todo.set_begin v x = Raised AttributeError x)
  /\ (get_arrow v = Ok None ->
      exists x', Todo.set_begin v x = Done x' /\ Todo.begin x' = Ok None)
  /\ (forall t, Todo.begin (state_of (Todo.set_begin v x)) <> Ok (Some t)).
Proof.
  intros Hinit. apply init_shape in Hinit as (_ & Hend & Hbegin & _).
  unfold Todo.set_begin. rewrite Hend. split_and!.
  - by intros t ->.
  - intros ->. eexists. split; reflexivity.
  - intros t. destruct (get_arrow v) as [[?|]|]; simpl;
      unfold Todo.begin; simpl; rewrite ?Hbegin; done.
Qed.

Lemma todo_begin_setter_witness :
  Todo.set_begin (PArrow 5) (plain_todo "u" None)
  = Raised AttributeError (plain_todo "u" None).
Proof.
  refine (proj1 (todo_begin_setter "fresh" 0 ∅ None PNone DNone (Some "u"%string)
                   None PNone None PNone PNone PNone None (plain_todo "u" None)
                   {[ 0%nat := OContainer "VTODO" [] ]} (PArrow 5) _) 5 _);
    reflexivity.
Defined.

(** X16. The order of todos. For two todos whose stored due is what their
    due property reads, [a > b] is [b < a] and [a >= b] is [b <= a],
    errors included. Two todos whose dues are instants compare by them.
    A todo whose due is an instant and a todo that has no due are in no
    order: each of the four comparisons returns false, in either
    direction. Two todos whose due is [None] compare by name. *)
Theorem todo_order self other :
  (Todo.due self = Todo._due self -> Todo.due other = Todo._due other ->
   Todo.__gt__ self other = Todo.__lt__ other self
   /\ Todo.__ge__ self other = Todo.__le__ other self)
  /\ (forall d e, Todo._due self = PArrow d -> Todo._due other = PArrow e ->
       Todo.__lt__ self other = Ok (d <? e)
       /\ Todo.__le__ self other = Ok (d <=? e))
  /\ (forall d, Todo._due self = PArrow d -> Todo.has_due other = false ->
       Todo.__lt__ self other = Ok false
       /\ Todo.__le__ self other = Ok false
       /\ Todo.__gt__ self other = Ok false
       /\ Todo.__ge__ self other = Ok false
       /\ Todo.__lt__ other self = Ok false
       /\ Todo.__ge__ other self = Ok false)
  /\ (Todo._due self = PNone -> Todo.has_due other = false ->
      Todo.__lt__ self other
      = str_cmp String.ltb (Todo.name self) (Todo.name other)).
Proof.
  unfold Todo.__gt__, Todo.__lt__, Todo.__ge__, Todo.__le__, Todo.has_due.
  split_and!.
  - intros -> ->.
    destruct (Todo._due self) as [|n|s ps|d], (Todo._due other) as [|m|s' ps'|e];
      simpl; rewrite ?Z.gtb_ltb, ?Z.geb_leb; try done;
      by destruct (Todo.name self), (Todo.name other).
  - intros d e Hd He. unfold Todo.due. rewrite Hd, He. done.
  - intros d Hd Hnone. unfold Todo.due. rewrite Hd, Hnone. simpl.
    split_and!; try done; by destruct (Todo._due other).
  - intros Hd Hnone. unfold Todo.due. by rewrite Hd, Hnone.
Qed.

Lemma todo_order_witness :
  Todo.__lt__ (Todo.with_due (plain_todo "u" None) (PArrow 1)) (plain_todo "v" None)
  = Ok false.
Proof.
  apply (proj1 (proj1 (proj2 (proj2 (todo_order
           (Todo.with_due (plain_todo "u" None) (PArrow 1)) (plain_todo "v" None))))
           1 eq_refl eq_refl)).
Defined.

Lemma with_due_with_due self a b :
  Todo.with_due (Todo.with_due self a) b = Todo.with_due self b.
Proof. by destruct self. Qed.

(** X17. [bump] on one todo. Without a due and not forced, the todo stays
    as it is and one line is printed. Without a due and forced, the due
    becomes the shifted clock reading; when the shift raises, the due is
    the clock reading already. With a due that is an instant, the due
    becomes the shifted due, and a second bump shifts that again; nothing
    else of the todo changes. *)
Theorem todo_bump (replace : Z -> result Z) (now : Z) self :
  (Todo.has_due self = false ->
   Todo.bump replace now false self = (Done self, ["ics.todo: check 1"%string]))
  /\ (forall d',
       Todo.has_due self = false -> replace now = Ok d' ->
       Todo.bump replace now true self = (Done (Todo.with_due self (PArrow d')), []))
  /\ (forall e,
       Todo.has_due self = false -> replace now = Raise e ->
       Todo.bump replace now true self
       = (Raised e (Todo.with_due self (PArrow now)), []))
  /\ (forall force d d',
       Todo._due self = PArrow d -> replace d = Ok d' ->
       Todo.bump replace now force self
       = (Done (Todo.with_due self (PArrow d')), [])
       /\ forall (replace' : Z -> result Z) d'',
            replace' d' = Ok d'' ->
            Todo.bump replace' now force (Todo.with_due self (PArrow d'))
            = (Done (Todo.with_due self (PArrow d'')), [])).
Proof.
  unfold Todo.bump, Todo.has_due. split_and!.
  - by intros ->.
  - intros d' Hnone Hr. rewrite Hnone. simpl. rewrite Hr.
    by rewrite with_due_with_due.
  - intros e Hnone Hr. rewrite Hnone. simpl. by rewrite Hr.
  - intros force d d' Hd Hr. rewrite Hd.
    destruct force; simpl; rewrite Hd, Hr; (split; [done|]);
      intros replace' d'' Hr'; rewrite Hr'; by rewrite with_due_with_due.
Qed.

Lemma todo_bump_witness :
  Todo.bump (fun t => Ok (t + 1)) 0 false (plain_todo "u" None)
  = (Done (plain_todo "u" None), ["ics.todo: check 1"%string]).
Proof.
  apply (proj1 (todo_bump (fun t => Ok (t + 1)) 0 (plain_todo "u" None))).
  reflexivity.
Defined.

Lemma elem_of_when (x name : string) (b : bool) :
  x ∈ when b name <-> b = true /\ x = name.
Proof. destruct b; simpl; set_solver. Qed.

Section Emitters.

Context (arrow_to_iso : Z -> string) (timedelta_to_duration : Z -> string).
Context (now : Z) (uid_gen : string).

Ltac emitter :=
  intros; eexists; split;
  [try reflexivity; by rewrite app_nil_r|reflexivity].

Lemma o_text_appends key value (c : list ContentLine) :
  exists l, Todo.o_text key value c = Ok (c ++ l)
    /\ line_name <$> l = when (str_truthy value) key.
Proof. unfold Todo.o_text. destruct (str_truthy value); emitter. Qed.

Lemma o_percent_appends x (c : list ContentLine) :
  exists l, Todo.o_percent x c = Ok (c ++ l)
    /\ line_name <$> l = when (truthy (Todo.percent x)) "PERCENT_COMPLETE".
Proof. unfold Todo.o_percent. destruct (truthy (Todo.percent x)); emitter. Qed.

Lemma o_duration_appends x (c : list ContentLine) :
  exists l, Todo.o_duration timedelta_to_duration x c = Ok (c ++ l)
    /\ line_name <$> l = when (delta_truthy (Todo._duration x)) "DURATION".
Proof.
  unfold Todo.o_duration. destruct (Todo._duration x) as [d|]; simpl;
    [destruct (negb (d =? 0))|]; emitter.
Qed.

Lemma o_due_appends x (c : list ContentLine) :
  due_is_instant_or_none x ->
  exists l, Todo.o_due arrow_to_iso x c = Ok (c ++ l)
    /\ line_name <$> l = when (Todo.has_due x) "DUE".
Proof.
  unfold Todo.o_due, Todo.due, Todo.has_due.
  intros [-> | [d ->]]; simpl; emitter.
Qed.

Lemma o_priority_appends x (c : list ContentLine) :
  exists l, Todo.o_priority x c = Ok (c ++ l)
    /\ line_name <$> l = when (truthy (Todo.priority x)) "PRIORITY".
Proof. unfold Todo.o_priority. destruct (truthy (Todo.priority x)); emitter. Qed.

Lemma o_categories_appends σ x (c : list ContentLine) :
  (forall a, Todo.categories x = Some a -> is_Some (σ !! a)) ->
  exists l, Todo.o_categories σ x c = Ok (c ++ l)
    /\ line_name <$> l = when (has_categories σ x) "CATEGORIES".
Proof.
  unfold Todo.o_categories, has_categories, iterate.
  destruct (Todo.categories x) as [a|]; [|emitter].
  intros H. destruct (H a eq_refl) as [o ->].
  destruct o as [? [|? ?]|[|? ?]]; simpl; emitter.
Qed.

(** X18. The lines that a todo emits, when its due is an instant or absent
    and its categories, if any, are a list of the store: there is a
    result; it begins with [DTSTAMP] and ends with [UID]; it holds a
    [COMPLETED] line whether or not the todo was completed; it holds a
    [DUE] line exactly when the todo has a due, and a [DURATION] line
    exactly when a duration that is not zero is stored. *)
Theorem todo_emitted_lines σ x :
  due_is_instant_or_none x ->
  (forall a, Todo.categories x = Some a -> is_Some (σ !! a)) ->
  exists lines,
    Todo.emit arrow_to_iso timedelta_to_duration now uid_gen σ x = Ok lines
    /\ head (line_name <$> lines) = Some "DTSTAMP"%string
    /\ last (line_name <$> lines) = Some "UID"%string
    /\ (("COMPLETED" : string) ∈ (line_name <$> lines))
    /\ ((("DUE" : string) ∈ (line_name <$> lines)) <-> Todo.has_due x = true)
    /\ ((("DURATION" : string) ∈ (line_name <$> lines))
        <-> delta_truthy (Todo._duration x) = true).
Proof.
  intros Hdue Hcat. unfold Todo.emit, Todo.o_created, Todo.o_completed,
    Todo.o_summary, Todo.o_description, Todo.o_location, Todo.o_uid.
  simpl.
  destruct (o_percent_appends x
    [{| line_name := "DTSTAMP";
        line_value_of := LText (arrow_to_iso
          match Todo.created x with Some c => c | None => now end) |}])
    as (l1 & -> & H1). simpl.
  edestruct (o_duration_appends x) as (l2 & -> & H2). simpl.
  edestruct (o_due_appends x) as (l3 & -> & H3); [done|]. simpl.
  edestruct (o_text_appends "SUMMARY") as (l4 & -> & H4). simpl.
  edestruct (o_text_appends "DESCRIPTION") as (l5 & -> & H5). simpl.
  edestruct (o_priority_appends x) as (l6 & -> & H6). simpl.
  edestruct (o_categories_appends σ x) as (l7 & -> & H7); [done|]. simpl.
  edestruct (o_text_appends "LOCATION") as (l8 & -> & H8). simpl.
  eexists. split; [reflexivity|].
  rewrite fmap_cons, !fmap_app, H1, H2, H3, H4, H5, H6, H7, H8. simpl.
  split; [reflexivity|]. split.
  { by rewrite app_comm_cons, last_snoc. }
  set_unfold. rewrite !elem_of_when. unfold Todo.has_due.
  split_and!.
  - naive_solver.
  - naive_solver.
  - naive_solver.
Qed.

End Emitters.

Lemma todo_emitted_lines_witness :
  exists lines,
    Todo.emit (fun _ => "t"%string) (fun _ => "d"%string) 0 "fresh" ∅
      (plain_todo "u" None) = Ok lines
    /\ head (line_name <$> lines) = Some "DTSTAMP"%string
    /\ last (line_name <$> lines) = Some "UID"%string
    /\ (("COMPLETED" : string) ∈ (line_name <$> lines))
    /\ ((("DUE" : string) ∈ (line_name <$> lines))
        <-> Todo.has_due (plain_todo "u" None) = true)
    /\ ((("DURATION" : string) ∈ (line_name <$> lines))
        <-> delta_truthy (Todo._duration (plain_todo "u" None)) = true).
Proof.
  apply (todo_emitted_lines (fun _ => "t"%string) (fun _ => "d"%string) 0 "fresh" ∅
           (plain_todo "u" None)).
  - by left.
  - intros a. discriminate.
Defined.

End TodoMore.

(** ** Sets of items *)

Section SetFacts.

Context {A : Type} (uid : A -> string).

Implicit Types (l : list A) (x y : A).

Lemma NoDup_uid_inj l x y :
  NoDup (uid <$> l) -> x ∈ l -> y ∈ l -> uid x = uid y -> x = y.
Proof.
  induction l as [|z l IH]; simpl; [by intros _ ?%elem_of_nil|].
  intros [Hz Hl]%NoDup_cons [->|Hx]%elem_of_cons [->|Hy]%elem_of_cons Heq.
  - done.
  - destruct Hz. rewrite Heq. by apply list_elem_of_fmap_2.
  - destruct Hz. rewrite <- Heq. by apply list_elem_of_fmap_2.
  - by apply IH.
Qed.

Lemma elem_of_List_filter (P : A -> bool) l x :
  x ∈ List.filter P l <-> x ∈ l /\ P x = true.
Proof. rewrite !list_elem_of_In. apply filter_In. Qed.

Lemma NoDup_uid_filter (P : A -> bool) l :
  NoDup (uid <$> l) -> NoDup (uid <$> List.filter P l).
Proof.
  induction l as [|z l IH]; simpl; [done|].
  intros [Hz Hl]%NoDup_cons. destruct (P z); [|by apply IH].
  simpl. apply NoDup_cons. split; [|by apply IH].
  intros (y & Heq & [Hy _]%elem_of_List_filter)%list_elem_of_fmap.
  apply Hz. rewrite Heq. by apply list_elem_of_fmap_2.
Qed.

Lemma mem_uid_filter (P : A -> bool) l y :
  NoDup (uid <$> l) -> y ∈ l -> mem_uid uid y (List.filter P l) = P y.
Proof.
  intros Hnd Hy. unfold mem_uid. destruct (P y) eqn:HP.
  - apply existsb_exists. exists y. split; [|apply String.eqb_refl].
    apply list_elem_of_In, elem_of_List_filter. done.
  - apply not_true_iff_false.
    intros (z & [Hz HPz]%list_elem_of_In%elem_of_List_filter & Heq%String.eqb_eq)%existsb_exists.
    assert (y = z) as -> by by eapply NoDup_uid_inj.
    congruence.
Qed.

Lemma py_set_from_NoDup seen l :
  Forall (fun x => uid x <> ""%string) l ->
  NoDup (uid <$> l) ->
  Forall (fun x => uid x ∉ seen) l ->
  py_set_from uid seen l = Ok l.
Proof.
  intros Hne. revert seen.
  induction Hne as [|x l Hx _ IH]; intros seen Hnd Hseen; [done|].
  simpl in Hnd. apply NoDup_cons in Hnd as [Hnx Hnd].
  apply Forall_cons in Hseen as [Hxs Hseen]. simpl.
  destruct (uid_hash_ok _ Hx) as [h ->]. simpl.
  destruct (existsb (String.eqb (uid x)) seen) eqn:Hex.
  - apply existsb_exists in Hex as (u & Hin%list_elem_of_In & Heq%String.eqb_eq).
    by rewrite Heq in Hxs.
  - rewrite IH; [done|done|].
    apply Forall_forall. intros y Hy. rewrite not_elem_of_cons. split.
    + intros Heq. apply Hnx. rewrite <- Heq. by apply list_elem_of_fmap_2.
    + by eapply Forall_forall in Hseen.
Qed.

Lemma py_set_filter (P : A -> bool) l :
  Forall (fun x => uid x <> ""%string) l ->
  NoDup (uid <$> l) ->
  py_set uid (List.filter P l) = Ok (List.filter P l).
Proof.
  intros Hne Hnd. apply py_set_from_NoDup.
  - apply Forall_forall. intros x [Hx _]%elem_of_List_filter.
    by eapply Forall_forall in Hne.
  - by apply NoDup_uid_filter.
  - apply Forall_forall. intros x _. apply not_elem_of_nil.
Qed.

Lemma List_filter_none (f : A -> bool) l :
  Forall (fun x => f x = false) l -> List.filter f l = [].
Proof. induction 1 as [|x l Hx _ IH]; simpl; [done|]. by rewrite Hx. Qed.

Lemma existsb_same_uids x l l' :
  uids uid l = uids uid l' ->
  existsb (fun y => String.eqb (uid x) (uid y)) l
  = existsb (fun y => String.eqb (uid x) (uid y)) l'.
Proof.
  intros Heq. apply eq_true_iff_eq. by rewrite !existsb_uid_elem, Heq.
Qed.

Lemma uids_app l l' : uids uid (l ++ l') = uids uid l ∪ uids uid l'.
Proof. unfold uids. by rewrite fmap_app, list_to_set_app_L. Qed.

Lemma keep_last_app_l l l' :
  keep_last uid (keep_last uid l ++ l') = keep_last uid (l ++ l').
Proof.
  induction l as [|x l IH]; simpl; [done|].
  rewrite (existsb_app _ l l').
  destruct (existsb _ l) eqn:Hex; simpl; [done|].
  rewrite (existsb_same_uids x (keep_last uid l ++ l') (l ++ l'))
    by by rewrite !uids_app, keep_last_uids.
  rewrite (existsb_app _ l l'), Hex, IH. done.
Qed.

Lemma keep_last_app_r l l' :
  keep_last uid (l ++ keep_last uid l') = keep_last uid (l ++ l').
Proof.
  induction l as [|x l IH]; simpl.
  - apply keep_last_id, keep_last_NoDup.
  - rewrite (existsb_same_uids x (l ++ keep_last uid l') (l ++ l'))
      by by rewrite !uids_app, keep_last_uids.
    by rewrite IH.
Qed.

Lemma keep_last_Forall (P : A -> Prop) l :
  Forall P l -> Forall P (keep_last uid l).
Proof.
  intros Hall. apply Forall_forall. intros x Hx.
  eapply Forall_forall in Hall; [done|].
  eapply elem_of_sublist; [done|apply keep_last_sublist].
Qed.

End SetFacts.

(** ** More on todo lists *)

Section TodoListMore.

Implicit Types (self : list Todo.t) (x todo : Todo.t) (σ : gmap nat obj).

Lemma filter_cond_all (c : Todo.t -> result bool) self :
  (forall x, c x = Ok true) -> TodoList.filter_cond c self = Ok self.
Proof.
  intros Hc. induction self as [|x self IH]; [done|].
  simpl. by rewrite Hc, IH.
Qed.

(** X19. Range queries that lack a bound. With no bound at all, the modes
    ['begin'], ['end'], ['both'] and ['any'] return the whole list and
    the mode ['inc'] returns the empty list, and no item is looked at: so
    it is also on todos that have no begin. In mode ['inc'], a query with
    a lower bound and no upper bound raises [UnboundLocalError], and a
    query with an upper bound and no lower bound returns the empty
    list. *)
Theorem queries_without_bounds self p :
  (forall mode,
     mode ∈ ["begin"; "end"; "both"; "any"]%string ->
     TodoList.__getitem__ self (TodoList.KSlice PNone PNone (PStr mode p))
     = Ok (TodoList.Many self))
  /\ TodoList.__getitem__ self (TodoList.KSlice PNone PNone (PStr "inc" p))
     = Ok (TodoList.Many [])
  /\ (forall start s,
       get_arrow start = Ok (Some s) ->
       TodoList.__getitem__ self (TodoList.KSlice start PNone (PStr "inc" p))
       = Raise UnboundLocalError)
  /\ (forall stop e,
       get_arrow stop = Ok (Some e) ->
       TodoList.__getitem__ self (TodoList.KSlice PNone stop (PStr "inc" p))
       = Ok (TodoList.Many [])).
Proof.
  split_and!.
  - intros mode Hmode. set_unfold in Hmode.
    destruct Hmode as [-> | [-> | [-> | [-> | []]]]]; simpl;
      unfold TodoList.special_slice; simpl; by rewrite filter_cond_all.
  - reflexivity.
  - intros start s Hs. rewrite getitem_step_string.
    unfold TodoList.special_slice. simpl. by rewrite Hs.
  - intros stop e He. rewrite getitem_step_string.
    unfold TodoList.special_slice. simpl. by rewrite He.
Qed.

Lemma queries_without_bounds_witness :
  TodoList.__getitem__ [plain_todo "u" None]
    (TodoList.KSlice (at_second 1) PNone (PStr "inc" None))
  = Raise UnboundLocalError.
Proof.
  apply (proj1 (proj2 (proj2 (queries_without_bounds [plain_todo "u" None] None)))
           (at_second 1) (1 * usec_per_second)).
  reflexivity.
Defined.

Ltac spanning_item :=
  intros ? (? & ? & Hitem_begin & Hitem_end & ?);
  unfold overlaps, inside, ends_inside, going_on, on_interval,
    TodoList.call, TodoList.condition0, Todo.begin, Todo.get_end;
  simpl; rewrite ?Hitem_begin, ?Hitem_end; simpl;
  unfold TodoList.pand, TodoList.por; simpl;
  repeat match goal with
         | |- context [?a <? ?b] => destruct (Z.ltb_spec a b); simpl
         | |- context [?a <=? ?b] => destruct (Z.leb_spec a b); simpl
         end; try done; lia.

(** X20. Range queries between two instants [s] and [e], on items whose
    begin is not after their end. Mode ['any'] returns exactly the items
    that overlap the window (they end after [s] and begin before [e]),
    the ones that contain it included; mode ['both'] returns exactly the
    items that lie inside it (they begin after [s] and end before [e]);
    mode ['end'] returns exactly the items whose end lies inside it. *)
Theorem queries_between_bounds self start stop s e p :
  get_arrow start = Ok (Some s) ->
  get_arrow stop = Ok (Some e) ->
  Forall spans self ->
  TodoList.__getitem__ self (TodoList.KSlice start stop (PStr "any" p))
  = Ok (TodoList.Many (List.filter (overlaps s e) self))
  /\ TodoList.__getitem__ self (TodoList.KSlice start stop (PStr "both" p))
     = Ok (TodoList.Many (List.filter (inside s e) self))
  /\ TodoList.__getitem__ self (TodoList.KSlice start stop (PStr "end" p))
     = Ok (TodoList.Many (List.filter (ends_inside s e) self)).
Proof.
  intros Hs He Hall. rewrite !getitem_step_string.
  unfold TodoList.special_slice. simpl. rewrite Hs, He. simpl.
  split_and!.
  - rewrite (filter_cond_total _ (overlaps s e)); [done|].
    eapply Forall_impl; [exact Hall|]. spanning_item.
  - rewrite (filter_cond_total _ (inside s e)); [done|].
    eapply Forall_impl; [exact Hall|]. spanning_item.
  - rewrite (filter_cond_total _ (ends_inside s e)); [done|].
    eapply Forall_impl; [exact Hall|]. spanning_item.
Qed.

Lemma three_items_span : Forall spans three_items.
Proof.
  repeat constructor; eexists _, _; (split_and!; [reflexivity|reflexivity|]);
    vm_compute; discriminate.
Qed.

Lemma queries_between_bounds_witness :
  TodoList.__getitem__ three_items
    (TodoList.KSlice (at_second 2) (at_second 3) (PStr "any" None))
  = Ok (TodoList.Many
          (List.filter (overlaps (2 * usec_per_second) (3 * usec_per_second))
             three_items)).
Proof.
  apply (queries_between_bounds three_items (at_second 2) (at_second 3)
           (2 * usec_per_second) (3 * usec_per_second) None eq_refl eq_refl
           three_items_span).
Defined.

(** X21. The items of a day. Indexing the list with an instant, and
    [today], return exactly the items that begin after the midnight of
    the day and end before its last microsecond, when the begin of each
    item is not after its end; an item that begins at midnight sharp is
    not among them. *)
Theorem items_of_a_day self (t : Z) :
  Forall spans self ->
  TodoList.__getitem__ self (TodoList.KVal (PArrow t))
  = Ok (TodoList.Many
          (List.filter (inside (floor_day t) (floor_day t + usec_per_day - 1)) self))
  /\ TodoList.today t self = TodoList.__getitem__ self (TodoList.KVal (PArrow t))
  /\ (forall x, Todo._begin x = Some (Some (floor_day t)) ->
       x ∉ List.filter (inside (floor_day t) (floor_day t + usec_per_day - 1)) self).
Proof.
  intros Hall. split_and!.
  - unfold TodoList.__getitem__, TodoList.day_slice. simpl.
    rewrite floor_day_idem.
    pose proof (queries_between_bounds self (PArrow (floor_day t))
      (PArrow (floor_day t + usec_per_day - 1)) _ _ None eq_refl eq_refl Hall)
      as (_ & Hboth & _).
    rewrite getitem_step_string in Hboth.
    destruct (TodoList.special_slice self _ _ _) as [l|]; [|done].
    simpl in Hboth. by injection Hboth as ->.
  - reflexivity.
  - intros x Hb Hin. apply list_elem_of_In, filter_In in Hin as [_ Hin].
    unfold inside, on_interval in Hin. rewrite Hb in Hin.
    destruct (Todo.end_attr x) as [[?|]|]; try done.
    rewrite Z.ltb_irrefl in Hin. done.
Qed.

Lemma items_of_a_day_witness :
  TodoList.__getitem__ three_items (TodoList.KVal (PArrow 0))
  = Ok (TodoList.Many
          (List.filter (inside (floor_day 0) (floor_day 0 + usec_per_day - 1))
             three_items)).
Proof. apply (proj1 (items_of_a_day three_items 0 three_items_span)). Defined.

Lemma during_constant (instant : Z) k self :
  Forall timed self ->
  TodoList.during (fun _ => instant) k self
  = Ok (List.filter (going_on instant) self).
Proof.
  intros Hall. revert k.
  induction Hall as [|x self [[b Hb] [e He]] _ IH]; intros k; [done|].
  cbn [TodoList.during List.filter]. rewrite (IH (S k)).
  unfold going_on, on_interval, Todo.begin, Todo.get_end. rewrite Hb, He. simpl.
  unfold TodoList.pand. simpl.
  destruct (b <=? instant); simpl; [destruct (instant <=? e)|]; done.
Qed.

(** X22. [at] returns exactly the items that are going on at the instant:
    they begin at or before it and end at or after it, both bounds
    included; each item has to have a begin and an end. [now] does the
    same with the reading of the clock, when the clock does not move
    during the call. *)
Theorem items_at_an_instant self (instant : Z) :
  Forall timed self ->
  TodoList.at_ self instant = Ok (List.filter (going_on instant) self)
  /\ TodoList.now (fun _ => instant) self
     = Ok (List.filter (going_on instant) self).
Proof. intros Hall. split; by apply during_constant. Qed.

Lemma items_at_an_instant_witness :
  TodoList.at_ three_items (3 * usec_per_second)
  = Ok (List.filter (going_on (3 * usec_per_second)) three_items).
Proof.
  apply (proj1 (items_at_an_instant three_items (3 * usec_per_second)
                  ltac:(repeat constructor; eexists; reflexivity))).
Defined.

(** X23. [concurrent]. When the items of the list and the todo given have
    a begin and an end, the begin not after the end, and the items have
    uids that are not empty and differ from one another, [concurrent]
    returns the items that overlap the todo: the ones that end after its
    begin and begin before its end. The items that begin before the todo
    and end after it, which the second and the third query collect, are
    all among those of the first query and add nothing. The order of
    the result is that of a Python set, so it is given up to a
    permutation. A todo that has no [_begin] attribute, as the
    constructor leaves it, makes [concurrent] raise [AttributeError]
    on any list. *)
Theorem concurrent_items_overlap self todo :
  (forall b e,
     Todo._begin todo = Some (Some b) ->
     Todo.end_attr todo = Some (Some e) ->
     b <= e ->
     Forall spans self ->
     Forall (fun x => Todo.uid x <> ""%string) self ->
     NoDup (Todo.uid <$> self) ->
     exists l, TodoList.concurrent self todo = Ok l
               /\ l ≡ₚ List.filter (overlaps b e) self)
  /\ (Todo._begin todo = None ->
      TodoList.concurrent self todo = Raise AttributeError).
Proof.
  split.
  - intros b e Hb He Hbe Hall Hne Hnd.
    assert (Hany : TodoList.special_slice self (PArrow b) (PArrow e) (PStr "any" None)
                   = Ok (List.filter (overlaps b e) self)).
    { unfold TodoList.special_slice. simpl. apply filter_cond_total.
      eapply Forall_impl; [exact Hall|]. spanning_item. }
    assert (Hbefore : TodoList.special_slice self PNone (PArrow b) (PStr "begin" None)
                      = Ok (List.filter (on_interval (fun b' _ => b' <? b)) self)).
    { unfold TodoList.special_slice. simpl. apply filter_cond_total.
      eapply Forall_impl; [exact Hall|]. spanning_item. }
    assert (Hafter : TodoList.special_slice self (PArrow e) PNone (PStr "end" None)
                     = Ok (List.filter (on_interval (fun _ e' => e <? e')) self)).
    { unfold TodoList.special_slice. simpl. apply filter_cond_total.
      eapply Forall_impl; [exact Hall|]. spanning_item. }
    unfold TodoList.concurrent, Todo.begin, Todo.get_end. rewrite Hb, He.
    cbn [mbind result_bind TodoList.of_option]. rewrite Hany, Hbefore, Hafter.
    cbn [mbind result_bind].
    rewrite !py_set_filter by done. cbn [mbind result_bind].
    eexists. split; [done|].
    unfold set_union, set_inter.
    match goal with
    | |- _ ++ List.filter ?f ?l ≡ₚ _ => rewrite (List_filter_none f l)
    end; [by rewrite app_nil_r|].
    apply Forall_forall.
    intros y [[Hy Hyb]%elem_of_List_filter Hyc]%elem_of_List_filter.
    rewrite mem_uid_filter in Hyc by done.
    rewrite mem_uid_filter by done.
    apply negb_false_iff.
    eapply Forall_forall in Hall as (b' & e' & Hb' & He' & ?); [|exact Hy].
    unfold overlaps, on_interval in *. rewrite Hb', He' in *.
    apply andb_true_iff. rewrite !Z.ltb_lt in *. lia.
  - intros Hb. unfold TodoList.concurrent, Todo.begin. by rewrite Hb.
Qed.

Lemma concurrent_items_overlap_witness :
  exists l, TodoList.concurrent three_items (timed_todo "d" 4 7) = Ok l
            /\ l ≡ₚ List.filter
                      (overlaps (4 * usec_per_second) (7 * usec_per_second))
                      three_items.
Proof.
  apply (proj1 (concurrent_items_overlap three_items (timed_todo "d" 4 7))
           (4 * usec_per_second) (7 * usec_per_second) eq_refl eq_refl).
  - vm_compute. discriminate.
  - apply three_items_span.
  - repeat constructor; discriminate.
  - vm_compute. repeat constructor; set_solver.
Defined.

Lemma str_le_trans (a b c : string) : str_le a b -> str_le b c -> str_le a c.
Proof.
  unfold str_le, String.leb. revert b c.
  induction a as [|x a IH]; intros [|y b] [|z c]; simpl; try done.
  unfold Ascii.compare.
  destruct (N.compare_spec (Ascii.N_of_ascii x) (Ascii.N_of_ascii y));
    destruct (N.compare_spec (Ascii.N_of_ascii y) (Ascii.N_of_ascii z));
    destruct (N.compare_spec (Ascii.N_of_ascii x) (Ascii.N_of_ascii z));
    try done; try lia.
  apply IH.
Qed.

Lemma insert_sorted_perm (x : string) (l : list string) :
  insert_sorted x l ≡ₚ x :: l.
Proof.
  induction l as [|y l IH]; simpl; [done|].
  destruct (String.leb x y); [done|]. rewrite IH. apply Permutation_swap.
Qed.

Lemma sort_strings_perm (l : list string) : sort_strings l ≡ₚ l.
Proof.
  induction l as [|x l IH]; simpl; [done|].
  unfold sort_strings in *. simpl. by rewrite insert_sorted_perm, IH.
Qed.

Lemma insert_sorted_sorted (x : string) (l : list string) :
  StronglySorted str_le l -> StronglySorted str_le (insert_sorted x l).
Proof.
  induction 1 as [|y l Hl IH Hy]; simpl.
  - by repeat constructor.
  - destruct (String.leb x y) eqn:Hxy.
    + constructor; [by constructor|]. constructor; [done|].
      eapply Forall_impl; [exact Hy|]. intros z Hz. by eapply str_le_trans.
    + constructor; [done|]. rewrite insert_sorted_perm. constructor; [|done].
      destruct (String.leb_total x y) as [Hle|Hle]; [congruence|done].
Qed.

Lemma sort_strings_sorted (l : list string) : StronglySorted str_le (sort_strings l).
Proof.
  induction l as [|x l IH]; [constructor|].
  unfold sort_strings in *. simpl. by apply insert_sorted_sorted.
Qed.

Lemma add_categories_elem (cats catlist : list string) (c : string) :
  c ∈ TodoList.add_categories cats catlist <-> c ∈ catlist \/ c ∈ cats.
Proof.
  revert catlist. induction cats as [|cat cats IH]; intros catlist; simpl.
  - set_solver.
  - rewrite IH. destruct (existsb (String.eqb cat) catlist) eqn:Hex.
    + apply existsb_exists in Hex as (u & Hin%list_elem_of_In & Heq%String.eqb_eq).
      subst u. set_solver.
    + set_solver.
Qed.

Lemma add_categories_NoDup (cats catlist : list string) :
  NoDup catlist -> NoDup (TodoList.add_categories cats catlist).
Proof.
  revert catlist. induction cats as [|cat cats IH]; intros catlist Hnd; simpl; [done|].
  apply IH. destruct (existsb (String.eqb cat) catlist) eqn:Hex; [done|].
  apply NoDup_app. split_and!; [done| |apply NoDup_singleton].
  intros u Hu ->%list_elem_of_singleton.
  apply not_true_iff_false in Hex. apply Hex, existsb_exists.
  exists cat. split; [by apply list_elem_of_In|apply String.eqb_refl].
Qed.

Lemma collect_categories_spec σ self (catlist : list string) :
  Forall (categories_resolve σ) self ->
  NoDup catlist ->
  exists l,
    TodoList.collect_categories σ self catlist = Ok l
    /\ NoDup l
    /\ forall c, c ∈ l <-> c ∈ catlist \/ exists x, x ∈ self /\ has_category σ x c.
Proof.
  intros Hall. revert catlist.
  induction Hall as [|x self Hx _ IH]; intros catlist Hnd; simpl.
  - eexists. split_and!; [done|done|]. intros c. split; [by left|].
    intros [?|(x & ?%elem_of_nil & _)]; done.
  - destruct (Todo.categories x) as [a|] eqn:Hcat.
    + destruct (Hx a Hcat) as [o Ho].
      assert (Hit : exists cats, iterate σ a = Ok cats)
        by (unfold iterate; rewrite Ho; destruct o; eauto).
      destruct Hit as [cats Hit]. rewrite Hit.
      cbn [mbind result_bind].
      destruct (IH (TodoList.add_categories cats catlist)) as (l & -> & Hl & Hin);
        [by apply add_categories_NoDup|].
      eexists. split_and!; [done|done|]. intros c.
      rewrite Hin, add_categories_elem. split.
      * intros [[?|?]|(y & ? & ?)]; [by left| |].
        -- right. exists x. split; [left|]. by exists a, cats.
        -- right. exists y. split; [by right|done].
      * intros [?|(y & [->|?]%elem_of_cons & Hy)]; [by left; left| |].
        -- destruct Hy as (a' & cats' & ? & ? & ?). left. right. congruence.
        -- right. by exists y.
    + destruct (IH catlist Hnd) as (l & -> & Hl & Hin).
      eexists. split_and!; [done|done|]. intros c. rewrite Hin. split.
      * intros [?|(y & ? & ?)]; [by left|]. right. exists y. split; [by right|done].
      * intros [?|(y & [->|?]%elem_of_cons & Hy)]; [by left| |].
        -- destruct Hy as (a' & ? & ? & _). congruence.
        -- right. by exists y.
Qed.

(** X24. [categories]. When the [categories] of each todo is [None] or
    an object of the store, the call returns a list that is sorted in the
    order of the strings, holds no string twice, and holds exactly the
    categories that some todo of the list has. So a todo without
    categories adds nothing, and a category shared by several todos comes
    once. *)
Theorem categories_sorted_without_repeats σ self :
  Forall (categories_resolve σ) self ->
  exists l,
    TodoList.categories σ self = Ok l
    /\ StronglySorted str_le l
    /\ NoDup l
    /\ forall c, c ∈ l <-> exists x, x ∈ self /\ has_category σ x c.
Proof.
  intros Hall. unfold TodoList.categories.
  destruct (collect_categories_spec σ self [] Hall (NoDup_nil_2 (A:=string)))
    as (l & -> & Hl & Hin).
  cbn [mbind result_bind]. eexists. split_and!; [done| | |].
  - apply sort_strings_sorted.
  - by rewrite sort_strings_perm.
  - intros c. rewrite sort_strings_perm, Hin. split; [|by right].
    intros [?%elem_of_nil|?]; done.
Qed.

Lemma categories_sorted_without_repeats_witness :
  exists l,
    TodoList.categories tagged_store [tagged_todo; plain_todo "u" None] = Ok l
    /\ StronglySorted str_le l
    /\ NoDup l
    /\ forall c, c ∈ l <->
          exists x, x ∈ [tagged_todo; plain_todo "u" None]
                    /\ has_category tagged_store x c.
Proof.
  apply (categories_sorted_without_repeats tagged_store
           [tagged_todo; plain_todo "u" None]).
  repeat constructor; intros a [= <-]; by eexists.
Defined.

(** X25. Concatenation composes. When no uid is empty, [(A + B) + C] and
    [A + (B + C)] both return the items of [A], [B] and [C] in that order
    without the items that have a later duplicate: the removal of the
    duplicates of a part does not change what the whole keeps. Adding
    the empty list on either side removes the duplicates of [A], and the
    length of a sum is at most the sum of the lengths. *)
Theorem concatenation_is_associative (A B C : list Todo.t) :
  Forall (fun x => Todo.uid x <> ""%string) (A ++ B ++ C) ->
  (exists AB BC,
     TodoList.__add__ A B = Ok AB
     /\ TodoList.__add__ B C = Ok BC
     /\ TodoList.__add__ AB C = Ok (keep_last Todo.uid (A ++ B ++ C))
     /\ TodoList.__add__ A BC = Ok (keep_last Todo.uid (A ++ B ++ C))
     /\ (length AB <= length A + length B)%nat)
  /\ TodoList.__add__ A [] = Ok (keep_last Todo.uid A)
  /\ TodoList.__add__ [] A = Ok (keep_last Todo.uid A).
Proof.
  intros Hne.
  pose proof Hne as [HA [HB HC]%Forall_app]%Forall_app.
  unfold TodoList.__add__, TodoList._remove_duplicates.
  split_and!.
  - exists (keep_last Todo.uid (A ++ B)), (keep_last Todo.uid (B ++ C)).
    split_and!.
    + apply remove_duplicates_keep_last. by apply Forall_app.
    + apply remove_duplicates_keep_last. by apply Forall_app.
    + rewrite remove_duplicates_keep_last.
      * by rewrite keep_last_app_l, <- app_assoc.
      * apply Forall_app. split; [|done].
        apply keep_last_Forall. by apply Forall_app.
    + rewrite remove_duplicates_keep_last.
      * by rewrite keep_last_app_r.
      * apply Forall_app. split; [done|].
        apply keep_last_Forall. by apply Forall_app.
    + rewrite <- length_app. apply sublist_length, keep_last_sublist.
  - rewrite app_nil_r. by apply remove_duplicates_keep_last.
  - by apply remove_duplicates_keep_last.
Qed.

Lemma concatenation_is_associative_witness :
  TodoList.__add__ [plain_todo "a" None] [] = Ok (keep_last Todo.uid [plain_todo "a" None]).
Proof.
  apply (concatenation_is_associative
           [plain_todo "a" None] [plain_todo "b" None] [plain_todo "a" (Some "x"%string)]).
  repeat constructor; discriminate.
Defined.

Lemma list_bump_unforced (replace : Z -> result Z) (shift : Z -> Z) clock k self :
  (forall d, replace d = Ok (shift d)) ->
  Forall due_is_instant_or_none self ->
  TodoList.bump replace clock k false self
  = (Done (shift_due shift <$> self),
     check_line <$> List.filter (fun x => negb (Todo.has_due x)) self).
Proof.
  intros Hrep Hall. revert k.
  induction Hall as [|x self [Hx|[d Hx]] _ IH]; intros k; [done| |].
  - cbn [TodoList.bump]. unfold Todo.bump at 1, Todo.has_due, shift_due.
    simpl. rewrite Hx. simpl. rewrite (IH (S k)). done.
  - cbn [TodoList.bump]. unfold Todo.bump at 1, Todo.has_due, shift_due.
    simpl. rewrite Hx. simpl. rewrite Hx, Hrep, (IH (S k)). done.
Qed.

Lemma list_bump_forced (replace : Z -> result Z) (shift : Z -> Z) clock k self :
  (forall d, replace d = Ok (shift d)) ->
  Forall due_is_instant_or_none self ->
  TodoList.bump replace clock k true self
  = (Done (imap (fun i => shift_due_or shift (clock (k + i)%nat)) self), []).
Proof.
  intros Hrep Hall. revert k.
  induction Hall as [|x self Hx _ IH]; intros k; [done|].
  cbn [TodoList.bump imap]. rewrite (IH (S k)).
  rewrite Nat.add_0_r.
  replace (imap (fun i => shift_due_or shift (clock (S k + i)%nat)) self)
    with (imap ((fun i => shift_due_or shift (clock (k + i)%nat)) ∘ S) self)
    by (apply imap_ext; intros i y _; simpl; by rewrite Nat.add_succ_r).
  unfold Todo.bump, shift_due_or, shift_due, Todo.has_due.
  destruct Hx as [Hx|[d Hx]]; rewrite Hx; simpl.
  - rewrite Hrep. by rewrite with_due_with_due.
  - rewrite Hx, Hrep. done.
Qed.

(** X26. [bump] on a list, for a shift [delta] that arrow accepts on every
    instant and todos whose due is an instant or absent. Not forced, each
    due is shifted, the todos without a due stay as they are, and one
    line is printed for each of them. Forced, nothing is printed and
    every todo has a due afterwards: the shifted due, or the shifted
    reading of the clock at its turn. When the shift raises on the due of
    an item, the items before it stay shifted and the items from it on
    are as they were: nothing is rolled back. *)
Theorem list_bump (replace : Z -> result Z) (shift : Z -> Z) (clock : nat -> Z) self :
  (forall d, replace d = Ok (shift d)) ->
  Forall due_is_instant_or_none self ->
  TodoList.bump replace clock 0 false self
  = (Done (shift_due shift <$> self),
     check_line <$> List.filter (fun x => negb (Todo.has_due x)) self)
  /\ TodoList.bump replace clock 0 true self
     = (Done (imap (fun i => shift_due_or shift (clock i)) self), [])
  /\ Forall (fun x => Todo.has_due x = true)
        (imap (fun i => shift_due_or shift (clock i)) self)
  /\ (forall (replace' : Z -> result Z) x post d e force,
        Forall (fun y => exists d, Todo._due y = PArrow d
                                   /\ replace' d = Ok (shift d)) self ->
        Todo._due x = PArrow d ->
        replace' d = Raise e ->
        TodoList.bump replace' clock 0 force (self ++ x :: post)
        = (Raised e ((shift_due shift <$> self) ++ x :: post), [])).
Proof.
  intros Hrep Hall. split_and!.
  - by apply list_bump_unforced.
  - by rewrite (list_bump_forced replace shift).
  - apply Forall_forall. intros y (i & x & -> & Hx)%elem_of_lookup_imap.
    apply list_elem_of_lookup_2 in Hx.
    eapply Forall_forall in Hall as [Hn|[d Hd]]; [| |exact Hx];
      unfold shift_due_or, shift_due, Todo.has_due; rewrite ?Hn, ?Hd; simpl;
      by rewrite ?Hd.
  - intros replace' x post d e force Hpre Hx Hraise. clear Hrep Hall.
    generalize 0%nat as k.
    induction Hpre as [|y pre (dy & Hy & Hry) _ IH]; intros k.
    + cbn [TodoList.bump app fmap list_fmap]. unfold Todo.bump. rewrite Hx. simpl.
      rewrite andb_false_r. rewrite Hx, Hraise. done.
    + cbn [TodoList.bump app]. rewrite (IH (S k)).
      unfold Todo.bump at 1. rewrite Hy. simpl. rewrite andb_false_r.
      rewrite Hy, Hry. simpl. unfold shift_due at 2. by rewrite Hy.
Qed.

Lemma list_bump_witness :
  TodoList.bump (fun t => Ok (t + 1)) (fun _ => 0) 0 false [plain_todo "u" None]
  = (Done (shift_due (fun t => t + 1) <$> [plain_todo "u" None]),
     check_line <$> List.filter (fun x => negb (Todo.has_due x)) [plain_todo "u" None]).
Proof.
  apply (list_bump (fun t => Ok (t + 1)) (fun t => t + 1) (fun _ => 0)
           [plain_todo "u" None]).
  - reflexivity.
  - repeat constructor.
Defined.

Lemma todo_clone_copy σ x :
  is_Some (σ !! Todo._unused x) ->
  exists x' σ',
    Todo.clone σ x = Ok (x', σ') /\ σ ⊆ σ' /\ copy_of σ σ' x x'
    /\ is_Some (σ' !! Todo._unused x').
Proof.
  intros [o Ho]. unfold Todo.clone, container_clone, alloc. rewrite Ho. simpl.
  assert (Hfresh : σ !! fresh (dom σ) = None)
    by (apply not_elem_of_dom, is_fresh).
  eexists _, _. split; [done|]. split_and!.
  - by apply insert_subseteq.
  - unfold copy_of. simpl. split_and!; [done|done|].
    by rewrite lookup_insert_eq.
  - simpl. rewrite lookup_insert_eq. by eexists.
Qed.

Lemma todo_list_clone_spec σ self :
  Forall (fun x => is_Some (σ !! Todo._unused x)) self ->
  exists r σ',
    TodoList.clone σ self = Ok (r, σ') /\ σ ⊆ σ'
    /\ Forall2 (copy_of σ σ') self r
    /\ Forall (fun x' => is_Some (σ' !! Todo._unused x')) r
    /\ NoDup (Todo._unused <$> r).
Proof.
  intros Hall.
  revert σ Hall. induction self as [|x self IH]; intros σ Hall.
  - exists [], σ. split_and!; try done; constructor.
  - apply Forall_cons in Hall as [Hx Hall].
    destruct (todo_clone_copy σ x Hx) as (x' & σ1 & Hc & Hsub & Hcopy & Hin).
    destruct (IH σ1) as (r & σ' & Hr & Hsub' & Hcopies & Hres & Hnd).
    { eapply Forall_impl; [exact Hall|]. intros y [o Ho].
      exists o. by eapply lookup_weaken. }
    exists (x' :: r), σ'. cbn [TodoList.clone]. rewrite Hc. simpl. rewrite Hr. simpl.
    destruct Hcopy as (Heq & Hnew & Hsame). destruct Hin as [o' Ho'].
    assert (Ho'' : σ' !! Todo._unused x' = Some o') by by eapply lookup_weaken.
    split_and!.
    + done.
    + by etrans.
    + constructor.
      * split_and!; [done|done|]. by rewrite Ho'', <- Hsame.
      * assert (Htail : Forall2 (fun y y' => is_Some (σ !! Todo._unused y)
                                           /\ copy_of σ1 σ' y y') self r).
        { apply Forall2_same_length_lookup. split; [by eapply Forall2_length|].
          intros i y y' Hy Hy'. split.
          - eapply Forall_forall in Hall; [exact Hall|].
            by eapply list_elem_of_lookup_2.
          - by eapply Forall2_lookup_lr. }
        eapply Forall2_impl; [exact Htail|].
        intros y y' ([o Ho] & Hy & Hn & Hs). split_and!; [done| |].
        -- by eapply lookup_weaken_None.
        -- rewrite Hs, Ho. by eapply lookup_weaken.
    + constructor; [by eexists|done].
    + simpl. apply NoDup_cons. split; [|done].
      intros (y' & Ha & Hy')%list_elem_of_fmap.
      apply list_elem_of_lookup_1 in Hy' as [i Hy'].
      destruct (Forall2_lookup_r _ _ _ _ _ Hcopies Hy') as (y & _ & _ & Hn & _).
      rewrite <- Ha in Hn. congruence.
Qed.

(** X27. [clone] of a list, when the [_unused] container of each item is
    in the store. It returns as many items as the list has; the store
    only grows, so the originals are untouched; each item of the result
    is a copy of the item at its position, with a new [_unused]
    container of the same content and every other attribute as in the
    original, so with the same uid and the same [categories] list; and
    the new containers differ from one another. *)
Theorem list_clone_copies σ self :
  Forall (fun x => is_Some (σ !! Todo._unused x)) self ->
  exists r σ',
    TodoList.clone σ self = Ok (r, σ')
    /\ σ ⊆ σ'
    /\ Forall2 (copy_of σ σ') self r
    /\ NoDup (Todo._unused <$> r)
    /\ length r = length self
    /\ Forall2 (fun x x' => Todo.__eq__ x x' = true
                            /\ Todo.categories x' = Todo.categories x) self r.
Proof.
  intros Hall.
  destruct (todo_list_clone_spec σ self Hall)
    as (r & σ' & Hc & Hsub & Hcopies & _ & Hnd).
  exists r, σ'. split_and!; try done.
  - symmetry. by eapply Forall2_length.
  - eapply Forall2_impl; [exact Hcopies|].
    intros x x' (-> & _ & _). unfold Todo.__eq__. simpl.
    by rewrite String.eqb_refl.
Qed.

Lemma list_clone_copies_witness :
  exists r σ',
    TodoList.clone tagged_store [tagged_todo] = Ok (r, σ')
    /\ tagged_store ⊆ σ'
    /\ Forall2 (copy_of tagged_store σ') [tagged_todo] r
    /\ NoDup (Todo._unused <$> r)
    /\ length r = length [tagged_todo]
    /\ Forall2 (fun x x' => Todo.__eq__ x x' = true
                            /\ Todo.categories x' = Todo.categories x)
         [tagged_todo] r.
Proof.
  apply (list_clone_copies tagged_store [tagged_todo]).
  repeat constructor. by eexists.
Defined.

End TodoListMore.

(** ** More on calendars *)

Section CalendarMore.

Context {tree : Type}.
Context (string_to_container : string -> result (list tree)).
Context (lines_to_container : list Calendar.elem -> result (list tree)).
Context (_populate : Calendar.t -> tree -> gmap nat obj
                     -> result (Calendar.t * gmap nat obj)).

Implicit Types (σ : gmap nat obj) (self : Calendar.t) (value : Calendar.pylist).

(** X28. The constructor of a calendar. Without [imports] it returns a
    calendar that holds the [events] and the [todos] as they are given,
    whatever their class and their items (no conversion and no check,
    unlike the setters), and the [creator]; its [_unused] container is
    new and empty. With [imports] the other arguments are ignored: a
    value that is neither a string nor a sequence raises [TypeError]; an
    error of the parser is passed on; a parse that does not give exactly
    one calendar block raises [NotImplementedError]; and one block is
    handed to the population, on a calendar that has empty lists and no
    [_creator] attribute. *)
Theorem calendar_constructor σ :
  let a := fresh (dom σ) in
  let σ0 := <[a := OContainer "VCALENDAR" []]> σ in
  let init := Calendar.__init__ string_to_container lines_to_container _populate σ in
  σ !! a = None
  /\ (forall events todos creator,
        exists c, init None events todos creator = Ok (c, σ0)
                  /\ Calendar._events c = default Calendar.EventList_empty events
                  /\ Calendar._todos c = default Calendar.TodoList_empty todos
                  /\ Calendar._creator c = Some creator
                  /\ Calendar._unused c = a)
  /\ (forall imports events todos creator,
        init (Some imports) events todos creator
        = init (Some imports) None None None)
  /\ init (Some Calendar.IOther) None None None = Raise TypeError
  /\ (forall s e, string_to_container s = Raise e ->
        init (Some (Calendar.IText s)) None None None = Raise e)
  /\ (forall s cs, string_to_container s = Ok cs -> length cs <> 1%nat ->
        init (Some (Calendar.IText s)) None None None = Raise NotImplementedError)
  /\ (forall s c, string_to_container s = Ok [c] ->
        init (Some (Calendar.IText s)) None None None
        = _populate (blank_calendar a) c σ0)
  /\ (forall l cs, lines_to_container (Calendar.items l) = Ok cs ->
        init (Some (Calendar.ISeq l)) None None None
        = match cs with
          | [c] => _populate (blank_calendar a) c σ0
          | _ => Raise NotImplementedError
          end).
Proof.
  intros a σ0 init. unfold init, Calendar.__init__, alloc. simpl. split_and!.
  - apply not_elem_of_dom, is_fresh.
  - intros events todos creator. eexists. split_and!; done.
  - done.
  - done.
  - intros s e ->. done.
  - intros s cs -> Hlen. simpl. by destruct cs as [|c [|]].
  - intros s c ->. done.
  - intros l cs ->. done.
Qed.

(** X29. The [todos] setter and the constructor of a todo list. A
    [TodoList] is stored as it is. Any other sequence is turned into a
    [TodoList] with the same items when all its items are todos; when one
    of them is not, the setter raises [ValueError] and the calendar keeps
    its todos. The constructor of a todo list returns the items it is
    given exactly when they are all todos, and raises nothing but
    [ValueError]. *)
Theorem todos_setter self value :
  (Calendar.class_of value = Calendar.CTodoList ->
   Calendar.set_todos value self = Done (calendar_with_todos self value))
  /\ (forall ts,
        Calendar.class_of value <> Calendar.CTodoList ->
        Calendar.items value = Calendar.ETodo <$> ts ->
        Calendar.set_todos value self
        = Done (calendar_with_todos self
                  {| Calendar.class_of := Calendar.CTodoList;
                     Calendar.items := Calendar.items value |}))
  /\ (Calendar.class_of value <> Calendar.CTodoList ->
      Exists not_a_todo (Calendar.items value) ->
      Calendar.set_todos value self = Raised ValueError self)
  /\ (forall ts, Calendar.as_todos (Calendar.items value) = Ok ts
                 <-> Calendar.items value = Calendar.ETodo <$> ts)
  /\ (forall e, Calendar.as_todos (Calendar.items value) = Raise e ->
                e = ValueError /\ Exists not_a_todo (Calendar.items value)).
Proof.
  assert (Hok : forall l ts, Calendar.as_todos l = Ok ts <-> l = Calendar.ETodo <$> ts).
  { induction l as [|[e|x|u] l IH]; intros ts; simpl.
    - split; [intros [= <-]|intros Heq]; [done|]. by destruct ts.
    - split; [done|]. by destruct ts.
    - destruct (Calendar.as_todos l) as [r|] eqn:Hl; simpl.
      + split.
        * intros [= <-]. simpl. f_equal. by apply IH.
        * destruct ts as [|y ts]; [done|]. simpl. intros [= -> Hts].
          apply IH in Hts. congruence.
      + split; [done|]. destruct ts as [|y ts]; [done|]. simpl.
        intros [= -> Hts]. apply IH in Hts. congruence.
    - split; [done|]. by destruct ts. }
  assert (Hraise : forall l e, Calendar.as_todos l = Raise e ->
                               e = ValueError /\ Exists not_a_todo l).
  { induction l as [|[e'|x|u] l IH]; intros e; simpl; try done.
    - intros [= <-]. split; [done|]. by left.
    - destruct (Calendar.as_todos l) as [r|] eqn:Hl; simpl; [done|].
      intros [= <-]. destruct (IH _ eq_refl) as [-> Hex]. split; [done|]. by right.
    - intros [= <-]. split; [done|]. by left. }
  assert (Hbad : forall l, Exists not_a_todo l -> Calendar.as_todos l = Raise ValueError).
  { intros l Hex. destruct (Calendar.as_todos l) as [ts|e] eqn:Hl.
    - apply Hok in Hl. subst l. apply Exists_exists in Hex as (el & Hin & Hel).
      apply list_elem_of_fmap in Hin as (x & -> & _). by destruct (Hel x).
    - by destruct (Hraise l e Hl) as [-> _]. }
  unfold Calendar.set_todos. split_and!.
  - intros ->. done.
  - intros ts Hclass Hitems.
    assert (Has : Calendar.as_todos (Calendar.items value) = Ok ts) by by apply Hok.
    rewrite Has, <- Hitems. by destruct (Calendar.class_of value).
  - intros Hclass Hex. rewrite (Hbad _ Hex).
    by destruct (Calendar.class_of value).
  - intros ts. apply Hok.
  - intros e. apply Hraise.
Qed.

End CalendarMore.

Lemma calendar_constructor_witness :
  Calendar.__init__ (tree := unit) (fun _ => Ok []) (fun _ => Ok [])
    (fun c _ σ => Ok (c, σ)) ∅ (Some (Calendar.IText "")) None None None
  = Raise NotImplementedError.
Proof.
  apply (proj1 (proj2 (proj2 (proj2 (proj2 (proj2
    (calendar_constructor (tree := unit) (fun _ => Ok []) (fun _ => Ok [])
       (fun c _ σ => Ok (c, σ)) ∅)))))) ""%string [] eq_refl).
  discriminate.
Defined.

Lemma todos_setter_witness :
  Calendar.set_todos
    {| Calendar.class_of := Calendar.CList; Calendar.items := [Calendar.ELine "x"] |}
    tagged_calendar
  = Raised ValueError tagged_calendar.
Proof.
  apply (proj1 (proj2 (proj2
    (todos_setter tagged_calendar
       {| Calendar.class_of := Calendar.CList;
          Calendar.items := [Calendar.ELine "x"] |})))).
  - discriminate.
  - left. intros x. discriminate.
Defined.

Section CalendarEquality.

Implicit Types (σ : gmap nat obj) (c other : Calendar.t)
  (es : list Event.t) (ts : list Todo.t).

Lemma as_events_fmap es : Calendar.as_events (Calendar.EEvent <$> es) = Ok es.
Proof.
  induction es as [|e es IH]; [done|].
  rewrite fmap_cons. cbn [Calendar.as_events]. by rewrite IH.
Qed.

Lemma as_todos_fmap ts : Calendar.as_todos (Calendar.ETodo <$> ts) = Ok ts.
Proof.
  induction ts as [|x ts IH]; [done|].
  rewrite fmap_cons. cbn [Calendar.as_todos]. by rewrite IH.
Qed.

Lemma items_eq_events es es' :
  same_event_uids es es' ->
  Calendar.items_eq (Calendar.EEvent <$> es) (Calendar.EEvent <$> es') = Ok true.
Proof.
  unfold same_event_uids. revert es'.
  induction es as [|e es IH]; intros [|e' es']; simpl; try done.
  intros [= Hu Hrest]. unfold Event.__eq__. rewrite Hu, String.eqb_refl. simpl.
  by apply IH.
Qed.

Lemma items_eq_todos ts ts' :
  same_todo_uids ts ts' ->
  Calendar.items_eq (Calendar.ETodo <$> ts) (Calendar.ETodo <$> ts') = Ok true.
Proof.
  unfold same_todo_uids. revert ts'.
  induction ts as [|x ts IH]; intros [|x' ts']; simpl; try done.
  intros [= Hu Hrest]. unfold Todo.__eq__. rewrite Hu, String.eqb_refl. simpl.
  by apply IH.
Qed.

Lemma calendar_eq_by_uid σ c other es es' ts ts' :
  Calendar.items (Calendar._events c) = Calendar.EEvent <$> es ->
  Calendar.items (Calendar._events other) = Calendar.EEvent <$> es' ->
  Calendar.items (Calendar._todos c) = Calendar.ETodo <$> ts ->
  Calendar.items (Calendar._todos other) = Calendar.ETodo <$> ts' ->
  same_event_uids es es' ->
  same_todo_uids ts ts' ->
  σ !! Calendar._unused c = σ !! Calendar._unused other ->
  Calendar.scale c = Calendar.scale other ->
  Calendar.method c = Calendar.method other ->
  is_Some (Calendar._creator c) ->
  Calendar._creator c = Calendar._creator other ->
  Calendar.__eq__ σ c other = Ok true.
Proof.
  intros He He' Ht Ht' Hes Hts Hu Hs Hm [cr Hcr] Hcr'.
  unfold Calendar.__eq__. rewrite He, He', Ht, Ht'.
  rewrite !length_fmap.
  rewrite <- (length_fmap Event.uid es), <- (length_fmap Event.uid es'), Hes.
  rewrite <- (length_fmap Todo.uid ts), <- (length_fmap Todo.uid ts'), Hts.
  rewrite !Nat.eqb_refl. simpl.
  rewrite items_eq_events, items_eq_todos by done. simpl.
  rewrite <- Hcr', Hcr, Hu, Hs, Hm.
  by rewrite !bool_decide_eq_true_2.
Qed.

Lemma event_list_clone_spec σ es :
  Forall (fun e => is_Some (σ !! Event._unused e)) es ->
  exists r σ',
    Calendar.EventList_clone σ es = Ok (r, σ') /\ σ ⊆ σ'
    /\ same_event_uids es r.
Proof.
  revert σ. induction es as [|e es IH]; intros σ Hall.
  - exists [], σ. by split_and!.
  - apply Forall_cons in Hall as [[o Ho] Hall].
    cbn [Calendar.EventList_clone].
    unfold Event.clone, container_clone, alloc. rewrite Ho. simpl.
    assert (Hsub : σ ⊆ <[fresh (dom σ) := o]> σ)
      by (apply insert_subseteq, not_elem_of_dom, is_fresh).
    destruct (IH (<[fresh (dom σ) := o]> σ)) as (r & σ' & Hr & Hsub' & Hu).
    { eapply Forall_impl; [exact Hall|]. intros y [o' Ho'].
      exists o'. by eapply lookup_weaken. }
    rewrite Hr. simpl. eexists _, _. split_and!; [done|by etrans|].
    unfold same_event_uids in *. by rewrite !fmap_cons, Hu.
Qed.

(** X30. Equality of calendars, and the clone. Two calendars are equal as
    soon as their events and their todos have the same uids position by
    position and their [_unused] containers, scales, methods and creators
    are equal: nothing else of the items, and not the timezones, is
    looked at. Lists of different lengths make them unequal without
    anything else being read. A calendar as the class keeps it is equal
    to itself, and its clone is returned, has a new [_unused] container,
    leaves the store of the original as it is, and is equal to the
    original in both directions. A calendar that has no [_creator]
    attribute raises [AttributeError] when it is compared with
    itself. *)
Theorem calendars_compare_by_uid σ c es ts :
  kept_calendar σ c es ts ->
  (forall other es' ts',
     Calendar.items (Calendar._events other) = Calendar.EEvent <$> es' ->
     Calendar.items (Calendar._todos other) = Calendar.ETodo <$> ts' ->
     same_event_uids es es' ->
     same_todo_uids ts ts' ->
     σ !! Calendar._unused c = σ !! Calendar._unused other ->
     Calendar.scale c = Calendar.scale other ->
     Calendar.method c = Calendar.method other ->
     Calendar._creator c = Calendar._creator other ->
     Calendar.__eq__ σ c other = Ok true
     /\ Calendar.__ne__ σ c other = Ok false)
  /\ (forall other,
        length (Calendar.items (Calendar._events c))
        <> length (Calendar.items (Calendar._events other))
        \/ length (Calendar.items (Calendar._todos c))
           <> length (Calendar.items (Calendar._todos other)) ->
        Calendar.__eq__ σ c other = Ok false
        /\ Calendar.__ne__ σ c other = Ok true)
  /\ Calendar.__eq__ σ c c = Ok true
  /\ (exists c' σ',
        Calendar.clone σ c = Ok (c', σ')
        /\ σ ⊆ σ'
        /\ σ !! Calendar._unused c' = None
        /\ Calendar.__eq__ σ' c c' = Ok true
        /\ Calendar.__eq__ σ' c' c = Ok true)
  /\ Calendar.__eq__ σ (without_creator c) (without_creator c)
     = Raise AttributeError.
Proof.
  intros (Hev & Htd & Hcr & [o Ho] & Hes & Hts).
  assert (Hev' : Calendar.items (Calendar._events c) = Calendar.EEvent <$> es)
    by by rewrite Hev.
  assert (Htd' : Calendar.items (Calendar._todos c) = Calendar.ETodo <$> ts)
    by by rewrite Htd.
  split_and!.
  - intros other es' ts' He' Ht' Hue Hut Hu Hs Hm Hc.
    assert (Heq : Calendar.__eq__ σ c other = Ok true)
      by by eapply calendar_eq_by_uid.
    split; [done|]. unfold Calendar.__ne__. by rewrite Heq.
  - intros other Hlen.
    assert (Heq : Calendar.__eq__ σ c other = Ok false).
    { unfold Calendar.__eq__.
      destruct (Nat.eqb_spec (length (Calendar.items (Calendar._events c)))
                  (length (Calendar.items (Calendar._events other)))); [|done].
      destruct (Nat.eqb_spec (length (Calendar.items (Calendar._todos c)))
                  (length (Calendar.items (Calendar._todos other)))); [|done].
      by destruct Hlen. }
    split; [done|]. unfold Calendar.__ne__. by rewrite Heq.
  - by eapply calendar_eq_by_uid.
  - unfold Calendar.clone, container_clone, alloc. rewrite Ho. simpl.
    assert (Hfresh : σ !! fresh (dom σ) = None)
      by (apply not_elem_of_dom, is_fresh).
    set (a := fresh (dom σ)) in *.
    assert (Hsub1 : σ ⊆ <[a := o]> σ) by by apply insert_subseteq.
    set (σ1 := <[a := o]> σ) in *.
    unfold Calendar.list_clone. rewrite Hev. simpl. rewrite as_events_fmap. simpl.
    destruct (event_list_clone_spec σ1 es) as (es' & σ2 & -> & Hsub2 & Hue).
    { eapply Forall_impl; [exact Hes|]. intros y [o' Ho'].
      exists o'. by eapply lookup_weaken. }
    simpl. rewrite Htd. simpl. rewrite as_todos_fmap. simpl.
    destruct (todo_list_clone_spec σ2 ts) as (ts' & σ3 & -> & Hsub3 & Hcopies & _).
    { eapply Forall_impl; [exact Hts|]. intros y [o' Ho'].
      exists o'. eapply lookup_weaken; [|exact Hsub2].
      by eapply lookup_weaken. }
    simpl. eexists _, _. split; [done|].
    assert (Hut : same_todo_uids ts ts').
    { unfold same_todo_uids. clear -Hcopies.
      induction Hcopies as [|x x' ts ts' (-> & _) _ IH]; [done|].
      by rewrite !fmap_cons, IH. }
    assert (Hsub : σ ⊆ σ3) by (etrans; [exact Hsub1|]; by etrans).
    assert (Ha : σ3 !! a = Some o).
    { eapply lookup_weaken; [|etrans; [exact Hsub2|exact Hsub3]].
      apply lookup_insert_eq. }
    assert (Hc : σ3 !! Calendar._unused c = Some o) by by eapply lookup_weaken.
    split_and!; [done|done| |].
    + eapply calendar_eq_by_uid; try done. simpl. by rewrite Hc, Ha.
    + eapply (calendar_eq_by_uid _ _ _ es' es ts' ts); try done.
      simpl. by rewrite Hc, Ha.
  - unfold Calendar.__eq__, without_creator. simpl. rewrite Hev, Htd. simpl.
    rewrite !Nat.eqb_refl. simpl.
    rewrite items_eq_events, items_eq_todos by done. simpl.
    by rewrite !bool_decide_eq_true_2.
Qed.

End CalendarEquality.

Lemma calendars_compare_by_uid_witness :
  Calendar.__eq__ (<[ 2%nat := OContainer "VCALENDAR" [] ]> tagged_store)
    tagged_calendar tagged_calendar = Ok true.
Proof.
  apply (fun H => proj1 (proj2 (proj2
    (calendars_compare_by_uid (<[ 2%nat := OContainer "VCALENDAR" [] ]> tagged_store)
       tagged_calendar [] [tagged_todo] H)))).
  split_and!; [reflexivity|reflexivity|by eexists|by eexists|constructor|].
  repeat constructor. by eexists.
Defined.
